(** * fpapi: the procurement data ingestion pipeline

    A shallow embedding of the ingestion pipeline of the Finnish
    procurement data backend:

    - [src/ckan-client.js]: resource filtering, year extraction, the
      download phase;
    - [src/database.js]: the schema of the two tables the pipeline writes
      and [clearInvoiceData];
    - the CSV importer ([importCSVFile], [insertBatch], [updateMetadata],
      [importAllFiles]);
    - the update script ([updateProcurementData]).

    Conventions of the model.

    - A JavaScript string is a [string] holding the bytes of its UTF-8
      encoding; [toLowerCase] and the white space of [trim], [parseFloat]
      and [parseInt] follow the Unicode definitions of ECMAScript.
    - [null] / [undefined] are [None].
    - A Number is a binary64 floating-point number ([spec_float] of the
      standard library); [parseFloat] and [parseInt] round the value they
      read to the nearest one, ties to even.
    - A table is the list of its rows in insertion order; the UNIQUE column
      of each table is enforced by the writes, which is proved below rather
      than assumed.  The columns filled by [CURRENT_TIMESTAMP] are left out.
    - [csv-parse] and the storage engine's row constraints are parameters
      of the importer. *)

From Stdlib Require Import ZArith NArith List String Ascii Bool Lia Permutation Sorted.
From Stdlib Require Import DecimalString SpecFloat.
From stdpp Require Import gmap strings list.
Import ListNotations.

Local Open Scope string_scope.
Local Open Scope list_scope.
Local Open Scope nat_scope.

(* ===================================================================== *)
(** * JavaScript string and number primitives used by the pipeline *)
(* ===================================================================== *)

Module JS.

(** ** Strings

    A JavaScript string is kept as the bytes of its UTF-8 encoding.  The
    fixed texts of the code are ASCII, so [startsWith], [includes],
    [endsWith], [split] and the regular expression for the year compare
    bytes; the operations that depend on the characters ([toLowerCase],
    the white space of [trim], [parseFloat] and [parseInt]) read the code
    points. *)

Definition is_digit (c : ascii) : bool :=
  let n := nat_of_ascii c in (48 <=? n) && (n <=? 57).

Definition digit_val (c : ascii) : nat := nat_of_ascii c - 48.

(** A continuation byte, [10xxxxxx]. *)
Definition is_continuation (c : ascii) : bool :=
  let n := N_of_ascii c in ((128 <=? n) && (n <=? 191))%N.

Definition payload (c : ascii) : N := (N_of_ascii c - 128)%N.

(** The code point of a well-formed sequence of two, three or four bytes
    (shortest form only; the surrogates, which a JavaScript string may
    hold unpaired, are let through). *)
Definition point2 (a b : ascii) : option N :=
  let x := N_of_ascii a in
  if ((194 <=? x) && (x <=? 223))%N && is_continuation b
  then Some ((x - 192) * 64 + payload b)%N
  else None.

Definition point3 (a b c : ascii) : option N :=
  let x := N_of_ascii a in
  if ((224 <=? x) && (x <=? 239))%N && is_continuation b && is_continuation c
     && implb (x =? 224)%N (160 <=? N_of_ascii b)%N
  then Some ((x - 224) * 4096 + payload b * 64 + payload c)%N
  else None.

Definition point4 (a b c d : ascii) : option N :=
  let x := N_of_ascii a in
  if ((240 <=? x) && (x <=? 244))%N
     && is_continuation b && is_continuation c && is_continuation d
     && implb (x =? 240)%N (144 <=? N_of_ascii b)%N
     && implb (x =? 244)%N (N_of_ascii b <=? 143)%N
  then Some ((x - 240) * 262144 + payload b * 4096 + payload c * 64 + payload d)%N
  else None.

(** A byte that belongs to no well-formed sequence stands for itself, above
    the code points. *)
Definition stray (c : ascii) : N := (0x110000 + N_of_ascii c)%N.

(** The code points of a string. *)
Fixpoint code_points (s : string) : list N :=
  match s with
  | EmptyString => []
  | String a t =>
      if (N_of_ascii a <? 128)%N then N_of_ascii a :: code_points t
      else
        match t with
        | EmptyString => [stray a]
        | String b t1 =>
            match point2 a b with
            | Some p => p :: code_points t1
            | None =>
                match t1 with
                | EmptyString => stray a :: code_points t
                | String c t2 =>
                    match point3 a b c with
                    | Some p => p :: code_points t2
                    | None =>
                        match t2 with
                        | EmptyString => stray a :: code_points t
                        | String d t3 =>
                            match point4 a b c d with
                            | Some p => p :: code_points t3
                            | None => stray a :: code_points t
                            end
                        end
                    end
                end
            end
        end
  end.

Definition byte_of (n : N) : ascii := ascii_of_N n.

(** The UTF-8 encoding of one code point. *)
Definition utf8_point (p : N) : list ascii :=
  (if p <? 0x80 then [byte_of p]
   else if p <? 0x800 then [byte_of (192 + p / 64); byte_of (128 + p mod 64)]
   else if p <? 0x10000 then
     [byte_of (224 + p / 4096); byte_of (128 + (p / 64) mod 64);
      byte_of (128 + p mod 64)]
   else if p <? 0x110000 then
     [byte_of (240 + p / 262144); byte_of (128 + (p / 4096) mod 64);
      byte_of (128 + (p / 64) mod 64); byte_of (128 + p mod 64)]
   else [byte_of (p - 0x110000)])%N.

Definition utf8 (l : list N) : string :=
  string_of_list_ascii (concat (map utf8_point l)).

(** The simple lower-case mappings of the Unicode Character Database
    (version 14), run-length encoded: [(first, last, step, target)] maps
    the code points [first], [first + step], ... up to [last] to [target],
    [target + step], ... *)
Definition lowercase_table : list (N * N * N * N) :=
  [(0x41, 0x5A, 1, 0x61); (0xC0, 0xD6, 1, 0xE0); (0xD8, 0xDE, 1, 0xF8);
   (0x100, 0x12E, 2, 0x101); (0x132, 0x136, 2, 0x133); (0x139, 0x147, 2, 0x13A);
   (0x14A, 0x176, 2, 0x14B); (0x178, 0x178, 1, 0xFF); (0x179, 0x17D, 2, 0x17A);
   (0x181, 0x181, 1, 0x253); (0x182, 0x184, 2, 0x183); (0x186, 0x186, 1, 0x254);
   (0x187, 0x187, 1, 0x188); (0x189, 0x18A, 1, 0x256); (0x18B, 0x18B, 1, 0x18C);
   (0x18E, 0x18E, 1, 0x1DD); (0x18F, 0x18F, 1, 0x259); (0x190, 0x190, 1, 0x25B);
   (0x191, 0x191, 1, 0x192); (0x193, 0x193, 1, 0x260); (0x194, 0x194, 1, 0x263);
   (0x196, 0x196, 1, 0x269); (0x197, 0x197, 1, 0x268); (0x198, 0x198, 1, 0x199);
   (0x19C, 0x19C, 1, 0x26F); (0x19D, 0x19D, 1, 0x272); (0x19F, 0x19F, 1, 0x275);
   (0x1A0, 0x1A4, 2, 0x1A1); (0x1A6, 0x1A6, 1, 0x280); (0x1A7, 0x1A7, 1, 0x1A8);
   (0x1A9, 0x1A9, 1, 0x283); (0x1AC, 0x1AC, 1, 0x1AD); (0x1AE, 0x1AE, 1, 0x288);
   (0x1AF, 0x1AF, 1, 0x1B0); (0x1B1, 0x1B2, 1, 0x28A); (0x1B3, 0x1B5, 2, 0x1B4);
   (0x1B7, 0x1B7, 1, 0x292); (0x1B8, 0x1B8, 1, 0x1B9); (0x1BC, 0x1BC, 1, 0x1BD);
   (0x1C4, 0x1C4, 1, 0x1C6); (0x1C5, 0x1C5, 1, 0x1C6); (0x1C7, 0x1C7, 1, 0x1C9);
   (0x1C8, 0x1C8, 1, 0x1C9); (0x1CA, 0x1CA, 1, 0x1CC); (0x1CB, 0x1DB, 2, 0x1CC);
   (0x1DE, 0x1EE, 2, 0x1DF); (0x1F1, 0x1F1, 1, 0x1F3); (0x1F2, 0x1F4, 2, 0x1F3);
   (0x1F6, 0x1F6, 1, 0x195); (0x1F7, 0x1F7, 1, 0x1BF); (0x1F8, 0x21E, 2, 0x1F9);
   (0x220, 0x220, 1, 0x19E); (0x222, 0x232, 2, 0x223); (0x23A, 0x23A, 1, 0x2C65);
   (0x23B, 0x23B, 1, 0x23C); (0x23D, 0x23D, 1, 0x19A); (0x23E, 0x23E, 1, 0x2C66);
   (0x241, 0x241, 1, 0x242); (0x243, 0x243, 1, 0x180); (0x244, 0x244, 1, 0x289);
   (0x245, 0x245, 1, 0x28C); (0x246, 0x24E, 2, 0x247); (0x370, 0x372, 2, 0x371);
   (0x376, 0x376, 1, 0x377); (0x37F, 0x37F, 1, 0x3F3); (0x386, 0x386, 1, 0x3AC);
   (0x388, 0x38A, 1, 0x3AD); (0x38C, 0x38C, 1, 0x3CC); (0x38E, 0x38F, 1, 0x3CD);
   (0x391, 0x3A1, 1, 0x3B1); (0x3A3, 0x3AB, 1, 0x3C3); (0x3CF, 0x3CF, 1, 0x3D7);
   (0x3D8, 0x3EE, 2, 0x3D9); (0x3F4, 0x3F4, 1, 0x3B8); (0x3F7, 0x3F7, 1, 0x3F8);
   (0x3F9, 0x3F9, 1, 0x3F2); (0x3FA, 0x3FA, 1, 0x3FB); (0x3FD, 0x3FF, 1, 0x37B);
   (0x400, 0x40F, 1, 0x450); (0x410, 0x42F, 1, 0x430); (0x460, 0x480, 2, 0x461);
   (0x48A, 0x4BE, 2, 0x48B); (0x4C0, 0x4C0, 1, 0x4CF); (0x4C1, 0x4CD, 2, 0x4C2);
   (0x4D0, 0x52E, 2, 0x4D1); (0x531, 0x556, 1, 0x561); (0x10A0, 0x10C5, 1, 0x2D00);
   (0x10C7, 0x10C7, 1, 0x2D27); (0x10CD, 0x10CD, 1, 0x2D2D); (0x13A0, 0x13EF, 1, 0xAB70);
   (0x13F0, 0x13F5, 1, 0x13F8); (0x1C90, 0x1CBA, 1, 0x10D0); (0x1CBD, 0x1CBF, 1, 0x10FD);
   (0x1E00, 0x1E94, 2, 0x1E01); (0x1E9E, 0x1E9E, 1, 0xDF); (0x1EA0, 0x1EFE, 2, 0x1EA1);
   (0x1F08, 0x1F0F, 1, 0x1F00); (0x1F18, 0x1F1D, 1, 0x1F10); (0x1F28, 0x1F2F, 1, 0x1F20);
   (0x1F38, 0x1F3F, 1, 0x1F30); (0x1F48, 0x1F4D, 1, 0x1F40); (0x1F59, 0x1F5F, 2, 0x1F51);
   (0x1F68, 0x1F6F, 1, 0x1F60); (0x1F88, 0x1F8F, 1, 0x1F80); (0x1F98, 0x1F9F, 1, 0x1F90);
   (0x1FA8, 0x1FAF, 1, 0x1FA0); (0x1FB8, 0x1FB9, 1, 0x1FB0); (0x1FBA, 0x1FBB, 1, 0x1F70);
   (0x1FBC, 0x1FBC, 1, 0x1FB3); (0x1FC8, 0x1FCB, 1, 0x1F72); (0x1FCC, 0x1FCC, 1, 0x1FC3);
   (0x1FD8, 0x1FD9, 1, 0x1FD0); (0x1FDA, 0x1FDB, 1, 0x1F76); (0x1FE8, 0x1FE9, 1, 0x1FE0);
   (0x1FEA, 0x1FEB, 1, 0x1F7A); (0x1FEC, 0x1FEC, 1, 0x1FE5); (0x1FF8, 0x1FF9, 1, 0x1F78);
   (0x1FFA, 0x1FFB, 1, 0x1F7C); (0x1FFC, 0x1FFC, 1, 0x1FF3); (0x2126, 0x2126, 1, 0x3C9);
   (0x212A, 0x212A, 1, 0x6B); (0x212B, 0x212B, 1, 0xE5); (0x2132, 0x2132, 1, 0x214E);
   (0x2160, 0x216F, 1, 0x2170); (0x2183, 0x2183, 1, 0x2184); (0x24B6, 0x24CF, 1, 0x24D0);
   (0x2C00, 0x2C2F, 1, 0x2C30); (0x2C60, 0x2C60, 1, 0x2C61); (0x2C62, 0x2C62, 1, 0x26B);
   (0x2C63, 0x2C63, 1, 0x1D7D); (0x2C64, 0x2C64, 1, 0x27D); (0x2C67, 0x2C6B, 2, 0x2C68);
   (0x2C6D, 0x2C6D, 1, 0x251); (0x2C6E, 0x2C6E, 1, 0x271); (0x2C6F, 0x2C6F, 1, 0x250);
   (0x2C70, 0x2C70, 1, 0x252); (0x2C72, 0x2C72, 1, 0x2C73); (0x2C75, 0x2C75, 1, 0x2C76);
   (0x2C7E, 0x2C7F, 1, 0x23F); (0x2C80, 0x2CE2, 2, 0x2C81); (0x2CEB, 0x2CED, 2, 0x2CEC);
   (0x2CF2, 0x2CF2, 1, 0x2CF3); (0xA640, 0xA66C, 2, 0xA641); (0xA680, 0xA69A, 2, 0xA681);
   (0xA722, 0xA72E, 2, 0xA723); (0xA732, 0xA76E, 2, 0xA733); (0xA779, 0xA77B, 2, 0xA77A);
   (0xA77D, 0xA77D, 1, 0x1D79); (0xA77E, 0xA786, 2, 0xA77F); (0xA78B, 0xA78B, 1, 0xA78C);
   (0xA78D, 0xA78D, 1, 0x265); (0xA790, 0xA792, 2, 0xA791); (0xA796, 0xA7A8, 2, 0xA797);
   (0xA7AA, 0xA7AA, 1, 0x266); (0xA7AB, 0xA7AB, 1, 0x25C); (0xA7AC, 0xA7AC, 1, 0x261);
   (0xA7AD, 0xA7AD, 1, 0x26C); (0xA7AE, 0xA7AE, 1, 0x26A); (0xA7B0, 0xA7B0, 1, 0x29E);
   (0xA7B1, 0xA7B1, 1, 0x287); (0xA7B2, 0xA7B2, 1, 0x29D); (0xA7B3, 0xA7B3, 1, 0xAB53);
   (0xA7B4, 0xA7C2, 2, 0xA7B5); (0xA7C4, 0xA7C4, 1, 0xA794); (0xA7C5, 0xA7C5, 1, 0x282);
   (0xA7C6, 0xA7C6, 1, 0x1D8E); (0xA7C7, 0xA7C9, 2, 0xA7C8); (0xA7D0, 0xA7D0, 1, 0xA7D1);
   (0xA7D6, 0xA7D8, 2, 0xA7D7); (0xA7F5, 0xA7F5, 1, 0xA7F6); (0xFF21, 0xFF3A, 1, 0xFF41);
   (0x10400, 0x10427, 1, 0x10428); (0x104B0, 0x104D3, 1, 0x104D8);
   (0x10570, 0x10594, 2, 0x10597); (0x10571, 0x10579, 2, 0x10598);
   (0x1057D, 0x10589, 2, 0x105A4); (0x1058D, 0x10591, 2, 0x105B4);
   (0x10595, 0x10595, 1, 0x105BC); (0x10C80, 0x10CB2, 1, 0x10CC0);
   (0x118A0, 0x118BF, 1, 0x118C0); (0x16E40, 0x16E5F, 1, 0x16E60);
   (0x1E900, 0x1E921, 1, 0x1E922)]%N.

(** The code points with the property Cased, as ranges. *)
Definition cased_ranges : list (N * N) :=
  [(0x41, 0x5A); (0x61, 0x7A); (0xAA, 0xAA); (0xB5, 0xB5); (0xBA, 0xBA); (0xC0, 0xD6);
   (0xD8, 0xF6); (0xF8, 0x1BA); (0x1BC, 0x1BF); (0x1C4, 0x293); (0x295, 0x2B8);
   (0x2C0, 0x2C1); (0x2E0, 0x2E4); (0x345, 0x345); (0x370, 0x373); (0x376, 0x377);
   (0x37A, 0x37D); (0x37F, 0x37F); (0x386, 0x386); (0x388, 0x38A); (0x38C, 0x38C);
   (0x38E, 0x3A1); (0x3A3, 0x3F5); (0x3F7, 0x481); (0x48A, 0x52F); (0x531, 0x556);
   (0x560, 0x588); (0x10A0, 0x10C5); (0x10C7, 0x10C7); (0x10CD, 0x10CD); (0x10D0, 0x10FA);
   (0x10FD, 0x10FF); (0x13A0, 0x13F5); (0x13F8, 0x13FD); (0x1C80, 0x1C88);
   (0x1C90, 0x1CBA); (0x1CBD, 0x1CBF); (0x1D00, 0x1DBF); (0x1E00, 0x1F15);
   (0x1F18, 0x1F1D); (0x1F20, 0x1F45); (0x1F48, 0x1F4D); (0x1F50, 0x1F57);
   (0x1F59, 0x1F59); (0x1F5B, 0x1F5B); (0x1F5D, 0x1F5D); (0x1F5F, 0x1F7D);
   (0x1F80, 0x1FB4); (0x1FB6, 0x1FBC); (0x1FBE, 0x1FBE); (0x1FC2, 0x1FC4);
   (0x1FC6, 0x1FCC); (0x1FD0, 0x1FD3); (0x1FD6, 0x1FDB); (0x1FE0, 0x1FEC);
   (0x1FF2, 0x1FF4); (0x1FF6, 0x1FFC); (0x2071, 0x2071); (0x207F, 0x207F);
   (0x2090, 0x209C); (0x2102, 0x2102); (0x2107, 0x2107); (0x210A, 0x2113);
   (0x2115, 0x2115); (0x2119, 0x211D); (0x2124, 0x2124); (0x2126, 0x2126);
   (0x2128, 0x2128); (0x212A, 0x212D); (0x212F, 0x2134); (0x2139, 0x2139);
   (0x213C, 0x213F); (0x2145, 0x2149); (0x214E, 0x214E); (0x2160, 0x217F);
   (0x2183, 0x2184); (0x24B6, 0x24E9); (0x2C00, 0x2CE4); (0x2CEB, 0x2CEE);
   (0x2CF2, 0x2CF3); (0x2D00, 0x2D25); (0x2D27, 0x2D27); (0x2D2D, 0x2D2D);
   (0xA640, 0xA66D); (0xA680, 0xA69D); (0xA722, 0xA787); (0xA78B, 0xA78E);
   (0xA790, 0xA7CA); (0xA7D0, 0xA7D1); (0xA7D3, 0xA7D3); (0xA7D5, 0xA7D9);
   (0xA7F5, 0xA7F6); (0xA7F8, 0xA7FA); (0xAB30, 0xAB5A); (0xAB5C, 0xAB68);
   (0xAB70, 0xABBF); (0xFB00, 0xFB06); (0xFB13, 0xFB17); (0xFF21, 0xFF3A);
   (0xFF41, 0xFF5A); (0x10400, 0x1044F); (0x104B0, 0x104D3); (0x104D8, 0x104FB);
   (0x10570, 0x1057A); (0x1057C, 0x1058A); (0x1058C, 0x10592); (0x10594, 0x10595);
   (0x10597, 0x105A1); (0x105A3, 0x105B1); (0x105B3, 0x105B9); (0x105BB, 0x105BC);
   (0x10780, 0x10780); (0x10783, 0x10785); (0x10787, 0x107B0); (0x107B2, 0x107BA);
   (0x10C80, 0x10CB2); (0x10CC0, 0x10CF2); (0x118A0, 0x118DF); (0x16E40, 0x16E7F);
   (0x1D400, 0x1D454); (0x1D456, 0x1D49C); (0x1D49E, 0x1D49F); (0x1D4A2, 0x1D4A2);
   (0x1D4A5, 0x1D4A6); (0x1D4A9, 0x1D4AC); (0x1D4AE, 0x1D4B9); (0x1D4BB, 0x1D4BB);
   (0x1D4BD, 0x1D4C3); (0x1D4C5, 0x1D505); (0x1D507, 0x1D50A); (0x1D50D, 0x1D514);
   (0x1D516, 0x1D51C); (0x1D51E, 0x1D539); (0x1D53B, 0x1D53E); (0x1D540, 0x1D544);
   (0x1D546, 0x1D546); (0x1D54A, 0x1D550); (0x1D552, 0x1D6A5); (0x1D6A8, 0x1D6C0);
   (0x1D6C2, 0x1D6DA); (0x1D6DC, 0x1D6FA); (0x1D6FC, 0x1D714); (0x1D716, 0x1D734);
   (0x1D736, 0x1D74E); (0x1D750, 0x1D76E); (0x1D770, 0x1D788); (0x1D78A, 0x1D7A8);
   (0x1D7AA, 0x1D7C2); (0x1D7C4, 0x1D7CB); (0x1DF00, 0x1DF09); (0x1DF0B, 0x1DF1E);
   (0x1E900, 0x1E943); (0x1F130, 0x1F149); (0x1F150, 0x1F169); (0x1F170, 0x1F189)]%N.

(** The code points with the property Case_Ignorable, as ranges. *)
Definition case_ignorable_ranges : list (N * N) :=
  [(0x27, 0x27); (0x2E, 0x2E); (0x3A, 0x3A); (0x5E, 0x5E); (0x60, 0x60); (0xA8, 0xA8);
   (0xAD, 0xAD); (0xAF, 0xAF); (0xB4, 0xB4); (0xB7, 0xB8); (0x2B0, 0x36F); (0x374, 0x375);
   (0x37A, 0x37A); (0x384, 0x385); (0x387, 0x387); (0x483, 0x489); (0x559, 0x559);
   (0x55F, 0x55F); (0x591, 0x5BD); (0x5BF, 0x5BF); (0x5C1, 0x5C2); (0x5C4, 0x5C5);
   (0x5C7, 0x5C7); (0x5F4, 0x5F4); (0x600, 0x605); (0x610, 0x61A); (0x61C, 0x61C);
   (0x640, 0x640); (0x64B, 0x65F); (0x670, 0x670); (0x6D6, 0x6DD); (0x6DF, 0x6E8);
   (0x6EA, 0x6ED); (0x70F, 0x70F); (0x711, 0x711); (0x730, 0x74A); (0x7A6, 0x7B0);
   (0x7EB, 0x7F5); (0x7FA, 0x7FA); (0x7FD, 0x7FD); (0x816, 0x82D); (0x859, 0x85B);
   (0x888, 0x888); (0x890, 0x891); (0x898, 0x89F); (0x8C9, 0x902); (0x93A, 0x93A);
   (0x93C, 0x93C); (0x941, 0x948); (0x94D, 0x94D); (0x951, 0x957); (0x962, 0x963);
   (0x971, 0x971); (0x981, 0x981); (0x9BC, 0x9BC); (0x9C1, 0x9C4); (0x9CD, 0x9CD);
   (0x9E2, 0x9E3); (0x9FE, 0x9FE); (0xA01, 0xA02); (0xA3C, 0xA3C); (0xA41, 0xA42);
   (0xA47, 0xA48); (0xA4B, 0xA4D); (0xA51, 0xA51); (0xA70, 0xA71); (0xA75, 0xA75);
   (0xA81, 0xA82); (0xABC, 0xABC); (0xAC1, 0xAC5); (0xAC7, 0xAC8); (0xACD, 0xACD);
   (0xAE2, 0xAE3); (0xAFA, 0xAFF); (0xB01, 0xB01); (0xB3C, 0xB3C); (0xB3F, 0xB3F);
   (0xB41, 0xB44); (0xB4D, 0xB4D); (0xB55, 0xB56); (0xB62, 0xB63); (0xB82, 0xB82);
   (0xBC0, 0xBC0); (0xBCD, 0xBCD); (0xC00, 0xC00); (0xC04, 0xC04); (0xC3C, 0xC3C);
   (0xC3E, 0xC40); (0xC46, 0xC48); (0xC4A, 0xC4D); (0xC55, 0xC56); (0xC62, 0xC63);
   (0xC81, 0xC81); (0xCBC, 0xCBC); (0xCBF, 0xCBF); (0xCC6, 0xCC6); (0xCCC, 0xCCD);
   (0xCE2, 0xCE3); (0xD00, 0xD01); (0xD3B, 0xD3C); (0xD41, 0xD44); (0xD4D, 0xD4D);
   (0xD62, 0xD63); (0xD81, 0xD81); (0xDCA, 0xDCA); (0xDD2, 0xDD4); (0xDD6, 0xDD6);
   (0xE31, 0xE31); (0xE34, 0xE3A); (0xE46, 0xE4E); (0xEB1, 0xEB1); (0xEB4, 0xEBC);
   (0xEC6, 0xEC6); (0xEC8, 0xECD); (0xF18, 0xF19); (0xF35, 0xF35); (0xF37, 0xF37);
   (0xF39, 0xF39); (0xF71, 0xF7E); (0xF80, 0xF84); (0xF86, 0xF87); (0xF8D, 0xF97);
   (0xF99, 0xFBC); (0xFC6, 0xFC6); (0x102D, 0x1030); (0x1032, 0x1037); (0x1039, 0x103A);
   (0x103D, 0x103E); (0x1058, 0x1059); (0x105E, 0x1060); (0x1071, 0x1074);
   (0x1082, 0x1082); (0x1085, 0x1086); (0x108D, 0x108D); (0x109D, 0x109D);
   (0x10FC, 0x10FC); (0x135D, 0x135F); (0x1712, 0x1714); (0x1732, 0x1733);
   (0x1752, 0x1753); (0x1772, 0x1773); (0x17B4, 0x17B5); (0x17B7, 0x17BD);
   (0x17C6, 0x17C6); (0x17C9, 0x17D3); (0x17D7, 0x17D7); (0x17DD, 0x17DD);
   (0x180B, 0x180F); (0x1843, 0x1843); (0x1885, 0x1886); (0x18A9, 0x18A9);
   (0x1920, 0x1922); (0x1927, 0x1928); (0x1932, 0x1932); (0x1939, 0x193B);
   (0x1A17, 0x1A18); (0x1A1B, 0x1A1B); (0x1A56, 0x1A56); (0x1A58, 0x1A5E);
   (0x1A60, 0x1A60); (0x1A62, 0x1A62); (0x1A65, 0x1A6C); (0x1A73, 0x1A7C);
   (0x1A7F, 0x1A7F); (0x1AA7, 0x1AA7); (0x1AB0, 0x1ACE); (0x1B00, 0x1B03);
   (0x1B34, 0x1B34); (0x1B36, 0x1B3A); (0x1B3C, 0x1B3C); (0x1B42, 0x1B42);
   (0x1B6B, 0x1B73); (0x1B80, 0x1B81); (0x1BA2, 0x1BA5); (0x1BA8, 0x1BA9);
   (0x1BAB, 0x1BAD); (0x1BE6, 0x1BE6); (0x1BE8, 0x1BE9); (0x1BED, 0x1BED);
   (0x1BEF, 0x1BF1); (0x1C2C, 0x1C33); (0x1C36, 0x1C37); (0x1C78, 0x1C7D);
   (0x1CD0, 0x1CD2); (0x1CD4, 0x1CE0); (0x1CE2, 0x1CE8); (0x1CED, 0x1CED);
   (0x1CF4, 0x1CF4); (0x1CF8, 0x1CF9); (0x1D2C, 0x1D6A); (0x1D78, 0x1D78);
   (0x1D9B, 0x1DFF); (0x1FBD, 0x1FBD); (0x1FBF, 0x1FC1); (0x1FCD, 0x1FCF);
   (0x1FDD, 0x1FDF); (0x1FED, 0x1FEF); (0x1FFD, 0x1FFE); (0x200B, 0x200F);
   (0x2018, 0x2019); (0x2024, 0x2024); (0x2027, 0x2027); (0x202A, 0x202E);
   (0x2060, 0x2064); (0x2066, 0x206F); (0x2071, 0x2071); (0x207F, 0x207F);
   (0x2090, 0x209C); (0x20D0, 0x20F0); (0x2C7C, 0x2C7D); (0x2CEF, 0x2CF1);
   (0x2D6F, 0x2D6F); (0x2D7F, 0x2D7F); (0x2DE0, 0x2DFF); (0x2E2F, 0x2E2F);
   (0x3005, 0x3005); (0x302A, 0x302D); (0x3031, 0x3035); (0x303B, 0x303B);
   (0x3099, 0x309E); (0x30FC, 0x30FE); (0xA015, 0xA015); (0xA4F8, 0xA4FD);
   (0xA60C, 0xA60C); (0xA66F, 0xA672); (0xA674, 0xA67D); (0xA67F, 0xA67F);
   (0xA69C, 0xA69F); (0xA6F0, 0xA6F1); (0xA700, 0xA721); (0xA770, 0xA770);
   (0xA788, 0xA78A); (0xA7F2, 0xA7F4); (0xA7F8, 0xA7F9); (0xA802, 0xA802);
   (0xA806, 0xA806); (0xA80B, 0xA80B); (0xA825, 0xA826); (0xA82C, 0xA82C);
   (0xA8C4, 0xA8C5); (0xA8E0, 0xA8F1); (0xA8FF, 0xA8FF); (0xA926, 0xA92D);
   (0xA947, 0xA951); (0xA980, 0xA982); (0xA9B3, 0xA9B3); (0xA9B6, 0xA9B9);
   (0xA9BC, 0xA9BD); (0xA9CF, 0xA9CF); (0xA9E5, 0xA9E6); (0xAA29, 0xAA2E);
   (0xAA31, 0xAA32); (0xAA35, 0xAA36); (0xAA43, 0xAA43); (0xAA4C, 0xAA4C);
   (0xAA70, 0xAA70); (0xAA7C, 0xAA7C); (0xAAB0, 0xAAB0); (0xAAB2, 0xAAB4);
   (0xAAB7, 0xAAB8); (0xAABE, 0xAABF); (0xAAC1, 0xAAC1); (0xAADD, 0xAADD);
   (0xAAEC, 0xAAED); (0xAAF3, 0xAAF4); (0xAAF6, 0xAAF6); (0xAB5B, 0xAB5F);
   (0xAB69, 0xAB6B); (0xABE5, 0xABE5); (0xABE8, 0xABE8); (0xABED, 0xABED);
   (0xFB1E, 0xFB1E); (0xFBB2, 0xFBC2); (0xFE00, 0xFE0F); (0xFE13, 0xFE13);
   (0xFE20, 0xFE2F); (0xFE52, 0xFE52); (0xFE55, 0xFE55); (0xFEFF, 0xFEFF);
   (0xFF07, 0xFF07); (0xFF0E, 0xFF0E); (0xFF1A, 0xFF1A); (0xFF3E, 0xFF3E);
   (0xFF40, 0xFF40); (0xFF70, 0xFF70); (0xFF9E, 0xFF9F); (0xFFE3, 0xFFE3);
   (0xFFF9, 0xFFFB); (0x101FD, 0x101FD); (0x102E0, 0x102E0); (0x10376, 0x1037A);
   (0x10780, 0x10785); (0x10787, 0x107B0); (0x107B2, 0x107BA); (0x10A01, 0x10A03);
   (0x10A05, 0x10A06); (0x10A0C, 0x10A0F); (0x10A38, 0x10A3A); (0x10A3F, 0x10A3F);
   (0x10AE5, 0x10AE6); (0x10D24, 0x10D27); (0x10EAB, 0x10EAC); (0x10F46, 0x10F50);
   (0x10F82, 0x10F85); (0x11001, 0x11001); (0x11038, 0x11046); (0x11070, 0x11070);
   (0x11073, 0x11074); (0x1107F, 0x11081); (0x110B3, 0x110B6); (0x110B9, 0x110BA);
   (0x110BD, 0x110BD); (0x110C2, 0x110C2); (0x110CD, 0x110CD); (0x11100, 0x11102);
   (0x11127, 0x1112B); (0x1112D, 0x11134); (0x11173, 0x11173); (0x11180, 0x11181);
   (0x111B6, 0x111BE); (0x111C9, 0x111CC); (0x111CF, 0x111CF); (0x1122F, 0x11231);
   (0x11234, 0x11234); (0x11236, 0x11237); (0x1123E, 0x1123E); (0x112DF, 0x112DF);
   (0x112E3, 0x112EA); (0x11300, 0x11301); (0x1133B, 0x1133C); (0x11340, 0x11340);
   (0x11366, 0x1136C); (0x11370, 0x11374); (0x11438, 0x1143F); (0x11442, 0x11444);
   (0x11446, 0x11446); (0x1145E, 0x1145E); (0x114B3, 0x114B8); (0x114BA, 0x114BA);
   (0x114BF, 0x114C0); (0x114C2, 0x114C3); (0x115B2, 0x115B5); (0x115BC, 0x115BD);
   (0x115BF, 0x115C0); (0x115DC, 0x115DD); (0x11633, 0x1163A); (0x1163D, 0x1163D);
   (0x1163F, 0x11640); (0x116AB, 0x116AB); (0x116AD, 0x116AD); (0x116B0, 0x116B5);
   (0x116B7, 0x116B7); (0x1171D, 0x1171F); (0x11722, 0x11725); (0x11727, 0x1172B);
   (0x1182F, 0x11837); (0x11839, 0x1183A); (0x1193B, 0x1193C); (0x1193E, 0x1193E);
   (0x11943, 0x11943); (0x119D4, 0x119D7); (0x119DA, 0x119DB); (0x119E0, 0x119E0);
   (0x11A01, 0x11A0A); (0x11A33, 0x11A38); (0x11A3B, 0x11A3E); (0x11A47, 0x11A47);
   (0x11A51, 0x11A56); (0x11A59, 0x11A5B); (0x11A8A, 0x11A96); (0x11A98, 0x11A99);
   (0x11C30, 0x11C36); (0x11C38, 0x11C3D); (0x11C3F, 0x11C3F); (0x11C92, 0x11CA7);
   (0x11CAA, 0x11CB0); (0x11CB2, 0x11CB3); (0x11CB5, 0x11CB6); (0x11D31, 0x11D36);
   (0x11D3A, 0x11D3A); (0x11D3C, 0x11D3D); (0x11D3F, 0x11D45); (0x11D47, 0x11D47);
   (0x11D90, 0x11D91); (0x11D95, 0x11D95); (0x11D97, 0x11D97); (0x11EF3, 0x11EF4);
   (0x13430, 0x13438); (0x16AF0, 0x16AF4); (0x16B30, 0x16B36); (0x16B40, 0x16B43);
   (0x16F4F, 0x16F4F); (0x16F8F, 0x16F9F); (0x16FE0, 0x16FE1); (0x16FE3, 0x16FE4);
   (0x1AFF0, 0x1AFF3); (0x1AFF5, 0x1AFFB); (0x1AFFD, 0x1AFFE); (0x1BC9D, 0x1BC9E);
   (0x1BCA0, 0x1BCA3); (0x1CF00, 0x1CF2D); (0x1CF30, 0x1CF46); (0x1D167, 0x1D169);
   (0x1D173, 0x1D182); (0x1D185, 0x1D18B); (0x1D1AA, 0x1D1AD); (0x1D242, 0x1D244);
   (0x1DA00, 0x1DA36); (0x1DA3B, 0x1DA6C); (0x1DA75, 0x1DA75); (0x1DA84, 0x1DA84);
   (0x1DA9B, 0x1DA9F); (0x1DAA1, 0x1DAAF); (0x1E000, 0x1E006); (0x1E008, 0x1E018);
   (0x1E01B, 0x1E021); (0x1E023, 0x1E024); (0x1E026, 0x1E02A); (0x1E130, 0x1E13D);
   (0x1E2AE, 0x1E2AE); (0x1E2EC, 0x1E2EF); (0x1E8D0, 0x1E8D6); (0x1E944, 0x1E94B);
   (0x1F3FB, 0x1F3FF); (0xE0001, 0xE0001); (0xE0020, 0xE007F); (0xE0100, 0xE01EF)]%N.

Definition in_ranges (ranges : list (N * N)) (p : N) : bool :=
  existsb (fun '(first, last) => (first <=? p) && (p <=? last))%N ranges.

Definition cased (p : N) : bool := in_ranges cased_ranges p.

Definition case_ignorable (p : N) : bool := in_ranges case_ignorable_ranges p.

(** The simple lower-case mapping of a code point. *)
Definition lower_simple (p : N) : N :=
  match List.find (fun '(first, last, step, _) =>
                     (first <=? p) && (p <=? last) && ((p - first) mod step =? 0))%N
                  lowercase_table with
  | Some (first, _, _, target) => (target + (p - first))%N
  | None => p
  end.

(** The first code point of a list that is not case-ignorable is cased. *)
Fixpoint meets_cased (l : list N) : bool :=
  match l with
  | [] => false
  | p :: rest => if case_ignorable p then meets_cased rest else cased p
  end.

(** The condition Final_Sigma of the Unicode special casing: [before]
    holds the code points in front of the sigma, nearest first. *)
Definition final_sigma (before after : list N) : bool :=
  meets_cased before && negb (meets_cased after).

(** The lower case of one code point in its context: the capital sigma
    depends on its position, the capital I with a dot gives two code
    points, every other code point has its simple mapping. *)
Definition lower_point (before : list N) (p : N) (after : list N) : list N :=
  if (p =? 0x3A3)%N then [if final_sigma before after then 0x3C2 else 0x3C3]%N
  else if (p =? 0x130)%N then [0x69; 0x307]%N
  else [lower_simple p].

Fixpoint lower_points (before l : list N) : list N :=
  match l with
  | [] => []
  | p :: after => lower_point before p after ++ lower_points (p :: before) after
  end.

(** [s.toLowerCase()] *)
Definition toLowerCase (s : string) : string :=
  utf8 (lower_points [] (code_points s)).

(** [s.startsWith(p)] *)
Fixpoint startsWith (s p : string) : bool :=
  match p, s with
  | EmptyString, _ => true
  | String _ _, EmptyString => false
  | String a p', String b s' => Ascii.eqb a b && startsWith s' p'
  end.

(** [s.includes(p)] *)
Fixpoint includes (s p : string) : bool :=
  startsWith s p ||
  match s with
  | EmptyString => false
  | String _ t => includes t p
  end.

(** [s.endsWith(p)] *)
Fixpoint endsWith (s p : string) : bool :=
  String.eqb s p ||
  match s with
  | EmptyString => false
  | String _ t => endsWith t p
  end.

(** Truthiness of [string | undefined]: only a present, non-empty string
    is truthy. *)
Definition truthy (v : option string) : bool :=
  match v with
  | Some (String _ _) => true
  | _ => false
  end.

(** [a || b] on two such values. *)
Definition or_else (a b : option string) : option string :=
  if truthy a then a else b.

(** ** White space

    The characters WhiteSpace and LineTerminator of ECMAScript, which
    [trim], [parseFloat] and [parseInt] skip. *)
Definition white_space (p : N) : bool :=
  ((9 <=? p) && (p <=? 13) || (p =? 0x20) || (p =? 0xA0) || (p =? 0x1680)
   || (0x2000 <=? p) && (p <=? 0x200A) || (p =? 0x2028) || (p =? 0x2029)
   || (p =? 0x202F) || (p =? 0x205F) || (p =? 0x3000) || (p =? 0xFEFF))%N.

(** A white space character of one byte. *)
Definition is_space (c : ascii) : bool :=
  (N_of_ascii c <? 128)%N && white_space (N_of_ascii c).

Definition is_space2 (a b : ascii) : bool :=
  match point2 a b with Some p => white_space p | None => false end.

Definition is_space3 (a b c : ascii) : bool :=
  match point3 a b c with Some p => white_space p | None => false end.

(** The string without the white space in front of it (no white space
    character takes four bytes). *)
Fixpoint skip_spaces (s : string) : string :=
  match s with
  | EmptyString => s
  | String a t =>
      if is_space a then skip_spaces t
      else
        match t with
        | EmptyString => s
        | String b t1 =>
            if is_space2 a b then skip_spaces t1
            else
              match t1 with
              | EmptyString => s
              | String c t2 => if is_space3 a b c then skip_spaces t2 else s
              end
        end
  end.

(** The same from the end of a string: [l] holds the bytes last first. *)
Fixpoint skip_spaces_back (l : list ascii) : list ascii :=
  match l with
  | [] => l
  | a :: t =>
      if is_space a then skip_spaces_back t
      else
        match t with
        | [] => l
        | b :: t1 =>
            if is_space2 b a then skip_spaces_back t1
            else
              match t1 with
              | [] => l
              | c :: t2 => if is_space3 c b a then skip_spaces_back t2 else l
              end
        end
  end.

(** ** Numbers

    A Number is a binary64 floating-point number, in the representation of
    the standard library's specification of IEEE 754 arithmetic. *)
Definition number : Type := spec_float.

Definition NaN : number := S754_nan.
Definition Inf (neg : bool) : number := S754_infinity neg.

Definition prec : Z := 53.
Definition emax : Z := 1024.

Definition is_NaN (x : number) : bool :=
  match x with S754_nan => true | _ => false end.

(** The number is (plus or minus) zero. *)
Definition is_zero (x : number) : bool :=
  match x with S754_zero _ => true | _ => false end.

(** The Number for the mathematical value [(-1)^neg * m * 10^e]: the
    nearest binary64 number, ties to even, an infinity when the value is
    too large. *)
Definition of_decimal (neg : bool) (m : N) (e : Z) : number :=
  match m with
  | N0 => S754_zero neg
  | Npos p =>
      if (0 <=? e)%Z
      then binary_normalize prec emax (cond_Zopp neg (Zpos p * 10 ^ e)) 0 neg
      else
        let '(q, e2, l) :=
          SFdiv_core_binary prec emax (Zpos p) 0 (10 ^ (- e)) 0 in
        binary_round_aux prec emax neg q e2 l
  end.

(** The longest run of decimal digits in front of [s], and the rest. *)
Fixpoint span_digits (s : string) : list nat * string :=
  match s with
  | String c t =>
      if is_digit c
      then let '(ds, r) := span_digits t in (digit_val c :: ds, r)
      else ([], s)
  | EmptyString => ([], s)
  end.

Definition digits_value (ds : list nat) : N :=
  fold_left (fun acc d => (acc * 10 + N.of_nat d)%N) ds 0%N.

(** An optional sign. *)
Definition take_sign (s : string) : bool * string :=
  match s with
  | String "-" t => (true, t)
  | String "+" t => (false, t)
  | _ => (false, s)
  end.

(** The exponent part [e[+-]ddd], read only when at least one digit
    follows. *)
Definition exponent_part (s : string) : Z :=
  match s with
  | String c t =>
      if Ascii.eqb c "e" || Ascii.eqb c "E" then
        let '(neg, t') := take_sign t in
        match span_digits t' with
        | ([], _) => 0%Z
        | (ds, _) =>
            let v := Z.of_N (digits_value ds) in
            if neg then (- v)%Z else v
        end
      else 0%Z
  | EmptyString => 0%Z
  end.

(** [parseFloat(s)]: skip white space, then read the longest prefix that
    is a decimal literal; [NaN] when there is none. *)
Definition parseFloat (s : string) : number :=
  let '(neg, s1) := take_sign (skip_spaces s) in
  if startsWith s1 "Infinity" then Inf neg
  else
    let '(ip, s2) := span_digits s1 in
    let '(fp, s3) :=
      match s2 with
      | String "." t => span_digits t
      | _ => ([], s2)
      end in
    match ip, fp with
    | [], [] => NaN
    | _, _ =>
        of_decimal neg (digits_value (ip ++ fp))
                   (exponent_part s3 - Z.of_nat (length fp))
    end.

End JS.

(* ===================================================================== *)
(** * src/ckan-client.js: resources *)
(* ===================================================================== *)

(** A resource of the dataset descriptor, with the fields the pipeline
    reads. *)
Record resource : Type := mkResource {
  res_id : string;
  res_name : string;
  res_url : string;
  res_format : string;
  res_last_modified : option string
}.

(** [filename.match(/(\d{4})/)]: the leftmost four consecutive digits. *)
Fixpoint match_d4 (s : string) : option (list nat) :=
  match s with
  | EmptyString => None
  | String a t =>
      match t with
      | String b (String c (String d _)) =>
          if JS.is_digit a && JS.is_digit b && JS.is_digit c && JS.is_digit d
          then Some [JS.digit_val a; JS.digit_val b; JS.digit_val c; JS.digit_val d]
          else match_d4 t
      | _ => None
      end
  end.

(** [parseInt] of a string of decimal digits. *)
Definition parseInt_digits (ds : list nat) : nat :=
  fold_left (fun acc d => acc * 10 + d) ds 0.

Definition extractYearFromFilename (filename : string) : option nat :=
  match match_d4 filename with
  | Some ds => Some (parseInt_digits ds)
  | None => None
  end.

(** [yearB - yearA], where [null] converts to 0. *)
Definition year_number (y : option nat) : Z :=
  match y with Some n => Z.of_nat n | None => 0%Z end.

Definition compare_by_year (a b : resource) : Z :=
  (year_number (extractYearFromFilename (res_name b))
   - year_number (extractYearFromFilename (res_name a)))%Z.

(** [Array.prototype.sort] is a stable sort; with a consistent comparator
    every stable sort gives the same array, here written as the insertion
    sort that puts an element in front of the first one it does not have to
    follow. *)
Section Sort.
Context {A : Type} (cmp : A -> A -> Z).

Fixpoint sort_insert (x : A) (l : list A) : list A :=
  match l with
  | [] => [x]
  | y :: l' =>
      if (cmp x y <=? 0)%Z then x :: y :: l' else y :: sort_insert x l'
  end.

Definition js_sort (l : list A) : list A := fold_right sort_insert [] l.
End Sort.

Definition isDataFile (r : resource) : bool :=
  let name := JS.toLowerCase (res_name r) in
  let format := JS.toLowerCase (res_format r) in
  JS.startsWith name "th_data_" &&
  (String.eqb format "csv" || String.eqb format "tsv"
   || JS.endsWith name ".csv" || JS.endsWith name ".tsv").

Definition isNotTranslation (r : resource) : bool :=
  let name := JS.toLowerCase (res_name r) in
  negb (JS.includes name "kaannokset") && negb (JS.includes name "translation").

Definition filterProcurementResources (resources : list resource) : list resource :=
  js_sort compare_by_year
    (List.filter (fun r => isDataFile r && isNotTranslation r) resources).


(* ===================================================================== *)
(** * src/database.js: the two tables written by the pipeline *)
(* ===================================================================== *)

(** The columns of [procurement_invoices] that the importer binds. *)
Record invoice : Type := mkInvoice {
  lasku_id : string;
  hankintayksikko : string;
  hankintayksikko_tunnus : option string;
  ylaorganisaatio : option string;
  ylaorganisaatio_tunnus : option string;
  toimittaja_y_tunnus : option string;
  toimittaja_nimi : option string;
  toimittaja_kunta : option string;
  tili : option string;
  hankintakategoria : string;
  tuote_palveluryhma : option string;
  tositepvm : string;
  tiliointisumma : JS.number;
  sektori : option string;
  data_year : option nat
}.

(** A stored row: [id INTEGER PRIMARY KEY AUTOINCREMENT] and the bound
    columns. *)
Record invoice_row : Type := mkInvoiceRow {
  row_id : nat;
  row_data : invoice
}.

(** A row of [dataset_metadata] (the ledger). *)
Record metadata_row : Type := mkMetadataRow {
  meta_id : nat;
  resource_id : string;
  resource_name : string;
  resource_url : string;
  file_format : string;
  meta_data_year : option nat;
  last_modified : option string;
  records_imported : nat;
  status : string
}.

(** The database: each table with the counter of its AUTOINCREMENT key. *)
Record database : Type := mkDatabase {
  procurement_invoices : list invoice_row;
  invoices_seq : nat;
  dataset_metadata : list metadata_row;
  metadata_seq : nat
}.

(** [CREATE TABLE IF NOT EXISTS ...]: rows are left as they are. *)
Definition initializeDatabase (db : database) : database := db.

(** [DELETE FROM procurement_invoices; DELETE FROM dataset_metadata]. *)
Definition clearInvoiceData (db : database) : database :=
  {| procurement_invoices := [];
     invoices_seq := invoices_seq db;
     dataset_metadata := [];
     metadata_seq := metadata_seq db |}.

(** [INSERT OR REPLACE INTO procurement_invoices]: the row holding the same
    [lasku_id] (UNIQUE) is deleted, then the new row is inserted under a
    fresh id. *)
Definition replace_invoice (inv : invoice) (rows : list invoice_row)
    (id : nat) : list invoice_row :=
  List.filter (fun r => negb (String.eqb (lasku_id (row_data r)) (lasku_id inv))) rows
  ++ [mkInvoiceRow id inv].

Definition insert_or_replace_invoice (db : database) (inv : invoice) : database :=
  {| procurement_invoices :=
       replace_invoice inv (procurement_invoices db) (S (invoices_seq db));
     invoices_seq := S (invoices_seq db);
     dataset_metadata := dataset_metadata db;
     metadata_seq := metadata_seq db |}.

(** [INSERT OR REPLACE INTO dataset_metadata], keyed by [resource_id]
    (UNIQUE). *)
Definition insert_or_replace_metadata (db : database)
    (mk : nat -> metadata_row) : database :=
  let row := mk (S (metadata_seq db)) in
  {| procurement_invoices := procurement_invoices db;
     invoices_seq := invoices_seq db;
     dataset_metadata :=
       List.filter (fun r => negb (String.eqb (resource_id r) (resource_id row)))
                   (dataset_metadata db)
       ++ [row];
     metadata_seq := S (metadata_seq db) |}.

(** The NOT NULL columns of [procurement_invoices] as the engine sees the
    bound values: the four required texts are always bound to a string;
    [data_year] is bound to NULL for a file name without a year, and a NaN
    amount is stored as NULL. *)
Definition schema_not_null (inv : invoice) : bool :=
  negb (JS.is_NaN (tiliointisumma inv)) &&
  match data_year inv with Some _ => true | None => false end.

(* ===================================================================== *)
(** * The CSV importer *)
(* ===================================================================== *)

(** A record as [csv-parse] emits it with [columns: true]: an object from
    column name to field text. *)
Abbreviation csv_record := (gmap string string).

(** How the parser's stream ends: ['end'], or ['error']. *)
Inductive stream_end : Type := EndOfFile | ParseError.

(** How one [importCSVFile] ends: the promise resolves with the two counts,
    it rejects (parser error), or an exception escapes an event handler and
    stops the process. *)
Inductive import_outcome : Type :=
| Resolved (recordCount errorCount : nat)
| Rejected
| Crashed.

(** The local variables of the promise body ([records], [recordCount],
    [errorCount]), the database, and the log of the [insertBatch] calls
    made so far (the argument of each call, oldest first). *)
Record import_state : Type := mkState {
  records : list invoice;
  recordCount : nat;
  errorCount : nat;
  store : database;
  flushes : list (list invoice)
}.

Record import_run : Type := mkRun {
  run_db : database;
  run_outcome : import_outcome;
  run_flushes : list (list invoice)
}.

(** The file system: path to content. *)
Abbreviation filesystem := (gmap string string).

Definition BATCH_SIZE : nat := 1000.

(** [Buffer.alloc(1024)] filled by [readSync(fd, buffer, 0, 1024, 0)]: the
    first 1024 bytes of the file, zero bytes after its end. *)
Fixpoint read_buffer (n : nat) (content : string) : string :=
  match n with
  | 0 => EmptyString
  | S n' =>
      match content with
      | String c t => String c (read_buffer n' t)
      | EmptyString => String zero (read_buffer n' EmptyString)
      end
  end.

(** [buffer.toString('utf-8').split('\n')[0]], on the bytes: decoding
    leaves the bytes of ['\n'] and [';'] in place and never produces them
    from other bytes. *)
Fixpoint first_line (s : string) : string :=
  match s with
  | EmptyString => EmptyString
  | String c t => if Ascii.eqb c "010" then EmptyString else String c (first_line t)
  end.

Definition SEMICOLON : ascii := ";".
Definition TAB : ascii := "009".
Definition COMMA : ascii := ",".

(** [detectDelimiter]; [file] is [None] when the file cannot be opened or
    read, which the [catch] turns into the fallback. *)
Definition detectDelimiter (file : option string) (format : string) : ascii :=
  match file with
  | Some content =>
      let firstLine := first_line (read_buffer 1024 content) in
      if JS.includes firstLine ";" then SEMICOLON
      else if String.eqb (JS.toLowerCase format) "tsv" then TAB
      else COMMA
  | None =>
      if String.eqb (JS.toLowerCase format) "tsv" then TAB else COMMA
  end.

(** [a || b || ''] *)
Definition or_empty (a b : option string) : string :=
  match JS.or_else a b with
  | Some (String c t) => String c t
  | _ => EmptyString
  end.

(** [a || b || null] *)
Definition or_null (a b : option string) : option string :=
  match JS.or_else a b with
  | Some (String c t) => Some (String c t)
  | _ => None
  end.

(** The object literal built from a record in the ['data'] handler. *)
Definition transform (year : option nat) (record : csv_record) : invoice :=
  {| lasku_id := or_empty (record !! "lasku_id") (record !! "invoice_id");
     hankintayksikko :=
       or_empty (record !! "hankintayksikko") (record !! "procurement_unit");
     hankintayksikko_tunnus :=
       or_null (record !! "hankintayksikko_tunnus") (record !! "procurement_unit_id");
     ylaorganisaatio :=
       or_null (record !! "ylaorganisaatio") (record !! "parent_organization");
     ylaorganisaatio_tunnus :=
       or_null (record !! "ylaorganisaatio_tunnus") (record !! "parent_organization_id");
     toimittaja_y_tunnus :=
       or_null (record !! "toimittaja_y_tunnus") (record !! "supplier_business_id");
     toimittaja_nimi :=
       or_null (record !! "toimittaja_nimi") (record !! "supplier_name");
     toimittaja_kunta :=
       or_null (record !! "toimittaja_kunta") (record !! "supplier_city");
     tili := or_null (record !! "tili") (record !! "account");
     hankintakategoria :=
       or_empty (record !! "hankintakategoria") (record !! "procurement_category");
     tuote_palveluryhma :=
       or_null (record !! "tuote_palveluryhma") (record !! "product_service_group");
     tositepvm := or_empty (record !! "tositepvm") (record !! "invoice_entry_date");
     tiliointisumma :=
       JS.parseFloat
         (match JS.or_else (JS.or_else (record !! "tiliointisumma")
                                       (record !! "posting_sum")) (Some "0") with
          | Some s => s
          | None => "0"
          end);
     sektori := or_null (record !! "sektori") (record !! "sector");
     data_year := year |}.

Definition nonempty (s : string) : bool :=
  match s with EmptyString => false | String _ _ => true end.

(** The required-fields test: [true] when the record passes. *)
Definition validate (inv : invoice) : bool :=
  nonempty (lasku_id inv) && nonempty (hankintayksikko inv)
  && nonempty (hankintakategoria inv) && nonempty (tositepvm inv).

Section Importer.

(** [csv-parse] on a file's content with a delimiter: the records it
    emits, and how the stream ends. *)
Variable csv_parse : ascii -> string -> list csv_record * stream_end.

(** Whether the engine accepts a bound row (its NOT NULL constraints);
    [insert.run] throws when it does not. *)
Variable row_accepted : invoice -> bool.

(** [insertMany]: the loop inside the transaction; [None] when
    [insert.run] throws. *)
Fixpoint insertMany (db : database) (invoices : list invoice) : option database :=
  match invoices with
  | [] => Some db
  | inv :: rest =>
      if row_accepted inv
      then insertMany (insert_or_replace_invoice db inv) rest
      else None
  end.

(** [insertBatch]: one [db.transaction]. [None]: the transaction rolled
    back, the database is as before the call, and the exception goes to
    the caller. *)
Definition insertBatch (db : database) (batch : list invoice) : option database :=
  insertMany db batch.

(** The ['data'] handler (its console output is not modelled). *)
Definition on_data (year : option nat) (st : import_state)
    (record : csv_record) : import_state :=
  let inv := transform year record in
  if negb (validate inv) then
    mkState (records st) (recordCount st) (S (errorCount st))
            (store st) (flushes st)
  else
    let records1 := records st ++ [inv] in
    let recordCount1 := S (recordCount st) in
    if BATCH_SIZE <=? length records1 then
      let batch := take BATCH_SIZE records1 in
      let rest := drop BATCH_SIZE records1 in
      match insertBatch (store st) batch with
      | Some db' =>
          mkState rest recordCount1 (errorCount st) db'
                  (flushes st ++ [batch])
      | None =>
          (* caught by the handler's own try/catch *)
          mkState rest recordCount1 (S (errorCount st)) (store st)
                  (flushes st ++ [batch])
      end
    else
      mkState records1 recordCount1 (errorCount st) (store st) (flushes st).

(** [updateMetadata] *)
Definition updateMetadata (db : database) (r : resource) (count : nat) : database :=
  insert_or_replace_metadata db (fun id =>
    {| meta_id := id;
       resource_id := res_id r;
       resource_name := res_name r;
       resource_url := res_url r;
       file_format := res_format r;
       meta_data_year := extractYearFromFilename (res_name r);
       last_modified := res_last_modified r;
       records_imported := count;
       status := "completed" |}).

(** The ['end'] handler. An exception of the last [insertBatch] is not
    caught by anything. *)
Definition on_end (r : resource) (st : import_state) : import_run :=
  match records st with
  | [] =>
      mkRun (updateMetadata (store st) r (recordCount st))
            (Resolved (recordCount st) (errorCount st))
            (flushes st)
  | _ :: _ =>
      match insertBatch (store st) (records st) with
      | Some db' =>
          mkRun (updateMetadata db' r (recordCount st))
                (Resolved (recordCount st) (errorCount st))
                (flushes st ++ [records st])
      | None =>
          mkRun (store st) Crashed (flushes st ++ [records st])
      end
  end.

Definition initial_state (db : database) : import_state :=
  mkState [] 0 0 db [].

(** The parser's events delivered in order. *)
Definition feed (year : option nat) (st : import_state)
    (rows : list csv_record) : import_state :=
  fold_left (on_data year) rows st.

(** The promise body run on the events of one stream: the ['data'] events
    in order, then ['end'] or ['error']. *)
Definition import_events (r : resource) (db : database)
    (rows : list csv_record) (fin : stream_end) : import_run :=
  let year := extractYearFromFilename (res_name r) in
  let st := feed year (initial_state db) rows in
  match fin with
  | EndOfFile => on_end r st
  | ParseError => mkRun (store st) Rejected (flushes st)
  end.

Definition importCSVFile (fs : filesystem) (db : database)
    (filePath : string) (r : resource) : import_run :=
  let format := JS.toLowerCase (res_format r) in
  let delimiter := detectDelimiter (fs !! filePath) format in
  match fs !! filePath with
  | None =>
      (* the read stream's 'error' has no listener *)
      mkRun db Crashed []
  | Some content =>
      let '(rows, fin) := csv_parse delimiter content in
      import_events r db rows fin
  end.

(** ** src/ckan-client.js: the download phase *)

Record download_result : Type := mkDownload {
  dl_filePath : string;
  dl_size : nat;
  dl_resource : resource;
  dl_skipped : bool
}.

Definition DOWNLOAD_DIR : string := "../data/csv".

Definition join_dir (dir filename : string) : string :=
  String.append dir (String.append "/" filename).

(** An element of [yearsToDownload]: what [parseInt] gave, a Number that is
    NaN, an integer, or an infinity (for a run of digits beyond the range
    of a double).  The sign of a zero is not kept: [includes] compares
    with SameValueZero. *)
Inductive js_int : Type := IntNaN | IntVal (z : Z) | IntInf (neg : bool).

(** [yearsToDownload.includes(year)] *)
Definition years_include (ys : list js_int) (year : option nat) : bool :=
  match year with
  | None => false
  | Some n =>
      existsb (fun y => match y with
                        | IntVal z => (z =? Z.of_nat n)%Z
                        | IntNaN | IntInf _ => false
                        end) ys
  end.

(** The catalog's answer ([None]: [fetchDatasetMetadata] throws) and, per
    URL, the body served ([None]: [downloadFile] throws). *)
Record remote : Type := mkRemote {
  catalog : option (list resource);
  body_of : string -> option string
}.

Definition select_years (yearsToDownload : option (list js_int))
    (resources : list resource) : list resource :=
  match yearsToDownload with
  | Some (y :: ys) =>
      List.filter
        (fun r => years_include (y :: ys) (extractYearFromFilename (res_name r)))
        resources
  | _ => resources
  end.

(** The loop of [downloadAllProcurementFiles]; [None] when a download
    throws. *)
Fixpoint download_loop (net : remote) (force : bool) (fs : filesystem)
    (todo : list resource) (acc : list download_result)
    : option (filesystem * list download_result) :=
  match todo with
  | [] => Some (fs, acc)
  | r :: rest =>
      let filePath := join_dir DOWNLOAD_DIR (res_name r) in
      match fs !! filePath with
      | Some existing =>
          if negb force then
            download_loop net force fs rest
              (acc ++ [mkDownload filePath (String.length existing) r true])
          else
            match body_of net (res_url r) with
            | Some body =>
                download_loop net force (<[filePath := body]> fs) rest
                  (acc ++ [mkDownload filePath (String.length body) r false])
            | None => None
            end
      | None =>
          match body_of net (res_url r) with
          | Some body =>
              download_loop net force (<[filePath := body]> fs) rest
                (acc ++ [mkDownload filePath (String.length body) r false])
          | None => None
          end
      end
  end.

Definition downloadAllProcurementFiles (net : remote)
    (yearsToDownload : option (list js_int)) (forceRedownload : bool)
    (fs : filesystem) : option (filesystem * list download_result) :=
  match catalog net with
  | None => None
  | Some dataset =>
      let resources := filterProcurementResources dataset in
      download_loop net forceRedownload fs
        (select_years yearsToDownload resources) []
  end.

(** ** [importAllFiles] *)

Inductive import_result : Type :=
| ImportOk (filename : string) (recordCount errorCount : nat)
| ImportFailed (filename : string).

Definition result_filename (x : import_result) : string :=
  match x with ImportOk f _ _ => f | ImportFailed f => f end.

(** The loop over [downloadResults]; the second component is [None] when
    the process stopped inside an import. *)
Fixpoint importAllFiles_loop (fs : filesystem) (db : database)
    (downloads : list download_result) (results : list import_result)
    : database * option (list import_result) :=
  match downloads with
  | [] => (db, Some results)
  | download :: rest =>
      let run := importCSVFile fs db (dl_filePath download) (dl_resource download) in
      match run_outcome run with
      | Resolved rc ec =>
          importAllFiles_loop fs (run_db run) rest
            (results ++ [ImportOk (res_name (dl_resource download)) rc ec])
      | Rejected =>
          importAllFiles_loop fs (run_db run) rest
            (results ++ [ImportFailed (res_name (dl_resource download))])
      | Crashed => (run_db run, None)
      end
  end.

Definition importAllFiles (fs : filesystem) (db : database)
    (downloadResults : list download_result)
    : database * option (list import_result) :=
  importAllFiles_loop fs db downloadResults [].

(** ** The update script *)

Record options : Type := mkOptions {
  years : option (list js_int);
  forceRedownload : bool;
  clearExisting : bool
}.

Inductive exit_status : Type :=
| Completed (importResults : list import_result)
| NoFiles
| Fatal
| Aborted.

Definition updateProcurementData (opts : options) (net : remote)
    (fs : filesystem) (db : database) : database * exit_status :=
  let db1 := initializeDatabase db in
  let db2 := if clearExisting opts then clearInvoiceData db1 else db1 in
  match downloadAllProcurementFiles net (years opts) (forceRedownload opts) fs with
  | None => (db2, Fatal)
  | Some (fs', downloadResults) =>
      match downloadResults with
      | [] => (db2, NoFiles)
      | _ :: _ =>
          match importAllFiles fs' db2 downloadResults with
          | (db3, Some importResults) => (db3, Completed importResults)
          | (db3, None) => (db3, Aborted)
          end
      end
  end.

End Importer.

(* ===================================================================== *)
(** * Reference notions used to state the properties *)
(* ===================================================================== *)

(** The four characters of [s] at positions [i .. i+3] when all four are
    decimal digits. *)
Definition window4 (s : string) (i : nat) : option (list nat) :=
  match String.get i s, String.get (i + 1) s,
        String.get (i + 2) s, String.get (i + 3) s with
  | Some a, Some b, Some c, Some d =>
      if JS.is_digit a && JS.is_digit b && JS.is_digit c && JS.is_digit d
      then Some [JS.digit_val a; JS.digit_val b; JS.digit_val c; JS.digit_val d]
      else None
  | _, _, _, _ => None
  end.

(** The maximal runs of digits of a string, left to right, each as the
    characters it is made of; [cur] is the run being read. *)
Fixpoint digit_runs_from (cur : list ascii) (s : string) : list (list ascii) :=
  match s with
  | EmptyString => match cur with [] => [] | _ => [cur] end
  | String c t =>
      if JS.is_digit c then digit_runs_from (cur ++ [c]) t
      else match cur with
           | [] => digit_runs_from [] t
           | _ => cur :: digit_runs_from [] t
           end
  end.

Definition digit_runs (s : string) : list (list ascii) := digit_runs_from [] s.

(** The first maximal digit run whose length is four. *)
Definition first_exact_run (runs : list (list ascii)) : option (list ascii) :=
  List.find (fun run => length run =? 4) runs.

(** The reading "first run of exactly four consecutive digits": the value of
    the first maximal digit run whose length is four. *)
Definition year_of_first_exact_run (s : string) : option nat :=
  match first_exact_run (digit_runs s) with
  | Some run => Some (parseInt_digits (map JS.digit_val run))
  | None => None
  end.

(** No run of digits of the string is longer than four. *)
Definition no_long_run (s : string) : bool :=
  forallb (fun run => length run <=? 4) (digit_runs s).

(** The sort key of a resource: its year, [null] counting as 0. *)
Definition year_key (r : resource) : Z :=
  year_number (extractYearFromFilename (res_name r)).

(** The selection rule of the resource filter, stated on the lowercased
    name and format. *)
Definition is_procurement_file (r : resource) : Prop :=
  let name := JS.toLowerCase (res_name r) in
  let format := JS.toLowerCase (res_format r) in
  (exists rest, name = String.append "th_data_" rest) /\
  (format = "csv" \/ format = "tsv" \/
   (exists stem, name = String.append stem ".csv") \/
   (exists stem, name = String.append stem ".tsv")) /\
  (forall a b, name <> String.append a (String.append "kaannokset" b)) /\
  (forall a b, name <> String.append a (String.append "translation" b)).

(** A semicolon occurs among the first 1024 bytes of the file, before any
    line feed. *)
Definition semicolon_on_first_line (content : string) : Prop :=
  exists i, i < 1024 /\ String.get i content = Some SEMICOLON /\
            forall j, j < i -> String.get j content <> Some "010"%char.

(** Descending by a key. *)
Definition key_desc {A : Type} (key : A -> Z) (a b : A) : Prop :=
  (key b <= key a)%Z.

(** The invoices of the records that pass the required-fields test, in
    file order, and the number of records that do not. *)
Definition accepted (year : option nat) (rows : list csv_record) : list invoice :=
  List.filter validate (map (transform year) rows).

Definition rejected (year : option nat) (rows : list csv_record) : nat :=
  length (List.filter (fun record => negb (validate (transform year record))) rows).

(** The state with one more error and nothing else changed. *)
Definition add_error (st : import_state) : import_state :=
  mkState (records st) (recordCount st) (S (errorCount st)) (store st) (flushes st).

(** The state seen from a handler that started with counts [rc0], [ec0] and
    a log [fl0]. *)
Definition offset (rc0 ec0 : nat) (fl0 : list (list invoice))
    (st : import_state) : import_state :=
  mkState (records st) (rc0 + recordCount st) (ec0 + errorCount st)
          (store st) (fl0 ++ flushes st).

(** The outcome with one more error. *)
Definition outcome_add_error (o : import_outcome) : import_outcome :=
  match o with
  | Resolved rc ec => Resolved rc (S ec)
  | Rejected => Rejected
  | Crashed => Crashed
  end.

(** The bound columns of the invoice table, row by row. *)
Definition invoice_columns (db : database) : list invoice :=
  map row_data (procurement_invoices db).

(** Insert-or-replace on the columns alone. *)
Definition put (inv : invoice) (l : list invoice) : list invoice :=
  List.filter (fun x => negb (String.eqb (lasku_id x) (lasku_id inv))) l ++ [inv].

Definition put_all (invs : list invoice) (l : list invoice) : list invoice :=
  fold_left (fun acc inv => put inv acc) invs l.

(** How many rows of the table carry a given invoice identifier. *)
Definition rows_with_id (id : string) (db : database) : nat :=
  length (List.filter (fun x => String.eqb (lasku_id x) id) (invoice_columns db)).

(** The ledger holds a completed row for a resource identifier. *)
Definition has_completed_row (id : string) (db : database) : Prop :=
  exists row, In row (dataset_metadata db) /\
              resource_id row = id /\ status row = "completed".

(** Every stored invoice and every ledger row belongs to one of the years
    [ys]. *)
Definition years_within (ys : list js_int) (db : database) : Prop :=
  Forall (fun inv => years_include ys (data_year inv) = true) (invoice_columns db) /\
  Forall (fun row => years_include ys (meta_data_year row) = true) (dataset_metadata db).

(** A download result with the [skipped] flag cleared. *)
Definition unskip (d : download_result) : download_result :=
  mkDownload (dl_filePath d) (dl_size d) (dl_resource d) false.

Section ImporterNotions.
Variable row_accepted : invoice -> bool.

(** The database after a sequence of [insertBatch] calls, a call that
    throws leaving it as it was. *)
Definition commit_all (db : database) (batches : list (list invoice)) : database :=
  fold_left (fun d b => match insertBatch row_accepted d b with
                        | Some d' => d'
                        | None => d
                        end) batches db.

(** The invoices of the batches that went through. *)
Definition written (batches : list (list invoice)) : list invoice :=
  concat (List.filter (forallb row_accepted) batches).

Definition failed_batches (batches : list (list invoice)) : nat :=
  length (List.filter (fun b => negb (forallb row_accepted b)) batches).

(** What holds of the handler state after the records [rows] of a stream
    started on database [db0]. *)
Definition feed_inv (year : option nat) (db0 : database)
    (rows : list csv_record) (st : import_state) : Prop :=
  concat (flushes st) ++ records st = accepted year rows /\
  Forall (fun b => length b = BATCH_SIZE) (flushes st) /\
  length (records st) < BATCH_SIZE /\
  recordCount st = length (accepted year rows) /\
  errorCount st = rejected year rows + failed_batches (flushes st) /\
  store st = commit_all db0 (flushes st).
End ImporterNotions.

(* ===================================================================== *)
(** * Sample data for the concrete checks *)
(* ===================================================================== *)

Definition empty_db : database := mkDatabase [] 0 [] 0.

Definition sample_resource : resource :=
  mkResource "res-2024" "th_data_2024.csv"
             "https://www.avoindata.fi/th_data_2024.csv" "CSV" None.

(** A record with the four required columns and an amount. *)
Definition sample_record (id amount : string) : csv_record :=
  <["lasku_id" := id]> (<["hankintayksikko" := "Helsinki"]>
  (<["hankintakategoria" := "ICT"]> (<["tositepvm" := "2024-01-31"]>
  (<["tiliointisumma" := amount]> ∅)))).

(** The same record without the invoice identifier. *)
Definition sample_record_no_id : csv_record :=
  delete "lasku_id" (sample_record "" "10.00").

Definition numbered_record (n : nat) : csv_record :=
  sample_record (String.append "INV-" (NilEmpty.string_of_uint (Nat.to_uint n))) "12.50".

Definition numbered_records (first count : nat) : list csv_record :=
  map numbered_record (seq first count).

(** A stand-in for [csv-parse] that emits the given records and ends
    normally; it is used with files that hold these records. *)
Definition emit_rows (rows : list csv_record)
    : ascii -> string -> list csv_record * stream_end :=
  fun _ _ => (rows, EndOfFile).

Definition sample_rows : list csv_record :=
  [sample_record "INV-1" "12.50"; sample_record "INV-2" "-3"; sample_record "INV-1" "99"].

Definition sample_path : string := join_dir DOWNLOAD_DIR "th_data_2024.csv".

(** The lines of a text file, each ended by a line feed. *)
Definition text_of_lines (lines : list string) : string :=
  fold_right (fun line rest => String.append line (String "010" rest)) EmptyString lines.

(** The file that holds [sample_rows]. *)
Definition sample_content : string :=
  text_of_lines
    ["lasku_id;hankintayksikko;hankintakategoria;tositepvm;tiliointisumma";
     "INV-1;Helsinki;ICT;2024-01-31;12.50";
     "INV-2;Helsinki;ICT;2024-01-31;-3";
     "INV-1;Helsinki;ICT;2024-01-31;99"].

(** The file of [sample_resource] is already on disk. *)
Definition sample_fs : filesystem := {[ sample_path := sample_content ]}.

(** A data file without a year in its name. *)
Definition undated_resource : resource :=
  mkResource "res-latest" "th_data_latest.csv"
             "https://www.avoindata.fi/th_data_latest.csv" "CSV" None.

(** The same records in the file of [undated_resource], already on disk,
    and a catalog that lists this resource only. *)
Definition undated_fs : filesystem :=
  {[ join_dir DOWNLOAD_DIR "th_data_latest.csv" := sample_content ]}.

Definition undated_net : remote :=
  mkRemote (Some [undated_resource]) (fun _ => None).

(** The catalog lists [sample_resource] only; no body can be fetched. *)
Definition sample_net : remote :=
  mkRemote (Some [sample_resource]) (fun _ => None).

(** A database holding one invoice and one ledger row of year 2023. *)
Definition db_2023 : database :=
  {| procurement_invoices :=
       [mkInvoiceRow 1 (transform (Some 2023) (sample_record "OLD-1" "5"))];
     invoices_seq := 1;
     dataset_metadata :=
       [mkMetadataRow 1 "res-2023" "th_data_2023.csv" "https://www.avoindata.fi/th_data_2023.csv"
                      "CSV" (Some 2023) None 1 "completed"];
     metadata_seq := 1 |}.

(* ===================================================================== *)
(** * Further notions for the importer *)
(* ===================================================================== *)

(** An optional column holds NULL or a non-empty text. *)
Definition optional_ok (o : option string) : bool :=
  match o with Some EmptyString => false | _ => true end.

Definition no_empty_optional (inv : invoice) : bool :=
  optional_ok (hankintayksikko_tunnus inv) && optional_ok (ylaorganisaatio inv)
  && optional_ok (ylaorganisaatio_tunnus inv) && optional_ok (toimittaja_y_tunnus inv)
  && optional_ok (toimittaja_nimi inv) && optional_ok (toimittaja_kunta inv)
  && optional_ok (tili inv) && optional_ok (tuote_palveluryhma inv)
  && optional_ok (sektori inv).

(** The four required texts are non-empty and no optional one is empty. *)
Definition well_formed_invoice (inv : invoice) : bool :=
  validate inv && no_empty_optional inv.

(** The invoice identifier of [x] is the one of some invoice of [invs]. *)
Definition touches (invs : list invoice) (x : invoice) : bool :=
  existsb (fun i => String.eqb (lasku_id x) (lasku_id i)) invs.

(** The AUTOINCREMENT ids of the invoice table: below the counter and
    increasing in row order. *)
Definition ids_fresh (db : database) : Prop :=
  Forall (fun row => row_id row <= invoices_seq db) (procurement_invoices db) /\
  StronglySorted lt (map row_id (procurement_invoices db)).

(** The accepted invoices still in the buffer when the stream ends, which
    the ['end'] handler flushes: what is left after the full batches. *)
Definition final_batch (acc : list invoice) : list invoice :=
  drop (BATCH_SIZE * (length acc / BATCH_SIZE)) acc.

(** The text handed to [parseFloat] when an amount column is filled. *)
Definition amount_text (record : csv_record) : option string :=
  JS.or_else (record !! "tiliointisumma") (record !! "posting_sum").

(** The text begins with a decimal literal or [Infinity]. *)
Definition starts_numeric (s : string) : bool :=
  JS.startsWith s "Infinity" ||
  match s with
  | String c t =>
      JS.is_digit c ||
      (Ascii.eqb c "." && match t with
                          | String d _ => JS.is_digit d
                          | EmptyString => false
                          end)
  | EmptyString => false
  end.

(* ===================================================================== *)
(** * Further notions for the download phase *)
(* ===================================================================== *)

(** Where the file of a resource is kept. *)
Definition resource_path (r : resource) : string :=
  join_dir DOWNLOAD_DIR (res_name r).

(** The download result of a resource whose file is on disk already. *)
Definition skipped_result (fs : filesystem) (r : resource) : download_result :=
  mkDownload (resource_path r)
             (match fs !! resource_path r with
              | Some existing => String.length existing
              | None => 0
              end)
             r true.

(** The database handed to the download phase. *)
Definition after_clear (opts : options) (db : database) : database :=
  if clearExisting opts then clearInvoiceData db else db.

(* ===================================================================== *)
(** * The command line of the update script *)
(* ===================================================================== *)

(** [s.split(sep)] for a separator of one character. *)
Fixpoint js_split (sep : ascii) (s : string) : list string :=
  match s with
  | EmptyString => [EmptyString]
  | String c t =>
      if Ascii.eqb c sep then EmptyString :: js_split sep t
      else match js_split sep t with
           | h :: rest => String c h :: rest
           | [] => [String c EmptyString]
           end
  end.

(** [s.trim()] *)
Definition js_trim (s : string) : string :=
  string_of_list_ascii
    (rev (JS.skip_spaces_back (rev (list_ascii_of_string (JS.skip_spaces s))))).

(** The value of a character as a digit of a radix up to 16. *)
Definition radix_digit (radix : nat) (c : ascii) : option nat :=
  let n := nat_of_ascii c in
  let v := if (48 <=? n) && (n <=? 57) then Some (n - 48)
           else if (97 <=? n) && (n <=? 102) then Some (n - 87)
           else if (65 <=? n) && (n <=? 70) then Some (n - 55)
           else None in
  match v with
  | Some d => if d <? radix then Some d else None
  | None => None
  end.

(** The digits of the radix in front of a string. *)
Fixpoint radix_digits (radix : nat) (s : string) : list nat :=
  match s with
  | String c t =>
      match radix_digit radix c with
      | Some d => d :: radix_digits radix t
      | None => []
      end
  | EmptyString => []
  end.

(** The integer held by a Number that [parseInt] returns. *)
Definition int_of_number (x : JS.number) : js_int :=
  match x with
  | S754_nan => IntNaN
  | S754_infinity neg => IntInf neg
  | S754_zero _ => IntVal 0
  | S754_finite neg m e => IntVal (cond_Zopp neg (Z.shiftl (Zpos m) e))
  end.

(** [parseInt(s)] without a radix: white space, a sign, [0x] or [0X] for
    base 16, then the longest run of digits; [NaN] when there is none.  The
    integer read is rounded to a Number. *)
Definition parseInt (s : string) : js_int :=
  let '(neg, s1) := JS.take_sign (JS.skip_spaces s) in
  let '(radix, s2) :=
    match s1 with
    | String "0" (String x t) =>
        if Ascii.eqb x "x" || Ascii.eqb x "X" then (16, t) else (10, s1)
    | _ => (10, s1)
    end in
  match radix_digits radix s2 with
  | [] => IntNaN
  | ds =>
      int_of_number
        (JS.of_decimal neg
           (fold_left (fun acc d => (acc * N.of_nat radix + N.of_nat d)%N) ds 0%N) 0)
  end.

(** [yearArg.split('=')[1].split(',').map(y => parseInt(y.trim()))]; an
    argument that starts with [--years=] always has the second segment. *)
Definition parse_years (yearArg : string) : list js_int :=
  match js_split "=" yearArg with
  | _ :: value :: _ => map (fun y => parseInt (js_trim y)) (js_split "," value)
  | _ => []
  end.

(** The options object built from [process.argv.slice(2)]. *)
Definition parse_options (args : list string) : options :=
  {| years :=
       match List.find (fun arg => JS.startsWith arg "--years=") args with
       | Some yearArg => Some (parse_years yearArg)
       | None => None
       end;
     forceRedownload := existsb (String.eqb "--force") args;
     clearExisting := existsb (String.eqb "--clear") args |}.

(** The value of a [--years=] argument that lists the given texts. *)
Fixpoint comma_separated (parts : list string) : string :=
  match parts with
  | [] => EmptyString
  | [p] => p
  | p :: rest => String.append p (String "," (comma_separated rest))
  end.

(** A text made of decimal digits only, at least one. *)
Definition is_number_text (s : string) : bool :=
  match s with
  | EmptyString => false
  | String _ _ => forallb JS.is_digit (list_ascii_of_string s)
  end.

Definition number_of_text (s : string) : Z :=
  Z.of_N (JS.digits_value (map JS.digit_val (list_ascii_of_string s))).

(* ===================================================================== *)
(** * The query layer (server): origins and filters *)
(* ===================================================================== *)

(** [allowedOrigins]; the fourth entry is [process.env.FRONTEND_URL]. *)
Definition allowedOrigins (FRONTEND_URL : option string) : list (option string) :=
  [Some "http://localhost:5173"; Some "http://localhost:3000";
   Some "http://localhost:4173"; FRONTEND_URL].

Inductive cors_answer : Type := CorsAllow | CorsDeny.

(** The [origin] function given to [cors]: the answer passed to the
    callback, and whether the "CORS blocked origin" warning was printed. *)
Definition cors_origin (FRONTEND_URL : option string) (origin : option string)
    : cors_answer * bool :=
  if negb (JS.truthy origin) then (CorsAllow, false)
  else if existsb (fun o => match o, origin with
                            | Some a, Some b => String.eqb a b
                            | _, _ => false
                            end) (allowedOrigins FRONTEND_URL)
          || existsb (fun o => match o with None => true | Some _ => false end)
                     (allowedOrigins FRONTEND_URL)
       then (CorsAllow, false)
       else (CorsAllow, true).

(** The query string of [GET /api/procurement/invoices]; each parameter is
    absent or one text. *)
Record invoice_query : Type := mkQuery {
  q_limit : option string;
  q_offset : option string;
  q_supplier : option string;
  q_category : option string;
  q_city : option string;
  q_minAmount : option string;
  q_maxAmount : option string;
  q_startDate : option string;
  q_endDate : option string;
  q_sector : option string;
  q_procurementUnit : option string;
  q_year : option string
}.

(** A value bound to a named parameter. *)
Inductive sql_value : Type :=
| SqlText (s : string)
| SqlReal (x : JS.number)
| SqlInteger (n : js_int).

(** [conditions] and [params]. *)
Record filter_state : Type := mkFilters {
  conditions : list string;
  params : list (string * sql_value)
}.

(** [if (p) { conditions.push(condition); params.name = value(p); }] *)
Definition add_condition (p : option string) (condition name : string)
    (value : string -> sql_value) (st : filter_state) : filter_state :=
  match p with
  | Some (String c t) =>
      mkFilters (conditions st ++ [condition])
                (params st ++ [(name, value (String c t))])
  | _ => st
  end.

Definition like_pattern (s : string) : sql_value :=
  SqlText (String.append "%" (String.append s "%")).

Definition build_filters (q : invoice_query) : filter_state :=
  let st0 := mkFilters [] [] in
  let st1 := add_condition (q_supplier q)
               "(toimittaja_nimi LIKE @supplier OR toimittaja_y_tunnus LIKE @supplier)"
               "supplier" like_pattern st0 in
  let st2 := add_condition (q_category q) "hankintakategoria LIKE @category"
               "category" like_pattern st1 in
  let st3 := add_condition (q_city q) "toimittaja_kunta LIKE @city"
               "city" like_pattern st2 in
  let st4 := add_condition (q_minAmount q) "tiliointisumma >= @minAmount"
               "minAmount" (fun s => SqlReal (JS.parseFloat s)) st3 in
  let st5 := add_condition (q_maxAmount q) "tiliointisumma <= @maxAmount"
               "maxAmount" (fun s => SqlReal (JS.parseFloat s)) st4 in
  let st6 := add_condition (q_startDate q) "tositepvm >= @startDate"
               "startDate" SqlText st5 in
  let st7 := add_condition (q_endDate q) "tositepvm <= @endDate"
               "endDate" SqlText st6 in
  let st8 := add_condition (q_sector q) "sektori = @sector"
               "sector" SqlText st7 in
  let st9 := add_condition (q_procurementUnit q) "hankintayksikko LIKE @procurementUnit"
               "procurementUnit" like_pattern st8 in
  add_condition (q_year q) "data_year = @year"
    "year" (fun s => SqlInteger (parseInt s)) st9.

(** [array.join(sep)] *)
Fixpoint js_join (sep : string) (l : list string) : string :=
  match l with
  | [] => EmptyString
  | [x] => x
  | x :: rest => String.append x (String.append sep (js_join sep rest))
  end.

Definition whereClause (q : invoice_query) : string :=
  match conditions (build_filters q) with
  | [] => EmptyString
  | cs => String.append "WHERE " (js_join " AND " cs)
  end.

Definition countQuery (q : invoice_query) : string :=
  String.append "SELECT COUNT(*) as total FROM procurement_invoices " (whereClause q).

(** Which filters of a query are filled. *)
Definition filled_filters (q : invoice_query) : list bool :=
  map JS.truthy
      [q_supplier q; q_category q; q_city q; q_minAmount q; q_maxAmount q;
       q_startDate q; q_endDate q; q_sector q; q_procurementUnit q; q_year q].

(* ===================================================================== *)
(** * More sample data *)
(* ===================================================================== *)

(** The invoice of year 2023 held by [db_2023]. *)
Definition old_invoice : invoice := transform (Some 2023) (sample_record "OLD-1" "5").

(** The last record of [sample_rows], which repeats the identifier of the
    first. *)
Definition last_sample_invoice : invoice :=
  transform (Some 2024) (sample_record "INV-1" "99").

(** A credit note written with a decimal comma. *)
Definition comma_record : csv_record := sample_record "INV-9" "-12,50".

(** Two queries that differ in what the supplier filter holds. *)
Definition sample_query (supplier : string) : invoice_query :=
  mkQuery None None (Some supplier) None None (Some "100") None None None None None None.

(* ===================================================================== *)
(** * Year extraction *)
(* ===================================================================== *)

Lemma window4_succ c t i : window4 (String c t) (S i) = window4 t i.
Proof. reflexivity. Qed.

Lemma match_d4_unfold c t :
  match_d4 (String c t) =
  match window4 (String c t) 0 with
  | Some ds => Some ds
  | None => match_d4 t
  end.
Proof.
  unfold window4. cbn [String.get Nat.add].
  destruct t as [|b [|c' [|d t']]]; cbn [match_d4 String.get]; try reflexivity.
  - destruct (_ && _); reflexivity.
Qed.

Lemma match_d4_first s ds :
  match_d4 s = Some ds <->
  exists i, window4 s i = Some ds /\ forall j, j < i -> window4 s j = None.
Proof.
  revert ds. induction s as [|c t IH]; intros ds.
  - split; [discriminate|]. intros (i & H & _). destruct i; discriminate.
  - rewrite match_d4_unfold.
    destruct (window4 (String c t) 0) as [ds0|] eqn:E0.
    + split.
      * intros [= <-]. exists 0. split; [exact E0|]. intros j Hj; lia.
      * intros (i & Hi & Hlt). destruct i as [|i].
        -- congruence.
        -- specialize (Hlt 0 ltac:(lia)). congruence.
    + rewrite IH. split.
      * intros (i & Hi & Hlt). exists (S i). split; [exact Hi|].
        intros [|j] Hj; [exact E0|]. rewrite window4_succ. apply Hlt. lia.
      * intros (i & Hi & Hlt). destruct i as [|i]; [congruence|].
        exists i. split; [exact Hi|].
        intros j Hj. rewrite <- (window4_succ c). apply Hlt. lia.
Qed.

Lemma match_d4_none s :
  match_d4 s = None <-> forall i, window4 s i = None.
Proof.
  induction s as [|c t IH].
  - split; [|reflexivity]. intros _ i. destruct i; reflexivity.
  - rewrite match_d4_unfold.
    destruct (window4 (String c t) 0) as [ds0|] eqn:E0.
    + split; [discriminate|]. intros H. specialize (H 0). congruence.
    + rewrite IH. split.
      * intros H [|i]; [exact E0|]. apply H.
      * intros H i. apply (H (S i)).
Qed.

(** A non-digit within a window rules it out. *)
Lemma window4_nondigit s i k c :
  k <= 3 -> String.get (i + k) s = Some c -> JS.is_digit c = false ->
  window4 s i = None.
Proof.
  intros Hk Hget Hc. unfold window4.
  destruct (String.get i s) as [a0|] eqn:E0; [|reflexivity].
  destruct (String.get (i + 1) s) as [a1|] eqn:E1; [|reflexivity].
  destruct (String.get (i + 2) s) as [a2|] eqn:E2; [|reflexivity].
  destruct (String.get (i + 3) s) as [a3|] eqn:E3; [|reflexivity].
  destruct k as [|[|[|[|k]]]]; [| | | |lia].
  - rewrite Nat.add_0_r, E0 in Hget. injection Hget as ->. by rewrite Hc.
  - rewrite E1 in Hget. injection Hget as ->. by rewrite Hc, andb_false_r.
  - rewrite E2 in Hget. injection Hget as ->. by rewrite Hc, !andb_false_r.
  - rewrite E3 in Hget. injection Hget as ->. by rewrite Hc, !andb_false_r.
Qed.

Lemma append_nil_l s : String.append EmptyString s = s.
Proof. reflexivity. Qed.

Lemma append_cons a s t : String.append (String a s) t = String a (String.append s t).
Proof. reflexivity. Qed.

Lemma get_after_prefix (cur : list ascii) c t :
  String.get (length cur) (String.append (string_of_list_ascii cur) (String c t))
  = Some c.
Proof. induction cur as [|a cur IH]; [reflexivity | exact IH]. Qed.

(** A non-digit within the first four characters rules out a match at the
    front. *)
Lemma match_d4_skip (cur : list ascii) c t :
  length cur <= 3 -> JS.is_digit c = false ->
  match_d4 (String.append (string_of_list_ascii cur) (String c t)) = match_d4 t.
Proof.
  intros Hlen Hc. induction cur as [|a cur IH].
  - cbn [string_of_list_ascii]. rewrite append_nil_l, match_d4_unfold.
    by rewrite (window4_nondigit _ 0 0 c).
  - cbn [string_of_list_ascii]. rewrite append_cons, match_d4_unfold.
    rewrite (window4_nondigit _ 0 (length (a :: cur)) c); [|exact Hlen| |exact Hc].
    + apply IH. cbn [length] in Hlen. lia.
    + exact (get_after_prefix (a :: cur) c t).
Qed.

(** Four digits at the front are the match. *)
Lemma match_d4_front a b c d t :
  JS.is_digit a = true -> JS.is_digit b = true ->
  JS.is_digit c = true -> JS.is_digit d = true ->
  match_d4 (String a (String b (String c (String d t))))
  = Some (map JS.digit_val [a; b; c; d]).
Proof.
  intros Ha Hb Hc Hd. rewrite match_d4_unfold. unfold window4. cbn [String.get Nat.add].
  by rewrite Ha, Hb, Hc, Hd.
Qed.

Lemma string_of_list_ascii_snoc (cur : list ascii) c t :
  String.append (string_of_list_ascii (cur ++ [c])) t
  = String.append (string_of_list_ascii cur) (String c t).
Proof.
  induction cur as [|a cur IH]; [reflexivity|].
  cbn [app string_of_list_ascii]. by rewrite !append_cons, IH.
Qed.

(** The run being read is a prefix of the first run found. *)
Lemma digit_runs_from_head (cur : list ascii) s :
  cur <> [] ->
  exists more rest, digit_runs_from cur s = (cur ++ more) :: rest.
Proof.
  revert cur. induction s as [|c t IH]; intros cur Hne; cbn.
  - destruct cur; [done|]. exists [], []. by rewrite app_nil_r.
  - destruct (JS.is_digit c).
    + destruct (IH (cur ++ [c])) as (more & rest & ->); [by destruct cur|].
      exists (c :: more), rest. by rewrite <- app_assoc.
    + destruct cur; [done|]. eexists [], _. by rewrite app_nil_r.
Qed.

(** On a name without a digit run longer than four, the match is the first
    run of exactly four digits. *)
Lemma match_d4_runs (cur : list ascii) s :
  length cur <= 3 ->
  Forall (fun c => JS.is_digit c = true) cur ->
  forallb (fun run => length run <=? 4) (digit_runs_from cur s) = true ->
  match_d4 (String.append (string_of_list_ascii cur) s)
  = option_map (map JS.digit_val) (first_exact_run (digit_runs_from cur s)).
Proof.
  revert cur. induction s as [|c t IH]; intros cur Hlen Hdig Hruns.
  - cbn [digit_runs_from].
    assert (Hnone : match_d4 (String.append (string_of_list_ascii cur) EmptyString) = None).
    { destruct cur as [|a [|b [|d [|e cur]]]]; cbn [length] in Hlen; try lia; reflexivity. }
    rewrite Hnone. destruct cur as [|a cur]; [reflexivity|].
    unfold first_exact_run. cbn [List.find].
    destruct (length (a :: cur) =? 4) eqn:E; [|reflexivity].
    apply Nat.eqb_eq in E. lia.
  - cbn [digit_runs_from] in *. destruct (JS.is_digit c) eqn:Hc.
    + rewrite <- string_of_list_ascii_snoc.
      destruct (Nat.eq_dec (length cur) 3) as [H3|H3].
      * destruct (digit_runs_from_head (cur ++ [c]) t) as (more & rest & E);
          [by destruct cur|].
        rewrite E in *. cbn [forallb] in Hruns.
        apply andb_true_iff in Hruns as [Hfirst _]. apply Nat.leb_le in Hfirst.
        rewrite !length_app in Hfirst. cbn [length] in Hfirst.
        assert (more = []) by (destruct more; [done | cbn in Hfirst; lia]). subst more.
        rewrite app_nil_r. unfold first_exact_run. cbn [List.find].
        rewrite length_app, H3. cbn [length Nat.add Nat.eqb option_map].
        destruct cur as [|a [|b [|d [|e cur]]]]; try discriminate.
        apply Forall_cons in Hdig as [Ha Hdig]. apply Forall_cons in Hdig as [Hb Hdig].
        apply Forall_cons in Hdig as [Hd _].
        cbn [app string_of_list_ascii]. rewrite !append_cons, append_nil_l.
        by rewrite match_d4_front.
      * apply IH; [rewrite length_app; cbn [length]; lia| |exact Hruns].
        apply Forall_app. split; [exact Hdig|]. by constructor.
    + rewrite (match_d4_skip cur c t Hlen Hc).
      destruct cur as [|a cur].
      * apply (IH [] ltac:(cbn; lia) ltac:(constructor) Hruns).
      * cbn [forallb] in Hruns. apply andb_true_iff in Hruns as [_ Hruns].
        unfold first_exact_run. cbn [List.find].
        destruct (length (a :: cur) =? 4) eqn:E; [apply Nat.eqb_eq in E; lia|].
        apply (IH [] ltac:(cbn; lia) ltac:(constructor) Hruns).
Qed.

Lemma extractYear_on_short_runs filename :
  no_long_run filename = true ->
  extractYearFromFilename filename = year_of_first_exact_run filename.
Proof.
  intros H. unfold extractYearFromFilename, year_of_first_exact_run.
  pose proof (match_d4_runs [] filename ltac:(cbn; lia) ltac:(constructor) H) as E.
  cbn [string_of_list_ascii] in E. rewrite append_nil_l in E. rewrite E.
  fold (digit_runs filename). by destruct (first_exact_run _).
Qed.

(** C2, as the code has it: [extractYearFromFilename] returns the value of
    the leftmost four consecutive digits of the file name, whether or not
    more digits follow them, and [null] exactly when the name has no four
    consecutive digits.  On a name without a digit run longer than four
    this is the value of the first run of exactly four digits, and [null]
    when there is no such run. *)
Theorem extractYear_leftmost_window (filename : string) :
  (forall y,
      extractYearFromFilename filename = Some y <->
      exists i ds,
        window4 filename i = Some ds /\
        (forall j, j < i -> window4 filename j = None) /\
        y = parseInt_digits ds) /\
  (extractYearFromFilename filename = None <->
   forall i, window4 filename i = None) /\
  (no_long_run filename = true ->
   extractYearFromFilename filename = year_of_first_exact_run filename).
Proof.
  split; [|split; [|apply extractYear_on_short_runs]];
    unfold extractYearFromFilename.
  - intros y. destruct (match_d4 filename) as [ds|] eqn:E.
    + apply match_d4_first in E. destruct E as (i & Hi & Hlt). split.
      * intros [= <-]. exists i, ds. auto.
      * intros (i' & ds' & Hi' & Hlt' & ->).
        destruct (Nat.lt_trichotomy i i') as [Hc|[Hc|Hc]].
        -- rewrite (Hlt' _ Hc) in Hi. discriminate.
        -- subst. congruence.
        -- rewrite (Hlt _ Hc) in Hi'. discriminate.
    + split; [discriminate|]. intros (i & ds & Hi & _).
      rewrite match_d4_none in E. rewrite E in Hi. discriminate.
  - rewrite <- match_d4_none. destruct (match_d4 filename); split; congruence.
Qed.

(** C2, as stated, fails: in "12345_2024.csv" the only run of exactly four
    digits is 2024, but the code answers 1234, the first four digits of the
    longer run. *)
Lemma extractYear_exact_run_counterexample :
  List.filter (fun run => length run =? 4) (digit_runs "12345_2024.csv")
    = [["2"; "0"; "2"; "4"]%char] /\
  year_of_first_exact_run "12345_2024.csv" = Some 2024 /\
  extractYearFromFilename "12345_2024.csv" = Some 1234 /\
  extractYearFromFilename "12345_2024.csv"
    <> year_of_first_exact_run "12345_2024.csv".
Proof. repeat split; try reflexivity. discriminate. Qed.

(* ===================================================================== *)
(** * Resource filtering *)
(* ===================================================================== *)

Lemma startsWith_spec s p :
  JS.startsWith s p = true <-> exists t, s = String.append p t.
Proof.
  revert s. induction p as [|a p IH]; intros s; cbn.
  - split; [intros _; exists s; reflexivity | destruct s; reflexivity].
  - destruct s as [|b s]; cbn.
    + split; [discriminate | intros [t Ht]; discriminate].
    + rewrite andb_true_iff, IH. split.
      * intros [Hab [t ->]]. apply Ascii.eqb_eq in Hab as ->. eauto.
      * intros [t [= -> ->]]. split; [apply Ascii.eqb_refl | eauto].
Qed.

Lemma includes_spec s p :
  JS.includes s p = true <->
  exists a b, s = String.append a (String.append p b).
Proof.
  induction s as [|c s IH].
  - cbn [JS.includes]. rewrite orb_false_r, startsWith_spec. split.
    + intros [t Ht]. exists EmptyString, t. exact Ht.
    + intros (a & b & H). destruct a; [eauto | discriminate].
  - cbn [JS.includes]. rewrite orb_true_iff, startsWith_spec, IH. split.
    + intros [[t Ht] | (a & b & ->)].
      * exists EmptyString, t. exact Ht.
      * exists (String c a), b. reflexivity.
    + intros (a & b & H). destruct a as [|c' a]; cbn in H.
      * left. eauto.
      * right. injection H as -> ->. eauto.
Qed.

Lemma endsWith_spec s p :
  JS.endsWith s p = true <-> exists a, s = String.append a p.
Proof.
  induction s as [|c s IH].
  - cbn [JS.endsWith]. rewrite orb_false_r, String.eqb_eq. split.
    + intros <-. exists EmptyString. reflexivity.
    + intros [a H]. destruct a; [exact H | discriminate].
  - cbn [JS.endsWith]. rewrite orb_true_iff, String.eqb_eq, IH. split.
    + intros [<- | [a ->]].
      * exists EmptyString. reflexivity.
      * exists (String c a). reflexivity.
    + intros [a H]. destruct a as [|c' a]; cbn in H.
      * left. exact H.
      * right. injection H as -> ->. eauto.
Qed.

Lemma includes_false_spec s p :
  JS.includes s p = false <->
  forall a b, s <> String.append a (String.append p b).
Proof.
  rewrite <- not_true_iff_false, includes_spec. split.
  - intros H a b E. apply H. eauto.
  - intros H (a & b & E). exact (H a b E).
Qed.

Lemma selected_spec (r : resource) :
  isDataFile r && isNotTranslation r = true <-> is_procurement_file r.
Proof.
  unfold isDataFile, isNotTranslation, is_procurement_file. cbv zeta.
  rewrite !andb_true_iff, !orb_true_iff, !negb_true_iff.
  rewrite startsWith_spec, !endsWith_spec, !includes_false_spec, !String.eqb_eq.
  tauto.
Qed.

Section SortByKey.
Context {A : Type} (key : A -> Z) (cmp : A -> A -> Z).
Hypothesis cmp_key : forall a b, cmp a b = (key b - key a)%Z.

Local Abbreviation key_desc := (key_desc key).

Lemma sort_insert_perm x l : Permutation (sort_insert cmp x l) (x :: l).
Proof.
  induction l as [|y l IH]; cbn; [reflexivity|].
  destruct (cmp x y <=? 0)%Z; [reflexivity|].
  rewrite IH. apply perm_swap.
Qed.

Lemma js_sort_perm l : Permutation (js_sort cmp l) l.
Proof.
  induction l as [|x l IH]; cbn; [reflexivity|].
  rewrite sort_insert_perm. by constructor.
Qed.

Lemma sort_insert_sorted x l :
  StronglySorted key_desc l -> StronglySorted key_desc (sort_insert cmp x l).
Proof.
  induction 1 as [|y l Hs IH Hy]; cbn.
  - repeat constructor.
  - destruct (cmp x y <=? 0)%Z eqn:E.
    + apply Z.leb_le in E. rewrite cmp_key in E.
      constructor; [by constructor|].
      constructor; [unfold key_desc; lia|].
      eapply List.Forall_impl; [|exact Hy]. unfold key_desc. intros; lia.
    + apply Z.leb_gt in E. rewrite cmp_key in E.
      constructor; [exact IH|].
      eapply Permutation_Forall; [symmetry; apply sort_insert_perm|].
      constructor; [unfold key_desc; lia | exact Hy].
  Qed.

Lemma js_sort_sorted l : StronglySorted key_desc (js_sort cmp l).
Proof.
  induction l as [|x l IH]; cbn; [constructor|].
  by apply sort_insert_sorted.
Qed.

Lemma sort_insert_stable k x l :
  List.filter (fun a => (key a =? k)%Z) (sort_insert cmp x l)
  = List.filter (fun a => (key a =? k)%Z) (x :: l).
Proof.
  induction l as [|y l IH]; [reflexivity|].
  cbn [sort_insert]. destruct (cmp x y <=? 0)%Z eqn:E; [reflexivity|].
  apply Z.leb_gt in E. rewrite cmp_key in E.
  cbn [List.filter] in *. rewrite IH.
  destruct (key y =? k)%Z eqn:Ey, (key x =? k)%Z eqn:Ex; try reflexivity.
  apply Z.eqb_eq in Ey, Ex. lia.
Qed.

Lemma js_sort_stable k l :
  List.filter (fun a => (key a =? k)%Z) (js_sort cmp l)
  = List.filter (fun a => (key a =? k)%Z) l.
Proof.
  induction l as [|x l IH]; [reflexivity|].
  cbn [js_sort fold_right]. rewrite sort_insert_stable.
  cbn [List.filter]. fold (js_sort cmp l). by rewrite IH.
Qed.
End SortByKey.

Lemma compare_by_year_key a b : compare_by_year a b = (year_key b - year_key a)%Z.
Proof. reflexivity. Qed.

(** C9: [filterProcurementResources] keeps exactly the resources whose
    lowercased name starts with [th_data_], whose format or extension is
    csv or tsv, and whose name has no translation marker; the result is in
    descending order of the extracted year ([null] counting as 0), and
    resources of equal year keep their catalog order.  For a descriptor
    with [th_data_2023.csv] and [th_data_2023_kaannokset.csv] only the
    first is returned. *)
Theorem filterProcurementResources_spec (resources : list resource) :
  let selected := fun r => isDataFile r && isNotTranslation r in
  let out := filterProcurementResources resources in
  (forall r, selected r = true <-> is_procurement_file r) /\
  (forall r, In r out <-> In r resources /\ is_procurement_file r) /\
  Permutation out (List.filter selected resources) /\
  StronglySorted (fun a b => (year_key b <= year_key a)%Z) out /\
  (forall k,
      List.filter (fun r => (year_key r =? k)%Z) out
      = List.filter (fun r => (year_key r =? k)%Z) (List.filter selected resources)) /\
  (forall id1 url1 fmt1 lm1 id2 url2 fmt2 lm2,
      let data := mkResource id1 "th_data_2023.csv" url1 fmt1 lm1 in
      let glossary := mkResource id2 "th_data_2023_kaannokset.csv" url2 fmt2 lm2 in
      filterProcurementResources [data; glossary] = [data] /\
      filterProcurementResources [glossary; data] = [data]).
Proof.
  cbv zeta. unfold filterProcurementResources.
  split; [exact selected_spec|].
  split.
  { intros r.
    rewrite (Permutation_in' (eq_refl r) (js_sort_perm compare_by_year _)).
    rewrite List.filter_In, selected_spec. reflexivity. }
  split; [apply js_sort_perm|].
  split; [apply (js_sort_sorted year_key compare_by_year compare_by_year_key)|].
  split; [intros k; apply (js_sort_stable year_key compare_by_year compare_by_year_key)|].
  intros id1 url1 fmt1 lm1 id2 url2 fmt2 lm2.
  assert (Hdata : isDataFile (mkResource id1 "th_data_2023.csv" url1 fmt1 lm1)
                  && isNotTranslation (mkResource id1 "th_data_2023.csv" url1 fmt1 lm1)
                  = true).
  { unfold isDataFile, isNotTranslation. cbn [res_name res_format].
    destruct (String.eqb (JS.toLowerCase fmt1) "csv"),
             (String.eqb (JS.toLowerCase fmt1) "tsv"); reflexivity. }
  assert (Hgloss : isDataFile (mkResource id2 "th_data_2023_kaannokset.csv" url2 fmt2 lm2)
                   && isNotTranslation
                        (mkResource id2 "th_data_2023_kaannokset.csv" url2 fmt2 lm2)
                   = false).
  { unfold isDataFile, isNotTranslation. cbn [res_name res_format].
    destruct (String.eqb (JS.toLowerCase fmt2) "csv"),
             (String.eqb (JS.toLowerCase fmt2) "tsv"); reflexivity. }
  cbn [List.filter]. rewrite Hdata, Hgloss. split; reflexivity.
Qed.

(* ===================================================================== *)
(** * Delimiter detection *)
(* ===================================================================== *)

Lemma includes_char c t :
  JS.includes (String c t) ";" = Ascii.eqb ";" c || JS.includes t ";".
Proof.
  cbn [JS.includes JS.startsWith].
  replace (JS.startsWith t "") with true by (by destruct t).
  by rewrite andb_true_r.
Qed.

Lemma get_empty i : String.get i EmptyString = None.
Proof. by destruct i. Qed.

Lemma first_line_semicolon n content :
  JS.includes (first_line (read_buffer n content)) ";" = true <->
  exists i, i < n /\ String.get i content = Some SEMICOLON /\
            forall j, j < i -> String.get j content <> Some "010"%char.
Proof.
  revert content. induction n as [|n IH]; intros content.
  - cbn. split; [discriminate|]. intros (i & Hi & _). lia.
  - destruct content as [|c t]; cbn [read_buffer first_line].
    + change (Ascii.eqb zero "010") with false. cbv iota.
      rewrite includes_char. change (Ascii.eqb ";" zero) with false.
      rewrite orb_false_l, IH. split.
      * intros (i & _ & Hi & _). rewrite get_empty in Hi. discriminate.
      * intros (i & _ & Hi & _). rewrite get_empty in Hi. discriminate.
    + destruct (Ascii.eqb c "010") eqn:Enl.
      * apply Ascii.eqb_eq in Enl as ->. split; [discriminate|].
        intros (i & _ & Hi & Hj). destruct i as [|i].
        -- cbn in Hi. discriminate.
        -- exfalso. apply (Hj 0); [lia | reflexivity].
      * apply Ascii.eqb_neq in Enl.
        rewrite includes_char, orb_true_iff, IH. split.
        -- intros [Hc | (i & Hi & Hget & Hj)].
           ++ apply Ascii.eqb_eq in Hc as <-. exists 0.
              split; [lia|]. split; [reflexivity|]. intros j Hj; lia.
           ++ exists (S i). split; [lia|]. split; [exact Hget|].
              intros [|j] Hlt; cbn [String.get].
              ** congruence.
              ** apply Hj. lia.
        -- intros (i & Hi & Hget & Hj). destruct i as [|i].
           ++ left. cbn in Hget. injection Hget as ->. reflexivity.
           ++ right. exists i. split; [lia|]. split; [exact Hget|].
              intros j Hlt. apply (Hj (S j)). lia.
Qed.

Lemma detect_semicolon content format :
  semicolon_on_first_line content ->
  detectDelimiter (Some content) format = SEMICOLON.
Proof.
  intros H. apply first_line_semicolon in H. unfold detectDelimiter.
  by rewrite H.
Qed.

Lemma detect_no_semicolon content format :
  ~ semicolon_on_first_line content ->
  detectDelimiter (Some content) format = detectDelimiter None format.
Proof.
  intros H. unfold detectDelimiter.
  destruct (JS.includes _ ";") eqn:E; [|reflexivity].
  exfalso. apply H. by apply first_line_semicolon.
Qed.

(** C8: [detectDelimiter] looks only at the first line within the first
    1024 bytes: a semicolon there gives the semicolon whatever the declared
    format; otherwise tsv gives the tab and anything else the comma.  An
    unreadable file gives the same format-based choice.  The function is
    total: it never raises. *)
Theorem detectDelimiter_spec (format : string) :
  (forall content,
      semicolon_on_first_line content ->
      detectDelimiter (Some content) format = SEMICOLON) /\
  (forall content,
      ~ semicolon_on_first_line content ->
      (JS.toLowerCase format = "tsv" -> detectDelimiter (Some content) format = TAB) /\
      (JS.toLowerCase format <> "tsv" -> detectDelimiter (Some content) format = COMMA)) /\
  (JS.toLowerCase format = "tsv" -> detectDelimiter None format = TAB) /\
  (JS.toLowerCase format <> "tsv" -> detectDelimiter None format = COMMA) /\
  (forall c1 c2,
      (forall i, i < 1024 -> String.get i c1 = String.get i c2) ->
      detectDelimiter (Some c1) format = detectDelimiter (Some c2) format).
Proof.
  assert (Htsv : JS.toLowerCase format = "tsv" -> detectDelimiter None format = TAB).
  { intros H. unfold detectDelimiter. by rewrite H. }
  assert (Hother : JS.toLowerCase format <> "tsv" -> detectDelimiter None format = COMMA).
  { intros H. unfold detectDelimiter. apply String.eqb_neq in H. by rewrite H. }
  split; [intros; by apply detect_semicolon|].
  split.
  { intros content H. rewrite (detect_no_semicolon _ _ H). auto. }
  split; [exact Htsv|]. split; [exact Hother|].
  intros c1 c2 Hsame.
  assert (Hiff : semicolon_on_first_line c1 <-> semicolon_on_first_line c2).
  { unfold semicolon_on_first_line. split; intros (i & Hi & Hget & Hj);
      exists i; (split; [exact Hi|]); split.
    - by rewrite <- Hsame.
    - intros j Hlt. rewrite <- Hsame by lia. by apply Hj.
    - by rewrite Hsame.
    - intros j Hlt. rewrite Hsame by lia. by apply Hj. }
  unfold detectDelimiter.
  destruct (JS.includes (first_line (read_buffer 1024 c1)) ";") eqn:E1,
           (JS.includes (first_line (read_buffer 1024 c2)) ";") eqn:E2;
    try reflexivity.
  - apply first_line_semicolon in E1. apply Hiff, first_line_semicolon in E1. congruence.
  - apply first_line_semicolon in E2. apply Hiff, first_line_semicolon in E2. congruence.
Qed.

(* ===================================================================== *)
(** * The importer: handler steps *)
(* ===================================================================== *)

Lemma accepted_app year l1 l2 :
  accepted year (l1 ++ l2) = accepted year l1 ++ accepted year l2.
Proof. unfold accepted. by rewrite map_app, List.filter_app. Qed.

Lemma rejected_app year l1 l2 :
  rejected year (l1 ++ l2) = rejected year l1 + rejected year l2.
Proof. unfold rejected. by rewrite List.filter_app, length_app. Qed.

Lemma accepted_one_valid year record :
  validate (transform year record) = true ->
  accepted year [record] = [transform year record] /\ rejected year [record] = 0.
Proof. intros H. unfold accepted, rejected. cbn. by rewrite H. Qed.

Lemma accepted_one_invalid year record :
  validate (transform year record) = false ->
  accepted year [record] = [] /\ rejected year [record] = 1.
Proof. intros H. unfold accepted, rejected. cbn. by rewrite H. Qed.

Lemma validate_false_iff inv :
  validate inv = false <->
  lasku_id inv = "" \/ hankintayksikko inv = "" \/
  hankintakategoria inv = "" \/ tositepvm inv = "".
Proof.
  unfold validate.
  destruct (lasku_id inv), (hankintayksikko inv), (hankintakategoria inv),
    (tositepvm inv); cbn; split; intros H; try discriminate; auto;
    destruct H as [H|[H|[H|H]]]; discriminate.
Qed.

Section ImporterSteps.
Variable row_accepted : invoice -> bool.


(** Whether a batch commits depends on the batch alone. *)
Lemma insertBatch_eq db batch :
  insertBatch row_accepted db batch =
  if forallb row_accepted batch
  then Some (fold_left insert_or_replace_invoice batch db)
  else None.
Proof.
  unfold insertBatch. revert db.
  induction batch as [|inv batch IH]; intros db; cbn; [reflexivity|].
  destruct (row_accepted inv); cbn; [apply IH | reflexivity].
Qed.

Lemma on_data_invalid year st record :
  validate (transform year record) = false ->
  on_data row_accepted year st record = add_error st.
Proof. intros H. unfold on_data. by rewrite H. Qed.

Lemma on_data_buffered year st record :
  validate (transform year record) = true ->
  length (records st ++ [transform year record]) < BATCH_SIZE ->
  on_data row_accepted year st record =
  mkState (records st ++ [transform year record]) (S (recordCount st))
          (errorCount st) (store st) (flushes st).
Proof.
  intros H Hlen. unfold on_data. rewrite H. cbn [negb].
  apply Nat.leb_gt in Hlen. by rewrite Hlen.
Qed.

Lemma on_data_full year st record :
  validate (transform year record) = true ->
  length (records st ++ [transform year record]) = BATCH_SIZE ->
  on_data row_accepted year st record =
  let batch := records st ++ [transform year record] in
  match insertBatch row_accepted (store st) batch with
  | Some db' =>
      mkState [] (S (recordCount st)) (errorCount st) db' (flushes st ++ [batch])
  | None =>
      mkState [] (S (recordCount st)) (S (errorCount st)) (store st)
              (flushes st ++ [batch])
  end.
Proof.
  intros H Hlen. unfold on_data. rewrite H. cbn [negb].
  rewrite Hlen, Nat.leb_refl, <- Hlen, firstn_all, skipn_all. reflexivity.
Qed.

Lemma on_data_offset rc0 ec0 fl0 year st record :
  on_data row_accepted year (offset rc0 ec0 fl0 st) record
  = offset rc0 ec0 fl0 (on_data row_accepted year st record).
Proof.
  unfold on_data, offset. cbn [records recordCount errorCount store flushes].
  destruct (negb (validate (transform year record))).
  - cbn. by rewrite Nat.add_succ_r.
  - destruct (BATCH_SIZE <=? length (records st ++ [transform year record])).
    + destruct (insertBatch row_accepted (store st) _); cbn;
        by rewrite ?Nat.add_succ_r, ?app_assoc.
    + cbn. by rewrite Nat.add_succ_r.
Qed.

Lemma feed_offset rc0 ec0 fl0 year rows st :
  feed row_accepted year (offset rc0 ec0 fl0 st) rows = offset rc0 ec0 fl0 (feed row_accepted year st rows).
Proof.
  revert st. induction rows as [|record rows IH]; intros st; [reflexivity|].
  cbn. rewrite on_data_offset. apply IH.
Qed.

Lemma feed_app year st l1 l2 :
  feed row_accepted year st (l1 ++ l2) = feed row_accepted year (feed row_accepted year st l1) l2.
Proof. apply fold_left_app. Qed.

Lemma commit_all_snoc db fl b :
  commit_all row_accepted db (fl ++ [b]) =
  match insertBatch row_accepted (commit_all row_accepted db fl) b with
  | Some d => d
  | None => commit_all row_accepted db fl
  end.
Proof. unfold commit_all. by rewrite fold_left_app. Qed.

Lemma failed_batches_snoc fl b :
  failed_batches row_accepted (fl ++ [b]) =
  failed_batches row_accepted fl + (if forallb row_accepted b then 0 else 1).
Proof.
  unfold failed_batches. rewrite List.filter_app, length_app. cbn.
  by destruct (forallb row_accepted b).
Qed.

Lemma feed_inv_initial year db : feed_inv row_accepted year db [] (initial_state db).
Proof.
  unfold feed_inv, initial_state. cbn.
  repeat split; auto. unfold BATCH_SIZE. lia.
Qed.

Lemma feed_inv_step year db0 rows st record :
  feed_inv row_accepted year db0 rows st ->
  feed_inv row_accepted year db0 (rows ++ [record]) (on_data row_accepted year st record).
Proof.
  intros (Hacc & Hfl & Hlen & Hrc & Hec & Hst).
  unfold feed_inv. rewrite accepted_app, rejected_app, length_app.
  destruct (validate (transform year record)) eqn:Hv.
  - destruct (accepted_one_valid _ _ Hv) as [-> ->].
    destruct (Nat.lt_ge_cases (length (records st ++ [transform year record]))
                              BATCH_SIZE) as [Hlt|Hge].
    + rewrite (on_data_buffered _ _ _ Hv Hlt).
      cbn [records recordCount errorCount store flushes length].
      rewrite app_assoc, Hacc. repeat split; auto; lia.
    + assert (Hfull : length (records st ++ [transform year record]) = BATCH_SIZE).
      { rewrite length_app in *. cbn [length] in *. lia. }
      rewrite (on_data_full _ _ _ Hv Hfull). cbv zeta.
      rewrite insertBatch_eq.
      destruct (forallb row_accepted (records st ++ [transform year record])) eqn:Hok;
        cbn [records recordCount errorCount store flushes length];
        rewrite concat_app, failed_batches_snoc, commit_all_snoc, insertBatch_eq,
                Hok, <- Hst; cbn [concat]; rewrite !app_nil_r, app_assoc, Hacc.
      * repeat split; auto; try lia.
        apply Forall_app. split; [exact Hfl|]. by constructor.
      * repeat split; auto; try lia.
        apply Forall_app. split; [exact Hfl|]. by constructor.
  - destruct (accepted_one_invalid _ _ Hv) as [-> ->].
    rewrite (on_data_invalid _ _ _ Hv). unfold add_error.
    cbn [records recordCount errorCount store flushes length].
    rewrite app_nil_r. repeat split; auto; lia.
Qed.

Lemma feed_inv_feed year db0 rows st more :
  feed_inv row_accepted year db0 rows st ->
  feed_inv row_accepted year db0 (rows ++ more) (feed row_accepted year st more).
Proof.
  revert rows st. induction more as [|record more IH]; intros rows st H.
  - by rewrite app_nil_r.
  - cbn. replace (rows ++ record :: more) with ((rows ++ [record]) ++ more)
      by (by rewrite <- app_assoc).
    apply IH. by apply feed_inv_step.
Qed.

Lemma feed_spec year db rows :
  feed_inv row_accepted year db rows (feed row_accepted year (initial_state db) rows).
Proof. apply (feed_inv_feed year db [] _ rows), feed_inv_initial. Qed.

End ImporterSteps.

(* ===================================================================== *)
(** * The importer: amounts, rejection, batching *)
(* ===================================================================== *)

(** The amount of a record without an amount column (or with an empty one)
    is zero. *)
Lemma missing_amount_is_zero year (record : csv_record) :
  JS.truthy (record !! "tiliointisumma") = false ->
  JS.truthy (record !! "posting_sum") = false ->
  tiliointisumma (transform year record) = S754_zero false.
Proof.
  intros H1 H2. unfold transform. cbn [tiliointisumma].
  unfold JS.or_else. rewrite H1, H2. reflexivity.
Qed.

(** The required-fields test does not look at the amount. *)
Lemma validate_ignores_amount inv x :
  validate (mkInvoice (lasku_id inv) (hankintayksikko inv) (hankintayksikko_tunnus inv)
              (ylaorganisaatio inv) (ylaorganisaatio_tunnus inv)
              (toimittaja_y_tunnus inv) (toimittaja_nimi inv) (toimittaja_kunta inv)
              (tili inv) (hankintakategoria inv) (tuote_palveluryhma inv)
              (tositepvm inv) x (sektori inv) (data_year inv))
  = validate inv.
Proof. reflexivity. Qed.

(** C1, at the failing input: a record whose amount column holds the text
    "n/a" passes the required-fields test and is buffered for insertion,
    but its amount is NaN, not zero. *)
Theorem unparseable_amount_is_NaN :
  let record := sample_record "INV-1" "n/a" in
  let inv := transform (Some 2024) record in
  tiliointisumma inv = JS.NaN /\
  JS.is_zero (tiliointisumma inv) = false /\
  validate inv = true /\
  on_data schema_not_null (Some 2024) (initial_state empty_db) record
  = mkState [inv] 1 0 empty_db [].
Proof. vm_compute. repeat split; reflexivity. Qed.

Section ImporterProps.
Variable row_accepted : invoice -> bool.

Lemma on_end_add_error r st :
  on_end row_accepted r (add_error st) =
  let run := on_end row_accepted r st in
  mkRun (run_db run) (outcome_add_error (run_outcome run)) (run_flushes run).
Proof.
  unfold on_end, add_error. cbn [records recordCount errorCount store flushes].
  destruct (records st); [reflexivity|].
  destruct (insertBatch row_accepted (store st) _); reflexivity.
Qed.

(** C5: a record in which the invoice identifier, the procurement unit,
    the procurement category or the posting date is empty after alias
    resolution only adds one to the error count: the handler returns with
    the buffer, the record count, the database and the flush log as they
    were, and the import of the whole stream ends as it does without the
    record, with one more error. *)
Theorem rejected_record_is_skipped (r : resource) (db : database)
    (pre post : list csv_record) (record : csv_record) (fin : stream_end) :
  let year := extractYearFromFilename (res_name r) in
  let inv := transform year record in
  lasku_id inv = "" \/ hankintayksikko inv = "" \/
  hankintakategoria inv = "" \/ tositepvm inv = "" ->
  (forall st, on_data row_accepted year st record = add_error st) /\
  let with_it := import_events row_accepted r db (pre ++ record :: post) fin in
  let without := import_events row_accepted r db (pre ++ post) fin in
  run_db with_it = run_db without /\
  run_flushes with_it = run_flushes without /\
  run_outcome with_it = outcome_add_error (run_outcome without).
Proof.
  intros year inv Hempty. apply validate_false_iff in Hempty.
  split; [intros st; by apply on_data_invalid|].
  cbv zeta. unfold import_events. fold year.
  rewrite !feed_app. cbn [feed fold_left].
  change (fold_left (on_data row_accepted year) post ?s)
    with (feed row_accepted year s post).
  rewrite (on_data_invalid _ _ _ _ Hempty).
  change (add_error ?s) with (offset 0 1 [] s).
  rewrite feed_offset.
  change (offset 0 1 [] ?s) with (add_error s).
  destruct fin.
  - rewrite on_end_add_error. auto.
  - auto.
Qed.

Lemma concat_length_uniform (n : nat) (l : list (list invoice)) :
  Forall (fun b => length b = n) l -> length (concat l) = n * length l.
Proof.
  induction 1 as [|b l Hb _ IH]; cbn; [lia|].
  rewrite length_app, IH, Hb. lia.
Qed.

(** A stream with exactly 1999 accepted records makes exactly two
    [insertBatch] calls, the first with the first 1000 accepted records
    and the second, at the end of the stream, with the other 999; each
    call is one transaction.  When the last one goes through, the import
    resolves with [recordCount] 1999; when both do, the database is the
    result of the two transactions in turn, followed by the ledger
    update. *)
Theorem two_batches_for_1999 (r : resource) (db : database)
    (rows : list csv_record) :
  let year := extractYearFromFilename (res_name r) in
  let acc := accepted year rows in
  let run := import_events row_accepted r db rows EndOfFile in
  length acc = 1999 ->
  run_flushes run = [take 1000 acc; drop 1000 acc] /\
  length (take 1000 acc) = 1000 /\
  length (drop 1000 acc) = 999 /\
  (forallb row_accepted (drop 1000 acc) = true ->
   run_outcome run =
     Resolved 1999 (rejected year rows +
                    (if forallb row_accepted (take 1000 acc) then 0 else 1))) /\
  (forallb row_accepted acc = true ->
   run_outcome run = Resolved 1999 (rejected year rows) /\
   exists db1 db2,
     insertBatch row_accepted db (take 1000 acc) = Some db1 /\
     insertBatch row_accepted db1 (drop 1000 acc) = Some db2 /\
     run_db run = updateMetadata db2 r 1999).
Proof.
  intros year acc run Hlen.
  destruct (feed_spec row_accepted year db rows)
    as (Hacc & Hfl & Hbuf & Hrc & Hec & Hst).
  fold acc in Hacc, Hrc.
  set (st := feed row_accepted year (initial_state db) rows) in *.
  pose proof (concat_length_uniform _ _ Hfl) as Hcat.
  assert (Hsum : length (concat (flushes st)) + length (records st) = 1999).
  { rewrite <- length_app, Hacc. exact Hlen. }
  unfold BATCH_SIZE in *.
  assert (Hn : length (flushes st) = 1) by lia.
  destruct (flushes st) as [|b [|b' fl]] eqn:Efl; try discriminate.
  cbn [concat] in *. rewrite app_nil_r in *.
  apply Forall_cons in Hfl as [Hb _].
  assert (Htake : take 1000 acc = b).
  { rewrite <- Hacc, <- Hb. apply take_app_length. }
  assert (Hdrop : drop 1000 acc = records st).
  { rewrite <- Hacc, <- Hb. apply drop_app_length. }
  assert (Hrecs : length (records st) = 999) by lia.
  assert (Hrun : run = on_end row_accepted r st) by reflexivity.
  rewrite Hrun, Htake, Hdrop. unfold on_end. rewrite Efl.
  destruct (records st) as [|x xs] eqn:Erec; [discriminate|].
  rewrite <- Erec in *. rewrite insertBatch_eq.
  unfold failed_batches in Hec. cbn [List.filter] in Hec.
  split.
  { destruct (forallb row_accepted (records st)); reflexivity. }
  split; [exact Hb|]. split; [exact Hrecs|]. split.
  - intros Hok. rewrite Hok. cbn [run_outcome]. rewrite Hrc, Hlen, Hec.
    destruct (forallb row_accepted b); reflexivity.
  - intros Hall. rewrite <- Hacc, forallb_app in Hall.
    apply andb_true_iff in Hall as [Hokb Hokr].
    rewrite Hokr. cbn [run_outcome run_db]. rewrite Hokb in Hec.
    cbn [negb length] in Hec. rewrite Hrc, Hlen, Hec, Nat.add_0_r.
    split; [reflexivity|].
    exists (fold_left insert_or_replace_invoice b db),
           (fold_left insert_or_replace_invoice (records st)
                      (fold_left insert_or_replace_invoice b db)).
    rewrite !insertBatch_eq, Hokb, Hokr.
    repeat split. rewrite Hst. unfold commit_all. cbn [fold_left].
    by rewrite insertBatch_eq, Hokb.
Qed.

Lemma forallb_concat (l : list (list invoice)) :
  forallb row_accepted (concat l) = forallb (forallb row_accepted) l.
Proof.
  induction l as [|b l IH]; cbn; [reflexivity|].
  by rewrite forallb_app, IH.
Qed.

Lemma commit_all_accepted db fl :
  forallb (forallb row_accepted) fl = true ->
  commit_all row_accepted db fl = fold_left insert_or_replace_invoice (concat fl) db
  /\ failed_batches row_accepted fl = 0.
Proof.
  revert db. induction fl as [|b fl IH]; intros db H; cbn in *; [auto|].
  apply andb_true_iff in H as [Hb Hfl].
  unfold commit_all, failed_batches in *. cbn.
  rewrite insertBatch_eq, Hb, fold_left_app. cbn [negb].
  destruct (IH (fold_left insert_or_replace_invoice b db) Hfl) as [-> ->]. auto.
Qed.

Lemma offset_initial rc ec fl db :
  mkState [] rc ec db fl = offset rc ec fl (initial_state db).
Proof.
  unfold offset, initial_state. cbn. by rewrite !Nat.add_0_r, app_nil_r.
Qed.

Lemma fold_insert_metadata l db :
  dataset_metadata (fold_left insert_or_replace_invoice l db) = dataset_metadata db
  /\ metadata_seq (fold_left insert_or_replace_invoice l db) = metadata_seq db.
Proof.
  revert db. induction l as [|inv l IH]; intros db; cbn; [auto|].
  destruct (IH (insert_or_replace_invoice db inv)) as [-> ->]. auto.
Qed.

(** The last row of the ledger after [updateMetadata]. *)
Lemma updateMetadata_row db r count :
  In (mkMetadataRow (S (metadata_seq db)) (res_id r) (res_name r) (res_url r)
        (res_format r) (extractYearFromFilename (res_name r))
        (res_last_modified r) count "completed")
     (dataset_metadata (updateMetadata db r count)).
Proof.
  unfold updateMetadata, insert_or_replace_metadata. cbn.
  apply in_or_app. right. by left.
Qed.

(** When the 1000th record of a batch arrives and the batch upsert
    throws, the handler's [catch] counts one error; the 1000 records have
    left the buffer and are counted in [recordCount], the database is as
    before the call, and the batch is not submitted again.  With the rest
    of the stream going through, the import resolves with a record count
    that includes the 1000 dropped records, the invoice table holds the
    earlier batches and the later records only, and the ledger row of the
    resource is written with status completed and that record count. *)
Theorem failed_batch_is_dropped_and_counted (r : resource) (db : database)
    (pre post : list csv_record) (record : csv_record) :
  let year := extractYearFromFilename (res_name r) in
  let st := feed row_accepted year (initial_state db) pre in
  let inv := transform year record in
  let batch := records st ++ [inv] in
  let st' := on_data row_accepted year st record in
  let run := import_events row_accepted r db (pre ++ record :: post) EndOfFile in
  let total := length (accepted year (pre ++ record :: post)) in
  validate inv = true ->
  length batch = 1000 ->
  insertBatch row_accepted (store st) batch = None ->
  forallb row_accepted (accepted year post) = true ->
  st' = mkState [] (S (recordCount st)) (S (errorCount st)) (store st)
                (flushes st ++ [batch]) /\
  total = recordCount st + 1 + length (accepted year post) /\
  In batch (run_flushes run) /\
  (exists later, run_flushes run = flushes st ++ [batch] ++ later /\
                 concat later = accepted year post) /\
  run_outcome run = Resolved total (S (errorCount st) + rejected year post) /\
  procurement_invoices (run_db run)
    = procurement_invoices
        (fold_left insert_or_replace_invoice (accepted year post) (store st)) /\
  exists id,
    In (mkMetadataRow id (res_id r) (res_name r) (res_url r) (res_format r)
          year (res_last_modified r) total "completed")
       (dataset_metadata (run_db run)).
Proof.
  intros year st inv batch st' run total Hv Hlen Hthrow Hrest.
  assert (Hst' : st' = mkState [] (S (recordCount st)) (S (errorCount st)) (store st)
                               (flushes st ++ [batch])).
  { unfold st'. rewrite (on_data_full _ _ _ _ Hv Hlen). cbv zeta.
    fold inv. fold batch. by rewrite Hthrow. }
  destruct (feed_spec row_accepted year db pre) as (_ & _ & _ & Hrc & _ & _).
  fold st in Hrc.
  assert (Htotal : total = recordCount st + 1 + length (accepted year post)).
  { unfold total.
    replace (pre ++ record :: post) with (pre ++ [record] ++ post) by reflexivity.
    rewrite !accepted_app, !length_app.
    destruct (accepted_one_valid _ _ Hv) as [-> _]. cbn [length]. lia. }
  destruct (feed_spec row_accepted year (store st) post)
    as (Hacc & _ & _ & Hrc2 & Hec2 & Hst2).
  set (st2 := feed row_accepted year (initial_state (store st)) post) in *.
  assert (Hfeed : feed row_accepted year (initial_state db) (pre ++ record :: post)
                  = offset (S (recordCount st)) (S (errorCount st))
                           (flushes st ++ [batch]) st2).
  { rewrite feed_app. cbn [feed fold_left]. fold st. fold st'.
    rewrite Hst', offset_initial.
    change (fold_left (on_data row_accepted year) post ?s)
      with (feed row_accepted year s post).
    by rewrite feed_offset. }
  assert (Hall : forallb (forallb row_accepted) (flushes st2) = true
                 /\ forallb row_accepted (records st2) = true).
  { rewrite <- Hacc, forallb_app, forallb_concat in Hrest.
    by apply andb_true_iff in Hrest. }
  destruct Hall as [Hfl_ok Hrec_ok].
  destruct (commit_all_accepted (store st) _ Hfl_ok) as [Hcommit Hfail].
  rewrite Hcommit in Hst2. rewrite Hfail, Nat.add_0_r in Hec2.
  assert (Hrun : run = on_end row_accepted r
                         (offset (S (recordCount st)) (S (errorCount st))
                                 (flushes st ++ [batch]) st2)).
  { unfold run, import_events. fold year. by rewrite Hfeed. }
  split; [exact Hst'|]. split; [exact Htotal|].
  rewrite Hrun. unfold on_end, offset.
  cbn [records recordCount errorCount store flushes].
  assert (Hcount : S (recordCount st) + recordCount st2 = total) by lia.
  destruct (records st2) as [|x xs] eqn:Erec.
  - cbn [run_flushes run_outcome run_db]. rewrite Hcount, Hec2.
    rewrite app_nil_r in Hacc.
    split; [apply in_or_app; left; apply in_or_app; right; by left|].
    split; [exists (flushes st2); split; [by rewrite <- app_assoc | exact Hacc]|].
    split; [reflexivity|].
    split.
    + cbn. by rewrite Hst2, Hacc.
    + eexists. apply updateMetadata_row.
  - rewrite <- Erec in *. rewrite insertBatch_eq, Hrec_ok.
    cbn [run_flushes run_outcome run_db]. rewrite Hcount, Hec2.
    split; [apply in_or_app; left; apply in_or_app; left;
            apply in_or_app; right; by left|].
    split.
    { exists (flushes st2 ++ [records st2]). split.
      - by rewrite <- !app_assoc.
      - rewrite concat_app. cbn. by rewrite app_nil_r. }
    split; [reflexivity|].
    split.
    + cbn. by rewrite Hst2, <- fold_left_app, Hacc.
    + eexists. apply updateMetadata_row.
Qed.

End ImporterProps.

(* ===================================================================== *)
(** * Insert-or-replace on the invoice table *)
(* ===================================================================== *)

Lemma map_filter_row_data (f : invoice -> bool) (rows : list invoice_row) :
  map row_data (List.filter (fun row => f (row_data row)) rows)
  = List.filter f (map row_data rows).
Proof.
  induction rows as [|row rows IH]; cbn; [reflexivity|].
  destruct (f (row_data row)); cbn; by rewrite IH.
Qed.

Lemma columns_insert db inv :
  invoice_columns (insert_or_replace_invoice db inv) = put inv (invoice_columns db).
Proof.
  unfold invoice_columns, insert_or_replace_invoice, replace_invoice, put. cbn.
  rewrite map_app. cbn.
  by rewrite (map_filter_row_data (fun x => negb (String.eqb (lasku_id x) (lasku_id inv)))).
Qed.

Lemma columns_fold_insert l db :
  invoice_columns (fold_left insert_or_replace_invoice l db)
  = put_all l (invoice_columns db).
Proof.
  revert db. induction l as [|inv l IH]; intros db; cbn; [reflexivity|].
  by rewrite IH, columns_insert.
Qed.

Lemma put_all_app l1 l2 t : put_all (l1 ++ l2) t = put_all l2 (put_all l1 t).
Proof. apply fold_left_app. Qed.

(** Whether an invoice identifier is among those of a list. *)
Lemma filter_filter_id (f g : invoice -> bool) l :
  List.filter f (List.filter g l) = List.filter (fun x => g x && f x) l.
Proof.
  induction l as [|x l IH]; cbn; [reflexivity|].
  destruct (g x); cbn; [destruct (f x)|]; by rewrite IH.
Qed.

Lemma filter_none {A} (f : A -> bool) (l : list A) :
  (forall x, In x l -> f x = false) -> List.filter f l = [].
Proof.
  induction l as [|x l IH]; intros H; cbn; [reflexivity|].
  rewrite (H x) by (by left). apply IH. intros y Hy. apply H. by right.
Qed.

Lemma put_all_split l t :
  put_all l t =
  List.filter (fun x => negb (existsb (fun i => String.eqb (lasku_id x) (lasku_id i)) l)) t
  ++ put_all l [].
Proof.
  revert t. induction l as [|inv l IH]; intros t.
  - cbn. rewrite app_nil_r. induction t as [|x t IHt]; cbn; [reflexivity|].
    by rewrite <- IHt.
  - change (put_all (inv :: l) t) with (put_all l (put inv t)).
    change (put_all (inv :: l) []) with (put_all l [inv]).
    rewrite (IH (put inv t)), (IH [inv]). unfold put.
    rewrite List.filter_app, filter_filter_id, <- app_assoc.
    f_equal. apply List.filter_ext. intros x. cbn [existsb].
    by rewrite negb_orb.
Qed.

Lemma put_all_ids l t x :
  In x (put_all l t) ->
  In x t \/ existsb (fun i => String.eqb (lasku_id x) (lasku_id i)) l = true.
Proof.
  revert t. induction l as [|inv l IH]; intros t H; cbn in *; [auto|].
  apply IH in H as [H|H].
  - unfold put in H. apply in_app_or in H as [H|[<-|[]]].
    + apply List.filter_In in H as [H _]. auto.
    + right. by rewrite String.eqb_refl.
  - right. rewrite H. apply orb_true_r.
Qed.

(** Upserting the same invoices a second time changes nothing. *)
Lemma put_all_idempotent l t : put_all l (put_all l t) = put_all l t.
Proof.
  rewrite (put_all_split l (put_all l t)).
  rewrite (put_all_split l t) at 1 2.
  rewrite List.filter_app, filter_filter_id, <- app_assoc. f_equal.
  - apply List.filter_ext. intros x. by destruct (negb _).
  - rewrite filter_none; [reflexivity|].
    intros x Hx. apply put_all_ids in Hx as [[]|Hx]. by rewrite Hx.
Qed.

(** After upserting [l], each identifier of [l] is on exactly one row. *)
Lemma put_all_one_row l t inv :
  In inv l ->
  length (List.filter (fun x => String.eqb (lasku_id x) (lasku_id inv)) (put_all l t)) = 1.
Proof.
  revert t. induction l as [|i l IH] using rev_ind; intros t Hin; [destruct Hin|].
  rewrite put_all_app. cbn [put_all fold_left]. unfold put.
  rewrite List.filter_app, filter_filter_id, length_app. cbn [List.filter].
  destruct (String.eqb (lasku_id i) (lasku_id inv)) eqn:E.
  - apply String.eqb_eq in E. rewrite filter_none; [reflexivity|].
    intros x _. rewrite E. by destruct (String.eqb (lasku_id x) (lasku_id inv)).
  - cbn [length]. rewrite Nat.add_0_r.
    apply in_app_or in Hin as [Hin|[->|[]]].
    + rewrite <- (IH t Hin). f_equal. apply List.filter_ext. intros x.
      destruct (String.eqb (lasku_id x) (lasku_id inv)) eqn:Ex;
        [|by rewrite andb_false_r].
      apply String.eqb_eq in Ex. rewrite Ex, String.eqb_sym, E. reflexivity.
    + by rewrite String.eqb_refl in E.
Qed.

Lemma put_keeps_unique inv t :
  NoDup (map lasku_id t) -> NoDup (map lasku_id (put inv t)).
Proof.
  intros H. unfold put. rewrite map_app. cbn.
  apply NoDup_app. split; [|split].
  - induction t as [|x t IH]; cbn; [constructor|].
    cbn in H. apply NoDup_cons in H as [Hx Ht].
    destruct (negb _); [|by apply IH]. cbn. apply NoDup_cons. split; [|by apply IH].
    intros Hin. apply Hx. apply list_elem_of_In in Hin.
    apply list_elem_of_In. apply in_map_iff in Hin as (y & <- & Hy).
    apply List.filter_In in Hy as [Hy _]. by apply in_map.
  - intros id Hid Hone. apply list_elem_of_In in Hid.
    apply in_map_iff in Hid as (y & <- & Hy).
    apply List.filter_In in Hy as [_ Hy]. apply negb_true_iff, String.eqb_neq in Hy.
    apply list_elem_of_In in Hone. destruct Hone as [Hone|[]]. congruence.
  - repeat constructor. intros Hin. apply list_elem_of_In in Hin. destruct Hin.
Qed.

Lemma put_all_keeps_unique l t :
  NoDup (map lasku_id t) -> NoDup (map lasku_id (put_all l t)).
Proof.
  revert t. induction l as [|inv l IH]; intros t H; cbn; [exact H|].
  by apply IH, put_keeps_unique.
Qed.

(* ===================================================================== *)
(** * Whole imports *)
(* ===================================================================== *)

Section ImportRuns.
Variable row_accepted : invoice -> bool.

Lemma written_snoc fl b :
  written row_accepted (fl ++ [b]) =
  written row_accepted fl ++ (if forallb row_accepted b then b else []).
Proof.
  unfold written. rewrite List.filter_app, concat_app. cbn.
  destruct (forallb row_accepted b); cbn; by rewrite ?app_nil_r.
Qed.

Lemma columns_commit_all db fl :
  invoice_columns (commit_all row_accepted db fl)
  = put_all (written row_accepted fl) (invoice_columns db).
Proof.
  induction fl as [|b fl IH] using rev_ind; [reflexivity|].
  rewrite commit_all_snoc, written_snoc, put_all_app, insertBatch_eq, <- IH.
  destruct (forallb row_accepted b); [|reflexivity].
  apply columns_fold_insert.
Qed.

Lemma commit_all_metadata db fl :
  dataset_metadata (commit_all row_accepted db fl) = dataset_metadata db /\
  metadata_seq (commit_all row_accepted db fl) = metadata_seq db.
Proof.
  induction fl as [|b fl IH] using rev_ind; [auto|].
  rewrite commit_all_snoc, insertBatch_eq.
  destruct (forallb row_accepted b); [|exact IH].
  destruct (fold_insert_metadata b (commit_all row_accepted db fl)) as [-> ->].
  exact IH.
Qed.

(** The database of a run is the starting one with the [insertBatch]
    calls of its log applied, and the ledger updated when it resolved. *)
Lemma import_events_db r db rows fin :
  let run := import_events row_accepted r db rows fin in
  let committed := commit_all row_accepted db (run_flushes run) in
  match run_outcome run with
  | Resolved rc ec => run_db run = updateMetadata committed r rc
  | _ => run_db run = committed
  end.
Proof.
  cbv zeta. unfold import_events.
  destruct (feed_spec row_accepted (extractYearFromFilename (res_name r)) db rows)
    as (_ & _ & _ & _ & _ & Hst).
  set (st := feed row_accepted _ _ rows) in *.
  destruct fin; [|exact Hst].
  unfold on_end. destruct (records st) as [|x xs] eqn:E.
  - cbn [run_db run_outcome run_flushes]. by rewrite Hst.
  - rewrite <- E. rewrite insertBatch_eq.
    destruct (forallb row_accepted (records st)) eqn:Hok;
      cbn [run_db run_outcome run_flushes];
      by rewrite commit_all_snoc, insertBatch_eq, Hok, Hst.
Qed.

Lemma import_events_columns r db rows fin :
  let run := import_events row_accepted r db rows fin in
  invoice_columns (run_db run)
  = put_all (written row_accepted (run_flushes run)) (invoice_columns db).
Proof.
  cbv zeta. pose proof (import_events_db r db rows fin) as H. cbv zeta in H.
  rewrite <- columns_commit_all.
  destruct (run_outcome _); rewrite H; reflexivity.
Qed.

(** The counts, the buffer and the log do not depend on the database. *)
Lemma on_data_same_view year st1 st2 record :
  records st1 = records st2 -> recordCount st1 = recordCount st2 ->
  errorCount st1 = errorCount st2 -> flushes st1 = flushes st2 ->
  let a := on_data row_accepted year st1 record in
  let b := on_data row_accepted year st2 record in
  records a = records b /\ recordCount a = recordCount b /\
  errorCount a = errorCount b /\ flushes a = flushes b.
Proof.
  intros H1 H2 H3 H4. cbv zeta. unfold on_data.
  rewrite !insertBatch_eq, H1, H2, H3, H4.
  destruct (negb _); [cbn; auto|].
  destruct (_ <=? _); [|cbn; auto].
  destruct (forallb row_accepted _); cbn; auto.
Qed.

Lemma feed_same_view year rows st1 st2 :
  records st1 = records st2 -> recordCount st1 = recordCount st2 ->
  errorCount st1 = errorCount st2 -> flushes st1 = flushes st2 ->
  let a := feed row_accepted year st1 rows in
  let b := feed row_accepted year st2 rows in
  records a = records b /\ recordCount a = recordCount b /\
  errorCount a = errorCount b /\ flushes a = flushes b.
Proof.
  revert st1 st2. induction rows as [|record rows IH]; intros st1 st2 H1 H2 H3 H4.
  - cbn. auto.
  - cbn. destruct (on_data_same_view year st1 st2 record H1 H2 H3 H4)
      as (K1 & K2 & K3 & K4).
    by apply IH.
Qed.

Lemma import_events_same_log r db1 db2 rows fin :
  run_flushes (import_events row_accepted r db1 rows fin)
    = run_flushes (import_events row_accepted r db2 rows fin) /\
  run_outcome (import_events row_accepted r db1 rows fin)
    = run_outcome (import_events row_accepted r db2 rows fin).
Proof.
  unfold import_events.
  destruct (feed_same_view (extractYearFromFilename (res_name r)) rows
              (initial_state db1) (initial_state db2)
              eq_refl eq_refl eq_refl eq_refl) as (K1 & K2 & K3 & K4).
  cbv zeta in *.
  set (a := feed row_accepted _ (initial_state db1) rows) in *.
  set (b := feed row_accepted _ (initial_state db2) rows) in *.
  destruct fin; [|cbn; auto].
  unfold on_end. rewrite !insertBatch_eq, K1, K2, K3, K4.
  destruct (records b); [cbn; auto|].
  destruct (forallb row_accepted _); cbn; auto.
Qed.

(** The log of a run only holds accepted invoices of the stream. *)
Lemma import_events_log_accepted r db rows fin inv :
  In inv (concat (run_flushes (import_events row_accepted r db rows fin))) ->
  In inv (accepted (extractYearFromFilename (res_name r)) rows).
Proof.
  unfold import_events.
  destruct (feed_spec row_accepted (extractYearFromFilename (res_name r)) db rows)
    as (Hacc & _).
  set (st := feed row_accepted _ _ rows) in *. rewrite <- Hacc.
  destruct fin.
  - unfold on_end. destruct (records st) as [|x xs] eqn:E.
    + cbn [run_flushes]. intros H. apply in_or_app. by left.
    + rewrite <- E. destruct (insertBatch _ _ _); cbn [run_flushes];
        rewrite concat_app; cbn; by rewrite app_nil_r.
  - cbn [run_flushes]. intros H. apply in_or_app. by left.
Qed.

Section WithParser.
Variable csv_parse : ascii -> string -> list csv_record * stream_end.

(** C4: importing the same file twice in succession leaves the invoice
    table with the same rows (same number, same order, same bound
    columns) as importing it once, and ends the same way; every
    identifier written is on exactly one row, and a table whose
    identifiers are unique stays so.  The AUTOINCREMENT id of a
    replaced row is a new one. *)
Theorem import_twice_same_table (fs : filesystem) (db : database)
    (filePath : string) (r : resource) :
  let run1 := importCSVFile csv_parse row_accepted fs db filePath r in
  let run2 := importCSVFile csv_parse row_accepted fs (run_db run1) filePath r in
  invoice_columns (run_db run2) = invoice_columns (run_db run1) /\
  length (procurement_invoices (run_db run2))
    = length (procurement_invoices (run_db run1)) /\
  run_outcome run2 = run_outcome run1 /\
  (forall inv,
      In inv (written row_accepted (run_flushes run1)) ->
      rows_with_id (lasku_id inv) (run_db run1) = 1 /\
      rows_with_id (lasku_id inv) (run_db run2) = 1) /\
  (NoDup (map lasku_id (invoice_columns db)) ->
   NoDup (map lasku_id (invoice_columns (run_db run1))) /\
   NoDup (map lasku_id (invoice_columns (run_db run2)))).
Proof.
  cbv zeta. unfold importCSVFile.
  destruct (fs !! filePath) as [content|] eqn:Efile.
  2:{ cbn. repeat split; auto; contradiction. }
  destruct (csv_parse _ content) as [rows fin].
  set (run1 := import_events row_accepted r db rows fin).
  set (run2 := import_events row_accepted r (run_db run1) rows fin).
  destruct (import_events_same_log r (run_db run1) db rows fin) as [Hlog Hout].
  fold run1 run2 in Hlog, Hout.
  assert (H1 : invoice_columns (run_db run1)
               = put_all (written row_accepted (run_flushes run1)) (invoice_columns db))
    by apply import_events_columns.
  assert (H2 : invoice_columns (run_db run2)
               = put_all (written row_accepted (run_flushes run1))
                         (invoice_columns (run_db run1))).
  { rewrite <- Hlog. apply import_events_columns. }
  assert (Hsame : invoice_columns (run_db run2) = invoice_columns (run_db run1)).
  { rewrite H2, H1. apply put_all_idempotent. }
  split; [exact Hsame|]. split.
  { apply (f_equal (@length _)) in Hsame. unfold invoice_columns in Hsame.
    by rewrite !length_map in Hsame. }
  split; [exact Hout|]. split.
  - intros inv Hin. unfold rows_with_id. rewrite Hsame, H1.
    split; by apply put_all_one_row.
  - intros Hu. rewrite Hsame, H1. split; by apply put_all_keeps_unique.
Qed.

End WithParser.
End ImportRuns.

(* ===================================================================== *)
(** * The download and import phases *)
(* ===================================================================== *)

Lemma put_all_In l t x : In x (put_all l t) -> In x t \/ In x l.
Proof.
  revert t. induction l as [|inv l IH]; intros t H; cbn in *; [auto|].
  apply IH in H as [H|H]; [|auto].
  unfold put in H. apply in_app_or in H as [H|[<-|[]]]; [|auto].
  apply List.filter_In in H as [H _]. auto.
Qed.

Lemma accepted_year year rows inv :
  In inv (accepted year rows) -> data_year inv = year.
Proof.
  unfold accepted. intros H. apply List.filter_In in H as [H _].
  apply in_map_iff in H as (record & <- & _). reflexivity.
Qed.

Lemma has_completed_row_ledger id d1 d2 :
  dataset_metadata d1 = dataset_metadata d2 ->
  has_completed_row id d1 -> has_completed_row id d2.
Proof. unfold has_completed_row. by intros ->. Qed.

Lemma updateMetadata_completed d r count :
  has_completed_row (res_id r) (updateMetadata d r count).
Proof. eexists. split; [apply updateMetadata_row|]. auto. Qed.

Lemma updateMetadata_keeps_completed id d r count :
  has_completed_row id d -> has_completed_row id (updateMetadata d r count).
Proof.
  intros (row & Hin & Hid & Hst).
  destruct (String.eqb (resource_id row) (res_id r)) eqn:E.
  - apply String.eqb_eq in E. rewrite <- Hid, E. apply updateMetadata_completed.
  - exists row. split; [|auto].
    unfold updateMetadata, insert_or_replace_metadata. cbn.
    apply in_or_app. left. apply List.filter_In. split; [exact Hin|].
    by rewrite E.
Qed.

Lemma download_loop_resources net force fs todo acc fs' dls :
  download_loop net force fs todo acc = Some (fs', dls) ->
  map dl_resource dls = map dl_resource acc ++ todo.
Proof.
  revert fs acc. induction todo as [|r todo IH]; intros fs acc H; cbn in H.
  - injection H as _ <-. by rewrite app_nil_r.
  - destruct (fs !! join_dir DOWNLOAD_DIR (res_name r)) as [existing|];
      [destruct force; cbn in H|];
      try (destruct (body_of net (res_url r)); [|discriminate]);
      apply IH in H; rewrite H, map_app, <- app_assoc; reflexivity.
Qed.

Section Pipeline.
Variable csv_parse : ascii -> string -> list csv_record * stream_end.
Variable row_accepted : invoice -> bool.

Lemma importCSVFile_ledger fs db filePath r :
  let run := importCSVFile csv_parse row_accepted fs db filePath r in
  match run_outcome run with
  | Resolved rc ec =>
      exists d, dataset_metadata d = dataset_metadata db /\
                run_db run = updateMetadata d r rc
  | _ => dataset_metadata (run_db run) = dataset_metadata db
  end.
Proof.
  cbv zeta. unfold importCSVFile.
  destruct (fs !! filePath) as [content|]; [|reflexivity].
  destruct (csv_parse _ content) as [rows fin].
  pose proof (import_events_db row_accepted r db rows fin) as H. cbv zeta in H.
  destruct (commit_all_metadata row_accepted db
              (run_flushes (import_events row_accepted r db rows fin))) as [Hm _].
  destruct (run_outcome _); rewrite H; eauto.
Qed.

Lemma importCSVFile_keeps_completed id fs db filePath r :
  has_completed_row id db ->
  has_completed_row id (run_db (importCSVFile csv_parse row_accepted fs db filePath r)).
Proof.
  intros H. pose proof (importCSVFile_ledger fs db filePath r) as L. cbv zeta in L.
  destruct (run_outcome _).
  - destruct L as (d & Hd & ->). apply updateMetadata_keeps_completed.
    by apply (has_completed_row_ledger id db d).
  - by apply (has_completed_row_ledger id db _).
  - by apply (has_completed_row_ledger id db _).
Qed.

Lemma importCSVFile_resolved_completed fs db filePath r rc ec :
  run_outcome (importCSVFile csv_parse row_accepted fs db filePath r) = Resolved rc ec ->
  has_completed_row (res_id r)
    (run_db (importCSVFile csv_parse row_accepted fs db filePath r)).
Proof.
  intros H. pose proof (importCSVFile_ledger fs db filePath r) as L. cbv zeta in L.
  rewrite H in L. destruct L as (d & _ & ->). apply updateMetadata_completed.
Qed.

Lemma importAllFiles_loop_unskip fs db downloads acc :
  importAllFiles_loop csv_parse row_accepted fs db (map unskip downloads) acc
  = importAllFiles_loop csv_parse row_accepted fs db downloads acc.
Proof.
  revert db acc. induction downloads as [|d downloads IH]; intros db acc;
    [reflexivity|].
  cbn. destruct (run_outcome _); by rewrite ?IH.
Qed.

Lemma importAllFiles_loop_results fs db downloads acc db' results :
  importAllFiles_loop csv_parse row_accepted fs db downloads acc = (db', Some results) ->
  exists res,
    results = acc ++ res /\
    map result_filename res = map (fun d => res_name (dl_resource d)) downloads /\
    (forall id, has_completed_row id db -> has_completed_row id db') /\
    (forall i d rc ec,
        downloads !! i = Some d ->
        res !! i = Some (ImportOk (res_name (dl_resource d)) rc ec) ->
        has_completed_row (res_id (dl_resource d)) db').
Proof.
  revert db acc. induction downloads as [|d downloads IH]; intros db acc H; cbn in H.
  - injection H as <- <-. exists []. rewrite app_nil_r.
    repeat split; auto. intros i d rc ec Hd. destruct i; discriminate.
  - destruct (run_outcome _) as [rc ec| |] eqn:Eout; [| |discriminate].
    + apply IH in H as (res & -> & Hnames & Hkeep & Hidx).
      exists (ImportOk (res_name (dl_resource d)) rc ec :: res).
      rewrite <- app_assoc. split; [reflexivity|]. split; [cbn; by rewrite Hnames|].
      split.
      * intros id Hid. by apply Hkeep, importCSVFile_keeps_completed.
      * intros [|i] d0 rc0 ec0 Hd Hres; cbn in Hd, Hres.
        -- injection Hd as <-. eapply Hkeep, importCSVFile_resolved_completed, Eout.
        -- eapply Hidx; eauto.
    + apply IH in H as (res & -> & Hnames & Hkeep & Hidx).
      exists (ImportFailed (res_name (dl_resource d)) :: res).
      rewrite <- app_assoc. split; [reflexivity|]. split; [cbn; by rewrite Hnames|].
      split.
      * intros id Hid. by apply Hkeep, importCSVFile_keeps_completed.
      * intros [|i] d0 rc0 ec0 Hd Hres; cbn in Hd, Hres; [discriminate|].
        eapply Hidx; eauto.
Qed.

Lemma importAllFiles_loop_app fs db l1 l2 acc :
  importAllFiles_loop csv_parse row_accepted fs db (l1 ++ l2) acc
  = match importAllFiles_loop csv_parse row_accepted fs db l1 acc with
    | (db1, Some results1) =>
        importAllFiles_loop csv_parse row_accepted fs db1 l2 results1
    | (db1, None) => (db1, None)
    end.
Proof.
  revert db acc. induction l1 as [|d l1 IH]; intros db acc; [reflexivity|].
  cbn. destruct (run_outcome _); by rewrite ?IH.
Qed.

(** The loop stops only at an import that ends the process. *)
Lemma importAllFiles_loop_stopped fs db downloads acc db' :
  importAllFiles_loop csv_parse row_accepted fs db downloads acc = (db', None) ->
  exists before d after db1 results1,
    downloads = before ++ d :: after /\
    importAllFiles_loop csv_parse row_accepted fs db before acc = (db1, Some results1) /\
    run_outcome (importCSVFile csv_parse row_accepted fs db1
                   (dl_filePath d) (dl_resource d)) = Crashed /\
    db' = run_db (importCSVFile csv_parse row_accepted fs db1
                    (dl_filePath d) (dl_resource d)).
Proof.
  revert db acc. induction downloads as [|d downloads IH]; intros db acc H; cbn in H;
    [discriminate|].
  destruct (run_outcome _) as [rc ec| |] eqn:Eout.
  - apply IH in H as (before & d' & after & db1 & res1 & -> & Hbefore & Hrest).
    exists (d :: before), d', after, db1, res1. split; [reflexivity|].
    split; [|exact Hrest]. cbn. by rewrite Eout.
  - apply IH in H as (before & d' & after & db1 & res1 & -> & Hbefore & Hrest).
    exists (d :: before), d', after, db1, res1. split; [reflexivity|].
    split; [|exact Hrest]. cbn. by rewrite Eout.
  - injection H as <-. exists [], d, downloads, db, acc. auto.
Qed.

(** C3, as the code has it: [importAllFiles] does not look at the
    [skipped] flag.  It goes through the download results in order and
    imports every entry it reaches, among them the files that were
    already on disk; an entry is reached when each import before it has
    returned, resolved or rejected.  An import that resolves leaves a
    completed ledger row for its resource and an [ImportOk] result, one
    that rejects an [ImportFailed] result.  When the loop returns there is
    one result per entry; it fails to return only when an import it
    reached stopped the process. *)
Theorem importAllFiles_imports_skipped_too (fs : filesystem) (db : database)
    (downloads : list download_result) :
  importAllFiles csv_parse row_accepted fs db downloads
    = importAllFiles csv_parse row_accepted fs db (map unskip downloads) /\
  (forall before d after db1 results1,
      downloads = before ++ d :: after ->
      importAllFiles csv_parse row_accepted fs db before = (db1, Some results1) ->
      let run := importCSVFile csv_parse row_accepted fs db1
                   (dl_filePath d) (dl_resource d) in
      let name := res_name (dl_resource d) in
      match run_outcome run with
      | Resolved rc ec =>
          importAllFiles csv_parse row_accepted fs db (before ++ [d])
            = (run_db run, Some (results1 ++ [ImportOk name rc ec])) /\
          has_completed_row (res_id (dl_resource d)) (run_db run)
      | Rejected =>
          importAllFiles csv_parse row_accepted fs db (before ++ [d])
            = (run_db run, Some (results1 ++ [ImportFailed name]))
      | Crashed =>
          importAllFiles csv_parse row_accepted fs db downloads = (run_db run, None)
      end) /\
  (forall db' results,
      importAllFiles csv_parse row_accepted fs db downloads = (db', Some results) ->
      map result_filename results = map (fun d => res_name (dl_resource d)) downloads /\
      forall i d rc ec,
        downloads !! i = Some d ->
        results !! i = Some (ImportOk (res_name (dl_resource d)) rc ec) ->
        has_completed_row (res_id (dl_resource d)) db') /\
  (forall db',
      importAllFiles csv_parse row_accepted fs db downloads = (db', None) ->
      exists before d after db1 results1,
        downloads = before ++ d :: after /\
        importAllFiles csv_parse row_accepted fs db before = (db1, Some results1) /\
        run_outcome (importCSVFile csv_parse row_accepted fs db1
                       (dl_filePath d) (dl_resource d)) = Crashed /\
        db' = run_db (importCSVFile csv_parse row_accepted fs db1
                        (dl_filePath d) (dl_resource d))).
Proof.
  unfold importAllFiles. split; [by rewrite importAllFiles_loop_unskip|]. split.
  { intros before d after db1 results1 -> Hbefore. cbv zeta.
    rewrite !importAllFiles_loop_app, Hbefore. cbn [importAllFiles_loop].
    destruct (run_outcome _) as [rc ec| |] eqn:Eout; [|reflexivity|reflexivity].
    split; [reflexivity|]. eapply importCSVFile_resolved_completed, Eout. }
  split.
  { intros db' results H.
    apply importAllFiles_loop_results in H as (res & -> & Hnames & _ & Hidx).
    cbn. auto. }
  intros db' H. by apply importAllFiles_loop_stopped in H.
Qed.

End Pipeline.

(* ===================================================================== *)
(** * The update script *)
(* ===================================================================== *)

Lemma written_In (row_accepted : invoice -> bool) fl inv :
  In inv (written row_accepted fl) -> In inv (concat fl).
Proof.
  unfold written. induction fl as [|b fl IH]; cbn; [auto|].
  destruct (forallb row_accepted b); cbn; intros H.
  - apply in_app_or in H as [H|H]; apply in_or_app; auto.
  - apply in_or_app. auto.
Qed.

Lemma years_within_clear ys db : years_within ys (clearInvoiceData db).
Proof. split; constructor. Qed.

Section Workflow.
Variable csv_parse : ascii -> string -> list csv_record * stream_end.
Variable row_accepted : invoice -> bool.

Lemma importCSVFile_years ys fs db filePath r :
  years_include ys (extractYearFromFilename (res_name r)) = true ->
  years_within ys db ->
  years_within ys (run_db (importCSVFile csv_parse row_accepted fs db filePath r)).
Proof.
  intros Hyear [Hinv Hled]. split.
  - unfold importCSVFile.
    destruct (fs !! filePath) as [content|]; [|exact Hinv].
    destruct (csv_parse _ content) as [rows fin].
    rewrite import_events_columns. apply List.Forall_forall. intros x Hx.
    apply put_all_In in Hx as [Hx|Hx].
    + revert x Hx. by apply List.Forall_forall.
    + apply written_In, import_events_log_accepted, accepted_year in Hx.
      by rewrite Hx.
  - pose proof (importCSVFile_ledger csv_parse row_accepted fs db filePath r) as L.
    cbv zeta in L. destruct (run_outcome _); try (by rewrite L).
    destruct L as (d & Hd & ->).
    unfold updateMetadata, insert_or_replace_metadata. cbn. rewrite Hd.
    apply Forall_app. split.
    + apply List.Forall_forall. intros x Hx. apply List.filter_In in Hx as [Hx _].
      revert x Hx. by apply List.Forall_forall.
    + by repeat constructor.
Qed.

Lemma importAllFiles_loop_years ys fs db downloads acc :
  Forall (fun d => years_include ys
                     (extractYearFromFilename (res_name (dl_resource d))) = true)
         downloads ->
  years_within ys db ->
  years_within ys
    (fst (importAllFiles_loop csv_parse row_accepted fs db downloads acc)).
Proof.
  intros Hall. revert db acc.
  induction Hall as [|d downloads Hd _ IH]; intros db acc Hdb; [exact Hdb|].
  cbn. pose proof (importCSVFile_years ys fs db (dl_filePath d) _ Hd Hdb) as Hrun.
  destruct (run_outcome _); [by apply IH | by apply IH | exact Hrun].
Qed.

Lemma downloads_in_years net y ys force fs fs' dls :
  downloadAllProcurementFiles net (Some (y :: ys)) force fs = Some (fs', dls) ->
  Forall (fun d => years_include (y :: ys)
                     (extractYearFromFilename (res_name (dl_resource d))) = true)
         dls.
Proof.
  unfold downloadAllProcurementFiles.
  destruct (catalog net) as [dataset|]; [|discriminate].
  intros H. apply download_loop_resources in H. cbn [map app select_years] in H.
  apply List.Forall_forall. intros d Hd.
  apply (in_map dl_resource) in Hd. rewrite H in Hd.
  by apply List.filter_In in Hd as [_ Hd].
Qed.

(** C6: with the clear-existing flag and a years restriction, both tables
    are emptied before anything else, whatever years their rows belong
    to: the run is the run on the emptied database, a run that stops in
    the download phase or finds no file leaves both tables empty, and
    after any run every invoice row and every ledger row belongs to one
    of the selected years. *)
Theorem clear_existing_wipes_every_year (net : remote) (fs : filesystem)
    (db : database) (force : bool) (y : js_int) (ys : list js_int) :
  let opts := mkOptions (Some (y :: ys)) force true in
  let result := updateProcurementData csv_parse row_accepted opts net fs db in
  procurement_invoices (clearInvoiceData db) = [] /\
  dataset_metadata (clearInvoiceData db) = [] /\
  result = updateProcurementData csv_parse row_accepted opts net fs
             (clearInvoiceData db) /\
  Forall (fun row => years_include (y :: ys) (data_year (row_data row)) = true)
         (procurement_invoices (fst result)) /\
  Forall (fun row => years_include (y :: ys) (meta_data_year row) = true)
         (dataset_metadata (fst result)) /\
  (snd result = Fatal \/ snd result = NoFiles ->
   procurement_invoices (fst result) = [] /\ dataset_metadata (fst result) = []).
Proof.
  cbv zeta. split; [reflexivity|]. split; [reflexivity|]. split; [reflexivity|].
  assert (Hwithin : years_within (y :: ys)
            (fst (updateProcurementData csv_parse row_accepted
                    (mkOptions (Some (y :: ys)) force true) net fs db))).
  { unfold updateProcurementData. cbn [clearExisting years forceRedownload].
    destruct (downloadAllProcurementFiles _ _ _ _) as [[fs' dls]|] eqn:Edl;
      [|apply years_within_clear].
    destruct dls as [|d dls]; [apply years_within_clear|].
    apply downloads_in_years in Edl.
    pose proof (importAllFiles_loop_years (y :: ys) fs'
                  (clearInvoiceData (initializeDatabase db)) (d :: dls) []
                  Edl (years_within_clear _ _)) as H.
    unfold importAllFiles.
    destruct (importAllFiles_loop _ _ _ _ _ _) as [db3 [res|]]; exact H. }
  destruct Hwithin as [Hinv Hled]. split.
  { unfold invoice_columns in Hinv. by rewrite List.Forall_map in Hinv. }
  split; [exact Hled|].
  unfold updateProcurementData. cbn [clearExisting years forceRedownload].
  destruct (downloadAllProcurementFiles _ _ _ _) as [[fs' dls]|]; [|auto].
  destruct dls as [|d dls]; [auto|].
  unfold importAllFiles.
  destruct (importAllFiles_loop _ _ _ _ _ _) as [db3 [res|]]; cbn;
    intros [H|H]; discriminate.
Qed.

End Workflow.

(* ===================================================================== *)
(** * Concrete checks *)
(* ===================================================================== *)

Lemma extractYear_leftmost_window_witness :
  extractYearFromFilename "th_data_20245.csv" = Some 2024 /\
  no_long_run "th_data_2024_v2.csv" = true /\
  extractYearFromFilename "th_data_2024_v2.csv"
    = year_of_first_exact_run "th_data_2024_v2.csv".
Proof.
  split; [|split; [reflexivity|]].
  - apply (proj1 (extractYear_leftmost_window "th_data_20245.csv")).
    exists 8, [2; 0; 2; 4]. split; [reflexivity|]. split; [|reflexivity].
    intros j Hj. do 8 (destruct j as [|j]; [reflexivity|]). lia.
  - apply (proj2 (proj2 (extractYear_leftmost_window "th_data_2024_v2.csv"))).
    reflexivity.
Defined.

Lemma filterProcurementResources_spec_witness :
  let older := mkResource "c" "TH_DATA_2022.TSV" "u3" "" None in
  let data := mkResource "a" "th_data_2023.csv" "u1" "CSV" None in
  let glossary := mkResource "b" "th_data_2023_kaannokset.csv" "u2" "CSV" None in
  is_procurement_file older /\
  In older (filterProcurementResources [older; data; glossary]) /\
  StronglySorted (fun a b => (year_key b <= year_key a)%Z)
                 (filterProcurementResources [older; data; glossary]) /\
  filterProcurementResources [data; glossary] = [data].
Proof.
  cbv zeta.
  pose proof (filterProcurementResources_spec
                [mkResource "c" "TH_DATA_2022.TSV" "u3" "" None;
                 mkResource "a" "th_data_2023.csv" "u1" "CSV" None;
                 mkResource "b" "th_data_2023_kaannokset.csv" "u2" "CSV" None]) as T.
  cbv zeta in T. destruct T as (Tsel & Tin & _ & Tsorted & _ & Tscenario).
  assert (H : is_procurement_file (mkResource "c" "TH_DATA_2022.TSV" "u3" "" None)).
  { apply Tsel. reflexivity. }
  split; [exact H|]. split.
  - apply Tin. split; [by left | exact H].
  - split; [exact Tsorted|].
    exact (proj1 (Tscenario "a" "u1" "CSV" None "b" "u2" "CSV" None)).
Defined.

Lemma detectDelimiter_spec_witness :
  semicolon_on_first_line "a;b" /\ detectDelimiter (Some "a;b") "tsv" = SEMICOLON.
Proof.
  assert (H : semicolon_on_first_line "a;b").
  { exists 1. split; [lia|]. split; [reflexivity|].
    intros j Hj. destruct j as [|j]; [discriminate | lia]. }
  split; [exact H|].
  exact (proj1 (detectDelimiter_spec "tsv") "a;b" H).
Defined.

Lemma rejected_record_is_skipped_witness :
  lasku_id (transform (Some 2024) sample_record_no_id) = "" /\
  run_outcome (import_events schema_not_null sample_resource empty_db
                 ([sample_record "INV-1" "12.50"] ++ sample_record_no_id
                    :: [sample_record "INV-2" "7"]) EndOfFile)
  = outcome_add_error
      (run_outcome (import_events schema_not_null sample_resource empty_db
                      ([sample_record "INV-1" "12.50"] ++ [sample_record "INV-2" "7"])
                      EndOfFile)).
Proof.
  split; [reflexivity|].
  apply (rejected_record_is_skipped schema_not_null sample_resource empty_db
           [sample_record "INV-1" "12.50"] [sample_record "INV-2" "7"]
           sample_record_no_id EndOfFile).
  left. reflexivity.
Defined.

Lemma two_batches_for_1999_witness :
  let rows := sample_record_no_id :: numbered_records 0 1999 in
  let acc := accepted (Some 2024) rows in
  length acc = 1999 /\
  run_flushes (import_events schema_not_null sample_resource empty_db rows EndOfFile)
  = [take 1000 acc; drop 1000 acc].
Proof.
  cbv zeta.
  assert (H : length (accepted (Some 2024) (sample_record_no_id :: numbered_records 0 1999))
              = 1999) by (vm_compute; reflexivity).
  split; [exact H|].
  exact (proj1 (two_batches_for_1999 schema_not_null sample_resource empty_db
                  (sample_record_no_id :: numbered_records 0 1999) H)).
Defined.

Lemma failed_batch_is_dropped_and_counted_witness :
  let pre := sample_record "BAD-1" "n/a" :: numbered_records 0 998 in
  let record := numbered_record 998 in
  let post := numbered_records 999 3 in
  insertBatch schema_not_null empty_db
    (accepted (Some 2024) (pre ++ [record])) = None /\
  run_outcome (import_events schema_not_null sample_resource empty_db
                 (pre ++ record :: post) EndOfFile)
  = Resolved (length (accepted (Some 2024) (pre ++ record :: post))) 1.
Proof.
  cbv zeta. split; [vm_compute; reflexivity|].
  refine (proj1 (proj2 (proj2 (proj2 (proj2
            (failed_batch_is_dropped_and_counted schema_not_null sample_resource
               empty_db (sample_record "BAD-1" "n/a" :: numbered_records 0 998)
               (numbered_records 999 3) (numbered_record 998) _ _ _ _)))))).
  all: vm_compute; reflexivity.
Defined.

(** C7, at a failing input: the file th_data_latest.csv passes the resource
    filter and has no year in its name, so every row is bound with a NULL
    [data_year], which the NOT NULL column refuses.  With 1999 records
    that pass the required-fields test both [insertBatch] calls are made,
    with 1000 and 999 records; the first throws inside the ['data']
    handler and is caught, the second throws inside the ['end'] handler,
    where nothing catches it: the import neither resolves nor rejects, no
    [recordCount] is reported and nothing is written. *)
Theorem final_batch_failure_is_uncaught :
  let rows := numbered_records 0 1999 in
  let acc := accepted None rows in
  let run := import_events schema_not_null undated_resource empty_db rows EndOfFile in
  filterProcurementResources [undated_resource] = [undated_resource] /\
  extractYearFromFilename (res_name undated_resource) = None /\
  length acc = 1999 /\
  run_flushes run = [take 1000 acc; drop 1000 acc] /\
  insertBatch schema_not_null empty_db (drop 1000 acc) = None /\
  run_outcome run = Crashed /\
  run_db run = empty_db.
Proof.
  cbv zeta.
  repeat match goal with |- _ /\ _ => split end; vm_compute; reflexivity.
Qed.

(** C10, at a failing input: the same file with 1001 records.  The batch
    upsert of the first 1000 throws and the ['data'] handler catches it
    and counts one error, as the claim says; the record left in the
    buffer is then flushed by the ['end'] handler, that call throws too
    and is not caught: the import does not finish and no ledger row is
    written. *)
Theorem failed_batch_then_uncaught_final_batch :
  let rows := numbered_records 0 1001 in
  let st := feed schema_not_null None (initial_state empty_db) (numbered_records 0 999) in
  let batch := records st ++ [transform None (numbered_record 999)] in
  let run := import_events schema_not_null undated_resource empty_db rows EndOfFile in
  length batch = 1000 /\
  insertBatch schema_not_null (store st) batch = None /\
  on_data schema_not_null None st (numbered_record 999)
    = mkState [] 1000 1 empty_db [batch] /\
  run_flushes run = [batch; [transform None (numbered_record 1000)]] /\
  run_outcome run = Crashed /\
  dataset_metadata (run_db run) = [].
Proof.
  cbv zeta.
  repeat match goal with |- _ /\ _ => split end; vm_compute; reflexivity.
Qed.

Lemma import_twice_same_table_witness :
  let run1 := importCSVFile (emit_rows sample_rows) schema_not_null sample_fs
                            db_2023 sample_path sample_resource in
  let run2 := importCSVFile (emit_rows sample_rows) schema_not_null sample_fs
                            (run_db run1) sample_path sample_resource in
  NoDup (map lasku_id (invoice_columns db_2023)) /\
  invoice_columns (run_db run2) = invoice_columns (run_db run1) /\
  NoDup (map lasku_id (invoice_columns (run_db run2))).
Proof.
  cbv zeta.
  assert (H : NoDup (map lasku_id (invoice_columns db_2023))).
  { vm_compute. repeat constructor. intros Hin. apply list_elem_of_In in Hin. destruct Hin. }
  pose proof (import_twice_same_table schema_not_null (emit_rows sample_rows)
                sample_fs db_2023 sample_path sample_resource) as T.
  cbv zeta in T. destruct T as (T1 & _ & _ & _ & T5).
  split; [exact H|]. split; [exact T1|]. exact (proj2 (T5 H)).
Defined.

(** C3, as stated, fails: the file of the resource is on disk and the run
    is not forced, so the download is skipped; the file is imported all
    the same and a ledger row appears for the resource. *)
Lemma skipped_resource_is_imported :
  let opts := mkOptions None false false in
  downloadAllProcurementFiles sample_net None false sample_fs
    = Some (sample_fs, [mkDownload sample_path 170 sample_resource true]) /\
  snd (updateProcurementData (emit_rows sample_rows) schema_not_null opts
         sample_net sample_fs empty_db)
    = Completed [ImportOk "th_data_2024.csv" 3 0] /\
  dataset_metadata (fst (updateProcurementData (emit_rows sample_rows) schema_not_null
                           opts sample_net sample_fs empty_db))
    = [mkMetadataRow 1 "res-2024" "th_data_2024.csv"
         "https://www.avoindata.fi/th_data_2024.csv" "CSV" (Some 2024) None 3 "completed"] /\
  dataset_metadata (fst (updateProcurementData (emit_rows sample_rows) schema_not_null
                           opts sample_net sample_fs empty_db))
    <> dataset_metadata empty_db.
Proof.
  cbv zeta.
  assert (E : dataset_metadata
                (fst (updateProcurementData (emit_rows sample_rows) schema_not_null
                        (mkOptions None false false) sample_net sample_fs empty_db))
              = [mkMetadataRow 1 "res-2024" "th_data_2024.csv"
                   "https://www.avoindata.fi/th_data_2024.csv" "CSV" (Some 2024) None 3
                   "completed"])
    by (vm_compute; reflexivity).
  split; [vm_compute; reflexivity|]. split; [vm_compute; reflexivity|].
  split; [exact E|]. rewrite E. change (dataset_metadata empty_db) with (@nil metadata_row).
  discriminate.
Qed.

Lemma importAllFiles_imports_skipped_too_witness :
  let skipped := mkDownload sample_path 170 sample_resource true in
  let run := importCSVFile (emit_rows sample_rows) schema_not_null sample_fs empty_db
               sample_path sample_resource in
  importAllFiles (emit_rows sample_rows) schema_not_null sample_fs empty_db []
    = (empty_db, Some []) /\
  run_outcome run = Resolved 3 0 /\
  importAllFiles (emit_rows sample_rows) schema_not_null sample_fs empty_db [skipped]
    = (run_db run, Some [ImportOk "th_data_2024.csv" 3 0]) /\
  has_completed_row "res-2024" (run_db run).
Proof.
  cbv zeta.
  assert (Hout : run_outcome (importCSVFile (emit_rows sample_rows) schema_not_null
                                sample_fs empty_db sample_path sample_resource)
                 = Resolved 3 0) by (vm_compute; reflexivity).
  pose proof (proj1 (proj2
                (importAllFiles_imports_skipped_too (emit_rows sample_rows)
                   schema_not_null sample_fs empty_db
                   [mkDownload sample_path 170 sample_resource true]))
                [] (mkDownload sample_path 170 sample_resource true) [] empty_db []
                eq_refl eq_refl) as T.
  cbv zeta in T. cbn [dl_filePath dl_resource] in T. rewrite Hout in T.
  split; [reflexivity|]. split; [exact Hout|]. exact T.
Defined.

Lemma clear_existing_wipes_every_year_witness :
  let opts := mkOptions (Some [IntVal 2024]) false true in
  let result := updateProcurementData (emit_rows sample_rows) schema_not_null opts
                  sample_net sample_fs db_2023 in
  map (fun row => data_year (row_data row)) (procurement_invoices db_2023) = [Some 2023] /\
  Forall (fun row => years_include [IntVal 2024] (data_year (row_data row)) = true)
         (procurement_invoices (fst result)) /\
  map (fun row => lasku_id (row_data row)) (procurement_invoices (fst result))
    = ["INV-2"; "INV-1"].
Proof.
  cbv zeta. split; [reflexivity|]. split.
  - exact (proj1 (proj2 (proj2 (proj2
             (clear_existing_wipes_every_year (emit_rows sample_rows) schema_not_null
                sample_net sample_fs db_2023 false (IntVal 2024) []))))).
  - vm_compute. reflexivity.
Defined.

(** A few evaluations of the primitives. *)

Example extractYear_plain : extractYearFromFilename "th_data_2024.csv" = Some 2024.
Proof. reflexivity. Qed.

Example extractYear_no_digits : extractYearFromFilename "th_data.csv" = None.
Proof. reflexivity. Qed.

Example extractYear_leading_zero : extractYearFromFilename "th_data_0042.csv" = Some 42.
Proof. reflexivity. Qed.

(** -12.5 is -7036874417766400 * 2^-49. *)
Example parseFloat_negative :
  JS.parseFloat "-12.50" = S754_finite true 7036874417766400 (-49).
Proof. vm_compute. reflexivity. Qed.

Example parseFloat_decimal_comma : JS.parseFloat "12,50" = JS.parseFloat "12".
Proof. vm_compute. reflexivity. Qed.

(** Above 2^53 not every integer is a Number: 2^53 + 1 reads as 2^53. *)
Example parseFloat_rounds :
  JS.parseFloat "9007199254740993" = JS.parseFloat "9007199254740992" /\
  JS.parseFloat "9007199254740992" = S754_finite false 4503599627370496 1.
Proof. vm_compute. split; reflexivity. Qed.

Example parseFloat_overflow : JS.parseFloat "1e309" = JS.Inf false.
Proof. vm_compute. reflexivity. Qed.

Example parseFloat_underflow : JS.parseFloat "-1e-400" = S754_zero true.
Proof. vm_compute. reflexivity. Qed.

(** A no-break space (U+00A0, bytes C2 A0) in front of the digits is
    skipped. *)
Example parseFloat_no_break_space :
  JS.parseFloat (String "194" (String "160" "12")) = JS.parseFloat "12".
Proof. vm_compute. reflexivity. Qed.

Example parseFloat_empty : JS.parseFloat "" = JS.NaN.
Proof. reflexivity. Qed.

(** The Kelvin sign (U+212A, bytes E2 84 AA) lower-cases to [k], so a name
    written with it carries the translation marker. *)
Example toLowerCase_kelvin_sign :
  JS.toLowerCase (String "226" (String "132" (String "170" "AANNOKSET")))
  = "kaannokset".
Proof. vm_compute. reflexivity. Qed.

Example filter_drops_kelvin_glossary :
  filterProcurementResources
    [mkResource "k" (String.append "th_data_2023_"
                       (String "226" (String "132" (String "170" "aannokset.csv"))))
                "u" "csv" None]
  = [].
Proof. vm_compute. reflexivity. Qed.

(** The capital sigma at the end of a word becomes the final sigma
    (bytes CF 82), elsewhere the plain one (CF 83). *)
Example toLowerCase_final_sigma :
  JS.code_points (JS.toLowerCase (JS.utf8 [0x391; 0x3A3; 0x20; 0x3A3; 0x391]%N))
  = [0x3B1; 0x3C2; 0x20; 0x3C3; 0x3B1]%N.
Proof. vm_compute. reflexivity. Qed.

Example parseInt_rounds :
  parseInt "9007199254740993" = IntVal 9007199254740992 /\
  parseInt "0x7E8" = IntVal 2024 /\
  parseInt "2024abc" = IntVal 2024 /\
  parseInt "" = IntNaN.
Proof. vm_compute. repeat split; reflexivity. Qed.

(** [trim] removes the no-break space and the byte order mark as well. *)
Example js_trim_unicode :
  js_trim (String "194" (String "160" (String.append " 2024 "
             (String "239" (String "187" (String "191" ""))))))
  = "2024".
Proof. vm_compute. reflexivity. Qed.

Example detectDelimiter_second_line :
  detectDelimiter (Some "a,b
c;d") "TSV" = TAB.
Proof. reflexivity. Qed.

(* ===================================================================== *)
(** * Further properties of the importer *)
(* ===================================================================== *)

Lemma accepted_rejected_length year rows :
  length (accepted year rows) + rejected year rows = length rows.
Proof.
  unfold accepted, rejected. induction rows as [|record rows IH]; cbn; [reflexivity|].
  destruct (validate (transform year record)); cbn; lia.
Qed.

Lemma put_all_length l t : length (put_all l t) <= length t + length l.
Proof.
  revert t. induction l as [|inv l IH]; intros t; cbn; [lia|].
  etransitivity; [apply IH|]. unfold put. rewrite length_app. cbn.
  pose proof (List.filter_length_le
                (fun x => negb (String.eqb (lasku_id x) (lasku_id inv))) t). lia.
Qed.

Lemma written_length (row_accepted : invoice -> bool) fl :
  length (written row_accepted fl) <= length (concat fl).
Proof.
  unfold written. induction fl as [|b fl IH]; cbn; [lia|].
  destruct (forallb row_accepted b); cbn; rewrite !length_app; lia.
Qed.

Section ImporterLaws.
Variable row_accepted : invoice -> bool.

(** The log of a run that reaches the end of the stream, in terms of the
    handler state at that point. *)
Lemma on_end_flushes r st :
  run_flushes (on_end row_accepted r st)
  = flushes st ++ match records st with [] => [] | _ => [records st] end.
Proof.
  unfold on_end. destruct (records st) as [|x xs] eqn:E.
  - cbn. by rewrite app_nil_r.
  - rewrite <- E. by destruct (insertBatch row_accepted (store st) (records st)).
Qed.

Lemma end_of_stream_log r db rows :
  concat (run_flushes (import_events row_accepted r db rows EndOfFile))
  = accepted (extractYearFromFilename (res_name r)) rows.
Proof.
  unfold import_events.
  destruct (feed_spec row_accepted (extractYearFromFilename (res_name r)) db rows)
    as (Hacc & _).
  rewrite on_end_flushes, concat_app, <- Hacc. f_equal.
  destruct (records _); cbn; by rewrite ?app_nil_r.
Qed.

Lemma feed_buffer year db rows :
  records (feed row_accepted year (initial_state db) rows)
  = final_batch (accepted year rows).
Proof.
  destruct (feed_spec row_accepted year db rows) as (Hacc & Hfl & Hbuf & _).
  set (st := feed row_accepted year (initial_state db) rows) in *.
  pose proof (concat_length_uniform _ _ Hfl) as Hcat.
  unfold final_batch. rewrite <- Hacc, length_app, Hcat.
  replace (BATCH_SIZE * ((BATCH_SIZE * length (flushes st) + length (records st))
                         / BATCH_SIZE))
    with (length (concat (flushes st))).
  - symmetry. apply drop_app_length.
  - rewrite Hcat, (Nat.mul_comm BATCH_SIZE (length (flushes st))).
    rewrite Nat.div_add_l by done. rewrite (Nat.div_small _ _ Hbuf). lia.
Qed.

(** An import stops the process only at the end of the stream, when the
    storage refuses a row of the final batch. *)
Lemma import_events_crashed r db rows fin :
  run_outcome (import_events row_accepted r db rows fin) = Crashed ->
  fin = EndOfFile /\
  forallb row_accepted
    (final_batch (accepted (extractYearFromFilename (res_name r)) rows)) = false.
Proof.
  unfold import_events. destruct fin; [|discriminate]. intros H.
  split; [reflexivity|]. rewrite <- (feed_buffer _ db). unfold on_end in H.
  set (st := feed row_accepted _ (initial_state db) rows) in *.
  destruct (records st) as [|x xs] eqn:E; [discriminate|].
  rewrite insertBatch_eq in H.
  destruct (forallb row_accepted (x :: xs)); [discriminate | reflexivity].
Qed.

(** Batching law: at the end of a stream the [insertBatch] calls are the
    accepted invoices cut into consecutive groups of 1000, followed by one
    call with the remainder when it is not empty; no call is empty and none
    holds more than 1000 invoices. *)
Theorem flushes_are_chunks_of_1000 (r : resource) (db : database)
    (rows : list csv_record) :
  let acc := accepted (extractYearFromFilename (res_name r)) rows in
  let run := import_events row_accepted r db rows EndOfFile in
  exists full rest,
    run_flushes run = full ++ match rest with [] => [] | _ => [rest] end /\
    Forall (fun b => length b = 1000) full /\
    length full = length acc / 1000 /\
    length rest = length acc mod 1000 /\
    concat full ++ rest = acc /\
    concat (run_flushes run) = acc /\
    Forall (fun b => 1 <= length b <= 1000) (run_flushes run).
Proof.
  cbv zeta. unfold import_events.
  destruct (feed_spec row_accepted (extractYearFromFilename (res_name r)) db rows)
    as (Hacc & Hfl & Hbuf & _).
  set (st := feed row_accepted _ _ rows) in *.
  exists (flushes st), (records st). rewrite on_end_flushes.
  pose proof (concat_length_uniform _ _ Hfl) as Hcat.
  assert (Hlen : length (accepted (extractYearFromFilename (res_name r)) rows)
                 = length (records st) + length (flushes st) * 1000).
  { rewrite <- Hacc, length_app, Hcat. unfold BATCH_SIZE. lia. }
  unfold BATCH_SIZE in *.
  split; [reflexivity|]. split; [exact Hfl|]. split.
  { rewrite Hlen, Nat.div_add by lia. rewrite Nat.div_small by lia. lia. }
  split.
  { rewrite Hlen, Nat.Div0.mod_add. by rewrite Nat.mod_small by lia. }
  split; [exact Hacc|]. split.
  { rewrite concat_app. destruct (records st) eqn:E; cbn; rewrite ?app_nil_r.
    - by rewrite <- Hacc, app_nil_r.
    - by rewrite <- Hacc. }
  apply Forall_app. split.
  - eapply List.Forall_impl; [|exact Hfl]. cbn. intros b Hb. lia.
  - destruct (records st) as [|x xs] eqn:E; constructor; [|constructor].
    cbn [length] in *. lia.
Qed.

(** The counts of an import that resolves: the stream ended normally,
    [recordCount] is the number of records that passed the required-fields
    test, whether or not their batch was stored, [errorCount] is the number
    of records that did not plus one per batch that threw, and the table
    grew by at most [recordCount] rows. *)
Theorem counts_of_resolved_import (r : resource) (db : database)
    (rows : list csv_record) (fin : stream_end) (rc ec : nat) :
  let year := extractYearFromFilename (res_name r) in
  let run := import_events row_accepted r db rows fin in
  run_outcome run = Resolved rc ec ->
  fin = EndOfFile /\
  rc = length (accepted year rows) /\
  rc + rejected year rows = length rows /\
  ec = rejected year rows + failed_batches row_accepted (run_flushes run) /\
  length (procurement_invoices (run_db run)) <= length (procurement_invoices db) + rc.
Proof.
  cbv zeta. intros Hres.
  pose proof (import_events_columns row_accepted r db rows fin) as Hcols. cbv zeta in Hcols.
  assert (Hlog : length (concat (run_flushes (import_events row_accepted r db rows fin)))
                 <= length (accepted (extractYearFromFilename (res_name r)) rows)).
  { unfold import_events.
    destruct (feed_spec row_accepted (extractYearFromFilename (res_name r)) db rows)
      as (Hacc & _). rewrite <- Hacc.
    destruct fin; [rewrite on_end_flushes|cbn [run_flushes]];
      rewrite ?concat_app, !length_app; [|lia].
    destruct (records _); cbn; rewrite ?app_nil_r; lia. }
  unfold import_events in Hres.
  destruct (feed_spec row_accepted (extractYearFromFilename (res_name r)) db rows)
    as (Hacc & Hfl & Hbuf & Hrc & Hec & Hst).
  set (st := feed row_accepted _ _ rows) in *.
  destruct fin; [|discriminate]. split; [reflexivity|].
  assert (Hcounts : rc = recordCount st /\
                    ec = errorCount st /\
                    failed_batches row_accepted (run_flushes (on_end row_accepted r st))
                    = failed_batches row_accepted (flushes st)).
  { rewrite on_end_flushes. unfold on_end in Hres.
    destruct (records st) as [|x xs] eqn:E.
    - injection Hres as <- <-. by rewrite app_nil_r.
    - rewrite <- E in *. rewrite insertBatch_eq in Hres.
      destruct (forallb row_accepted (records st)) eqn:Hok; [|discriminate].
      injection Hres as <- <-. rewrite E, <- E, failed_batches_snoc, Hok. auto. }
  destruct Hcounts as (-> & -> & Hfb).
  split; [exact Hrc|]. split; [rewrite Hrc; apply accepted_rejected_length|].
  split.
  { unfold import_events. fold st. by rewrite Hfb. }
  apply (f_equal (@length _)) in Hcols. unfold invoice_columns in Hcols.
  rewrite !length_map in Hcols. rewrite Hcols.
  etransitivity; [apply put_all_length|].
  pose proof (written_length row_accepted
                (run_flushes (import_events row_accepted r db rows EndOfFile))).
  rewrite length_map. lia.
Qed.

(** A stream that ends with a parser error: the promise rejects, the
    batches of 1000 flushed so far stay as they are, the ledger is not
    touched, and the accepted records still in the buffer (fewer than 1000)
    are never written.  A stream with fewer than 1000 accepted records
    before the error leaves the database as it was. *)
Theorem parse_error_loses_partial_batch (r : resource) (db : database)
    (rows : list csv_record) :
  let acc := accepted (extractYearFromFilename (res_name r)) rows in
  let run := import_events row_accepted r db rows ParseError in
  run_outcome run = Rejected /\
  dataset_metadata (run_db run) = dataset_metadata db /\
  metadata_seq (run_db run) = metadata_seq db /\
  run_db run = commit_all row_accepted db (run_flushes run) /\
  Forall (fun b => length b = 1000) (run_flushes run) /\
  (exists lost, acc = concat (run_flushes run) ++ lost /\
                length lost = length acc mod 1000) /\
  (length acc < 1000 -> run_db run = db).
Proof.
  cbv zeta. unfold import_events.
  destruct (feed_spec row_accepted (extractYearFromFilename (res_name r)) db rows)
    as (Hacc & Hfl & Hbuf & _ & _ & Hst).
  set (st := feed row_accepted _ _ rows) in *. cbn [run_outcome run_db run_flushes].
  pose proof (concat_length_uniform _ _ Hfl) as Hcat. unfold BATCH_SIZE in *.
  destruct (commit_all_metadata row_accepted db (flushes st)) as [Hm Hs].
  split; [reflexivity|]. rewrite Hst.
  split; [exact Hm|]. split; [exact Hs|]. split; [reflexivity|].
  split; [exact Hfl|]. split.
  - exists (records st). split; [by rewrite Hacc|].
    rewrite <- Hacc, length_app, Hcat.
    replace (1000 * length (flushes st) + length (records st))
      with (length (records st) + length (flushes st) * 1000) by lia.
    rewrite Nat.Div0.mod_add. by rewrite Nat.mod_small by lia.
  - intros Hshort. rewrite <- Hacc, length_app, Hcat in Hshort.
    destruct (flushes st); [reflexivity | cbn [length] in Hshort; lia].
Qed.

End ImporterLaws.

(* ===================================================================== *)
(** * What an import changes in the two tables *)
(* ===================================================================== *)

Lemma touches_put_all l x :
  In x (put_all l []) -> touches l x = true.
Proof.
  intros H. apply put_all_ids in H as [[]|H]. exact H.
Qed.

Lemma filter_id_put_same inv t :
  List.filter (fun x => String.eqb (lasku_id x) (lasku_id inv)) (put inv t) = [inv].
Proof.
  unfold put. rewrite List.filter_app. cbn. rewrite String.eqb_refl.
  rewrite filter_none; [reflexivity|].
  intros x Hx. apply List.filter_In in Hx as [_ Hx].
  by apply negb_true_iff in Hx.
Qed.

Lemma filter_id_put_other id inv t :
  String.eqb (lasku_id inv) id = false ->
  List.filter (fun x => String.eqb (lasku_id x) id) (put inv t)
  = List.filter (fun x => String.eqb (lasku_id x) id) t.
Proof.
  intros Hne. unfold put. rewrite List.filter_app, filter_filter_id. cbn.
  rewrite Hne, app_nil_r. apply List.filter_ext. intros x.
  destruct (String.eqb (lasku_id x) id) eqn:E; [|apply andb_false_r].
  apply String.eqb_eq in E. rewrite E, String.eqb_sym, Hne. reflexivity.
Qed.

Lemma filter_id_put_all_untouched inv l t :
  touches l inv = false ->
  List.filter (fun x => String.eqb (lasku_id x) (lasku_id inv)) (put_all l t)
  = List.filter (fun x => String.eqb (lasku_id x) (lasku_id inv)) t.
Proof.
  revert t. induction l as [|i l IH]; intros t H; [reflexivity|].
  cbn in H. apply orb_false_iff in H as [Hi Hl].
  cbn [put_all fold_left]. fold (put_all l (put i t)).
  rewrite (IH _ Hl). apply filter_id_put_other. by rewrite String.eqb_sym.
Qed.

Lemma written_all_accepted (row_accepted : invoice -> bool) fl :
  forallb row_accepted (concat fl) = true -> written row_accepted fl = concat fl.
Proof.
  unfold written. induction fl as [|b fl IH]; cbn; [reflexivity|].
  rewrite forallb_app. intros H. apply andb_true_iff in H as [-> Hfl].
  cbn. by rewrite IH.
Qed.

Lemma transform_no_empty_optional year record :
  no_empty_optional (transform year record) = true.
Proof.
  assert (H : forall a b, optional_ok (or_null a b) = true).
  { intros a b. unfold or_null. by destruct (JS.or_else a b) as [[|c t]|]. }
  unfold no_empty_optional, transform. cbn. by rewrite !H.
Qed.

Lemma accepted_well_formed year rows inv :
  In inv (accepted year rows) -> well_formed_invoice inv = true.
Proof.
  unfold accepted. intros H. apply List.filter_In in H as [H Hv].
  apply in_map_iff in H as (record & <- & _).
  unfold well_formed_invoice. by rewrite Hv, transform_no_empty_optional.
Qed.

(** Row ids under one insert-or-replace. *)
Lemma sorted_ids_snoc (f : invoice_row -> bool) rows id inv :
  StronglySorted lt (map row_id rows) ->
  Forall (fun row => row_id row < id) rows ->
  StronglySorted lt (map row_id (List.filter f rows ++ [mkInvoiceRow id inv])).
Proof.
  induction rows as [|a rows IH]; intros Hs Hlt; cbn.
  - repeat constructor.
  - cbn in Hs. apply StronglySorted_inv in Hs as [Hs Ha].
    apply Forall_cons in Hlt as [Halt Hlt].
    destruct (f a); [|by apply IH]. cbn. constructor; [by apply IH|].
    apply List.Forall_forall. intros n Hn. rewrite map_app in Hn.
    apply in_app_or in Hn as [Hn|[<-|[]]]; [|exact Halt].
    apply in_map_iff in Hn as (row & <- & Hrow).
    apply List.filter_In in Hrow as [Hrow _].
    rewrite List.Forall_forall in Ha. apply Ha. by apply in_map.
Qed.

Section TableEffects.
Variable csv_parse : ascii -> string -> list csv_record * stream_end.
Variable row_accepted : invoice -> bool.

Lemma importCSVFile_columns fs db filePath r :
  let run := importCSVFile csv_parse row_accepted fs db filePath r in
  invoice_columns (run_db run)
  = put_all (written row_accepted (run_flushes run)) (invoice_columns db).
Proof.
  cbv zeta. unfold importCSVFile.
  destruct (fs !! filePath) as [content|]; [|reflexivity].
  destruct (csv_parse _ content) as [rows fin]. apply import_events_columns.
Qed.

(** Frame of an import: a row whose invoice identifier is not the one of
    an invoice of a batch that went through is left as it was; these rows
    keep their order. *)
Theorem import_keeps_other_rows (fs : filesystem) (db : database)
    (filePath : string) (r : resource) :
  let run := importCSVFile csv_parse row_accepted fs db filePath r in
  let touched := touches (written row_accepted (run_flushes run)) in
  List.filter (fun x => negb (touched x)) (invoice_columns (run_db run))
    = List.filter (fun x => negb (touched x)) (invoice_columns db) /\
  (forall x, In x (invoice_columns db) -> touched x = false ->
             In x (invoice_columns (run_db run))) /\
  (forall x, In x (invoice_columns (run_db run)) -> touched x = false ->
             In x (invoice_columns db)).
Proof.
  cbv zeta. rewrite importCSVFile_columns.
  set (W := written row_accepted _).
  assert (E : List.filter (fun x => negb (touches W x)) (put_all W (invoice_columns db))
              = List.filter (fun x => negb (touches W x)) (invoice_columns db)).
  { rewrite put_all_split, List.filter_app, filter_filter_id.
    rewrite (filter_none _ (put_all W [])), app_nil_r.
    - apply List.filter_ext. intros x. unfold touches. by destruct (negb _).
    - intros x Hx. by rewrite (touches_put_all _ x Hx). }
  split; [exact E|]. split.
  - intros x Hx Ht.
    assert (Hin : In x (List.filter (fun x => negb (touches W x)) (invoice_columns db))).
    { apply List.filter_In. by rewrite Ht. }
    rewrite <- E in Hin. by apply List.filter_In in Hin as [Hin _].
  - intros x Hx Ht.
    assert (Hin : In x (List.filter (fun x => negb (touches W x))
                                    (put_all W (invoice_columns db)))).
    { apply List.filter_In. by rewrite Ht. }
    rewrite E in Hin. by apply List.filter_In in Hin as [Hin _].
Qed.

(** Last record wins: when every accepted invoice of a stream is stored,
    the row of an invoice identifier holds the columns of the last accepted
    record with that identifier, and it is the only row with it. *)
Theorem last_record_wins (r : resource) (db : database) (rows : list csv_record)
    (before after : list invoice) (inv : invoice) :
  let acc := accepted (extractYearFromFilename (res_name r)) rows in
  let run := import_events row_accepted r db rows EndOfFile in
  forallb row_accepted acc = true ->
  acc = before ++ inv :: after ->
  touches after inv = false ->
  List.filter (fun x => String.eqb (lasku_id x) (lasku_id inv))
              (invoice_columns (run_db run)) = [inv].
Proof.
  cbv zeta. intros Hok Hsplit Hlast.
  rewrite import_events_columns.
  pose proof (end_of_stream_log row_accepted r db rows) as Hcat.
  rewrite written_all_accepted by (by rewrite Hcat).
  rewrite Hcat, Hsplit, put_all_app. cbn [put_all fold_left].
  fold (put_all after (put inv (put_all before (invoice_columns db)))).
  rewrite (filter_id_put_all_untouched inv after _ Hlast).
  apply filter_id_put_same.
Qed.

(** An import never stores an invoice with an empty required text or an
    empty optional text: a table of well-formed rows stays one. *)
Theorem import_keeps_rows_well_formed (fs : filesystem) (db : database)
    (filePath : string) (r : resource) :
  Forall (fun inv => well_formed_invoice inv = true) (invoice_columns db) ->
  Forall (fun inv => well_formed_invoice inv = true)
         (invoice_columns (run_db (importCSVFile csv_parse row_accepted fs db filePath r))).
Proof.
  intros Hdb. rewrite importCSVFile_columns.
  apply List.Forall_forall. intros x Hx. apply put_all_In in Hx as [Hx|Hx].
  - revert x Hx. by apply List.Forall_forall.
  - apply written_In in Hx. unfold importCSVFile in Hx.
    destruct (fs !! filePath) as [content|]; [|destruct Hx].
    destruct (csv_parse _ content) as [rows fin].
    apply import_events_log_accepted in Hx. by apply accepted_well_formed in Hx.
Qed.

End TableEffects.

Lemma ledger_ids_filter (f : metadata_row -> bool) (rows : list metadata_row) :
  NoDup (map resource_id rows) -> NoDup (map resource_id (List.filter f rows)).
Proof.
  induction rows as [|a rows IH]; cbn; intros H; [constructor|].
  apply NoDup_cons in H as [Ha H].
  destruct (f a); [|by apply IH]. cbn. apply NoDup_cons. split; [|by apply IH].
  intros Hin. apply Ha. apply list_elem_of_In in Hin. apply list_elem_of_In.
  apply in_map_iff in Hin as (y & <- & Hy).
  apply List.filter_In in Hy as [Hy _]. by apply in_map.
Qed.

(** The ledger after [updateMetadata]. *)
Lemma updateMetadata_ledger d r count :
  let row := mkMetadataRow (S (metadata_seq d)) (res_id r) (res_name r) (res_url r)
               (res_format r) (extractYearFromFilename (res_name r))
               (res_last_modified r) count "completed" in
  List.filter (fun x => String.eqb (resource_id x) (res_id r))
              (dataset_metadata (updateMetadata d r count)) = [row] /\
  List.filter (fun x => negb (String.eqb (resource_id x) (res_id r)))
              (dataset_metadata (updateMetadata d r count))
    = List.filter (fun x => negb (String.eqb (resource_id x) (res_id r)))
                  (dataset_metadata d) /\
  (NoDup (map resource_id (dataset_metadata d)) ->
   NoDup (map resource_id (dataset_metadata (updateMetadata d r count)))).
Proof.
  cbv zeta. unfold updateMetadata, insert_or_replace_metadata.
  cbn [dataset_metadata resource_id]. rewrite !List.filter_app. cbn [List.filter resource_id].
  rewrite String.eqb_refl. cbn [negb]. split; [|split].
  - rewrite filter_none; [reflexivity|]. intros x Hx.
    apply List.filter_In in Hx as [_ Hx]. by apply negb_true_iff in Hx.
  - rewrite app_nil_r. induction (dataset_metadata d) as [|a l IH]; cbn; [reflexivity|].
    destruct (negb _) eqn:E; cbn; rewrite ?E, IH; reflexivity.
  - intros Hu. rewrite map_app. cbn. apply NoDup_app. split; [|split].
    + by apply ledger_ids_filter.
    + intros id Hid Hone. apply list_elem_of_In in Hid.
      apply in_map_iff in Hid as (y & <- & Hy).
      apply List.filter_In in Hy as [_ Hy]. apply negb_true_iff, String.eqb_neq in Hy.
      apply list_elem_of_In in Hone. destruct Hone as [Hone|[]]. congruence.
    + repeat constructor. intros Hin. apply list_elem_of_In in Hin. destruct Hin.
Qed.

(** Row ids stay fresh under one insert-or-replace, seen from a starting
    database [db0]. *)
Lemma insert_keeps_ids_fresh db0 db inv :
  ids_fresh db ->
  invoices_seq db0 <= invoices_seq db ->
  Forall (fun row => In row (procurement_invoices db0) \/ invoices_seq db0 < row_id row)
         (procurement_invoices db) ->
  let db' := insert_or_replace_invoice db inv in
  ids_fresh db' /\
  invoices_seq db0 <= invoices_seq db' /\
  Forall (fun row => In row (procurement_invoices db0) \/ invoices_seq db0 < row_id row)
         (procurement_invoices db').
Proof.
  intros [Hle Hsorted] Hseq Hold. cbv zeta.
  unfold ids_fresh, insert_or_replace_invoice, replace_invoice.
  cbn [procurement_invoices invoices_seq]. split; [split|split].
  - apply Forall_app. split.
    + apply List.Forall_forall. intros row Hrow. apply List.filter_In in Hrow as [Hrow _].
      rewrite List.Forall_forall in Hle. specialize (Hle row Hrow). lia.
    + repeat constructor.
  - apply sorted_ids_snoc; [exact Hsorted|].
    eapply List.Forall_impl; [|exact Hle]. cbn. intros; lia.
  - lia.
  - apply Forall_app. split.
    + apply List.Forall_forall. intros row Hrow. apply List.filter_In in Hrow as [Hrow _].
      rewrite List.Forall_forall in Hold. by apply Hold.
    + constructor; [|constructor]. right. cbn. lia.
Qed.

Section LedgerAndIds.
Variable csv_parse : ascii -> string -> list csv_record * stream_end.
Variable row_accepted : invoice -> bool.

Lemma importCSVFile_db fs db filePath r :
  let run := importCSVFile csv_parse row_accepted fs db filePath r in
  let committed := commit_all row_accepted db (run_flushes run) in
  match run_outcome run with
  | Resolved rc ec => run_db run = updateMetadata committed r rc
  | _ => run_db run = committed
  end.
Proof.
  cbv zeta. unfold importCSVFile.
  destruct (fs !! filePath) as [content|]; [|reflexivity].
  destruct (csv_parse _ content) as [rows fin]. apply import_events_db.
Qed.

(** The ledger after an import that resolves: exactly one row carries the
    resource identifier, with a fresh id, the year of the file name, the
    import's record count and status completed; the rows of the other
    resources are as they were, and resource identifiers stay unique. *)
Theorem resolved_import_ledger_row (fs : filesystem) (db : database)
    (filePath : string) (r : resource) (rc ec : nat) :
  let run := importCSVFile csv_parse row_accepted fs db filePath r in
  run_outcome run = Resolved rc ec ->
  List.filter (fun x => String.eqb (resource_id x) (res_id r))
              (dataset_metadata (run_db run))
    = [mkMetadataRow (S (metadata_seq db)) (res_id r) (res_name r) (res_url r)
         (res_format r) (extractYearFromFilename (res_name r))
         (res_last_modified r) rc "completed"] /\
  List.filter (fun x => negb (String.eqb (resource_id x) (res_id r)))
              (dataset_metadata (run_db run))
    = List.filter (fun x => negb (String.eqb (resource_id x) (res_id r)))
                  (dataset_metadata db) /\
  (NoDup (map resource_id (dataset_metadata db)) ->
   NoDup (map resource_id (dataset_metadata (run_db run)))).
Proof.
  cbv zeta. intros Hres.
  pose proof (importCSVFile_db fs db filePath r) as Hdb. cbv zeta in Hdb.
  rewrite Hres in Hdb. rewrite Hdb.
  set (d := commit_all row_accepted db _).
  destruct (commit_all_metadata row_accepted db
              (run_flushes (importCSVFile csv_parse row_accepted fs db filePath r)))
    as [Hm Hs].
  fold d in Hm, Hs.
  pose proof (updateMetadata_ledger d r rc) as L. cbv zeta in L.
  rewrite Hm, Hs in L. exact L.
Qed.

Lemma fold_insert_ids_fresh db0 l db :
  ids_fresh db ->
  invoices_seq db0 <= invoices_seq db ->
  Forall (fun row => In row (procurement_invoices db0) \/ invoices_seq db0 < row_id row)
         (procurement_invoices db) ->
  let db' := fold_left insert_or_replace_invoice l db in
  ids_fresh db' /\
  invoices_seq db0 <= invoices_seq db' /\
  Forall (fun row => In row (procurement_invoices db0) \/ invoices_seq db0 < row_id row)
         (procurement_invoices db').
Proof.
  revert db. induction l as [|inv l IH]; intros db H1 H2 H3; cbn; [auto|].
  destruct (insert_keeps_ids_fresh db0 db inv H1 H2 H3) as (K1 & K2 & K3).
  by apply IH.
Qed.

Lemma commit_all_ids_fresh db0 fl :
  ids_fresh db0 ->
  let db' := commit_all row_accepted db0 fl in
  ids_fresh db' /\
  invoices_seq db0 <= invoices_seq db' /\
  Forall (fun row => In row (procurement_invoices db0) \/ invoices_seq db0 < row_id row)
         (procurement_invoices db').
Proof.
  intros H0. cbv zeta. induction fl as [|b fl IH] using rev_ind.
  - cbn. split; [exact H0|]. split; [lia|].
    apply List.Forall_forall. auto.
  - rewrite commit_all_snoc, insertBatch_eq.
    destruct (forallb row_accepted b); [|exact IH].
    destruct IH as (K1 & K2 & K3). by apply fold_insert_ids_fresh.
Qed.

(** The AUTOINCREMENT ids of the invoice table: an import keeps them
    below the counter and increasing in row order, never lowers the
    counter, and gives every row it writes an id above the counter it
    started from; clearing the tables keeps the counter, so the id of a
    deleted row is not given out again. *)
Theorem import_keeps_ids_fresh (fs : filesystem) (db : database)
    (filePath : string) (r : resource) :
  let run := importCSVFile csv_parse row_accepted fs db filePath r in
  ids_fresh db ->
  ids_fresh (run_db run) /\
  invoices_seq db <= invoices_seq (run_db run) /\
  (forall row, In row (procurement_invoices (run_db run)) ->
               In row (procurement_invoices db) \/ invoices_seq db < row_id row) /\
  ids_fresh (clearInvoiceData db) /\
  invoices_seq (clearInvoiceData db) = invoices_seq db.
Proof.
  cbv zeta. intros H0.
  pose proof (importCSVFile_db fs db filePath r) as Hdb. cbv zeta in Hdb.
  destruct (commit_all_ids_fresh db
              (run_flushes (importCSVFile csv_parse row_accepted fs db filePath r)) H0)
    as (K1 & K2 & K3).
  assert (Hrun : ids_fresh (run_db (importCSVFile csv_parse row_accepted fs db filePath r)) /\
                 invoices_seq db
                 <= invoices_seq (run_db (importCSVFile csv_parse row_accepted fs db filePath r)) /\
                 Forall (fun row => In row (procurement_invoices db)
                                    \/ invoices_seq db < row_id row)
                        (procurement_invoices
                           (run_db (importCSVFile csv_parse row_accepted fs db filePath r)))).
  { destruct (run_outcome _); rewrite Hdb; auto. }
  destruct Hrun as (R1 & R2 & R3).
  split; [exact R1|]. split; [exact R2|]. split.
  - by apply List.Forall_forall.
  - split; [split; constructor | reflexivity].
Qed.

End LedgerAndIds.

(* ===================================================================== *)
(** * Numbers: rounding to binary64 *)
(* ===================================================================== *)

Section Rounding.
Local Open Scope Z_scope.

Lemma digits2_pos_size p : digits2_pos p = Pos.size p.
Proof. induction p as [p IH|p IH|]; cbn; by rewrite ?IH. Qed.

Lemma size_bound p : (Npos p < 2 ^ 53)%N -> Zpos (Pos.size p) <= 53.
Proof.
  intros H. pose proof (Pos.size_le p) as Hle.
  assert (Hz : 2 ^ Zpos (Pos.size p) <= 2 * Zpos p).
  { rewrite <- Pos2Z.inj_pow. change (2 * Zpos p) with (Zpos p~0). lia. }
  assert (Hp : Zpos p < 2 ^ 53).
  { change (2 ^ 53) with (Z.of_N (2 ^ 53)%N). lia. }
  destruct (Z.le_gt_cases (Zpos (Pos.size p)) 53) as [|Hgt]; [done|].
  assert (2 ^ 54 <= 2 ^ Zpos (Pos.size p)) by (apply Z.pow_le_mono_r; lia).
  change (2 ^ 54) with (2 * 2 ^ 53) in *. lia.
Qed.

Lemma iter_xO_spec p d :
  digits2_pos (Pos.iter xO p d) = (digits2_pos p + d)%positive /\
  Zpos (Pos.iter xO p d) = Zpos p * 2 ^ Zpos d.
Proof.
  induction d as [|d [IH1 IH2]] using Pos.peano_ind.
  - cbn. split; [lia|]. lia.
  - rewrite Pos.iter_succ. cbn [digits2_pos]. rewrite IH1. split; [lia|].
    rewrite Pos2Z.inj_xO, IH2, Pos2Z.inj_succ, Z.pow_succ_r by lia. lia.
Qed.

(** A mantissa of 53 bits with an exponent in range is left as it is. *)
Lemma binary_round_aux_canonical s m e :
  Zpos (digits2_pos m) = 53 -> -1074 <= e <= 971 ->
  binary_round_aux JS.prec JS.emax s (Zpos m) e loc_Exact = S754_finite s m e.
Proof.
  intros Hd He. unfold binary_round_aux, shr_fexp. cbn [Zdigits2 shr_record_of_loc].
  rewrite Hd.
  assert (H0 : fexp JS.prec JS.emax (53 + e) - e = 0).
  { unfold fexp, emin, JS.prec, JS.emax. lia. }
  rewrite H0. cbn [shr shr_m loc_of_shr_record round_nearest_even Zdigits2 shr_record_of_loc].
  rewrite Hd, H0. cbn [shr shr_m].
  replace (e <=? JS.emax - JS.prec) with true; [reflexivity|].
  symmetry. apply Z.leb_le. unfold JS.emax, JS.prec. lia.
Qed.

(** An integer below 2^53 is a Number. *)
Lemma of_decimal_integer (neg : bool) (p : positive) :
  (Npos p < 2 ^ 53)%N ->
  exists m e, JS.of_decimal neg (Npos p) 0 = S754_finite neg m e /\
              e <= 0 /\ Zpos m = Zpos p * 2 ^ (- e).
Proof.
  intros Hp. apply size_bound in Hp. rewrite <- digits2_pos_size in Hp.
  unfold JS.of_decimal. cbn [Z.leb Z.compare].
  replace (cond_Zopp neg (Zpos p * 10 ^ 0)) with (cond_Zopp neg (Zpos p))
    by (by rewrite Z.pow_0_r, Z.mul_1_r).
  assert (Hround : binary_normalize JS.prec JS.emax (cond_Zopp neg (Zpos p)) 0 neg
                   = binary_round JS.prec JS.emax neg p 0) by (by destruct neg).
  rewrite Hround. unfold binary_round, shl_align.
  assert (Hexp : fexp JS.prec JS.emax (Zpos (digits2_pos p) + 0) - 0
                 = Zpos (digits2_pos p) - 53).
  { unfold fexp, emin, JS.prec, JS.emax. lia. }
  rewrite Hexp.
  destruct (Zpos (digits2_pos p) - 53) as [|k|k] eqn:Ek; [|lia|].
  - exists p, 0. split; [|split; [lia|cbn; lia]].
    apply binary_round_aux_canonical; lia.
  - destruct (iter_xO_spec p k) as [Hdig Hval].
    assert (Hfexp : fexp JS.prec JS.emax (Zpos (digits2_pos p) + 0) = Zneg k).
    { unfold fexp, emin, JS.prec, JS.emax. lia. }
    rewrite Hfexp.
    exists (Pos.iter xO p k), (Zneg k). split; [|split; [lia|exact Hval]].
    apply binary_round_aux_canonical; [rewrite Hdig; lia | lia].
Qed.

(** ** Rounding never gives NaN *)

Lemma shr_1_nonneg mrs : 0 <= shr_m mrs -> 0 <= shr_m (shr_1 mrs).
Proof. destruct mrs as [[|[p|p|]|p] r s]; cbn; lia. Qed.

Lemma iter_shr_1_nonneg n mrs :
  0 <= shr_m mrs -> 0 <= shr_m (SpecFloat.iter_pos shr_1 n mrs).
Proof.
  revert mrs. induction n as [n IH|n IH|]; intros mrs H; cbn.
  - by apply IH, IH, shr_1_nonneg.
  - by apply IH, IH.
  - by apply shr_1_nonneg.
Qed.

Lemma shr_fexp_nonneg m e l :
  0 <= m -> 0 <= shr_m (fst (shr_fexp JS.prec JS.emax m e l)).
Proof.
  intros H. unfold shr_fexp, shr.
  assert (H0 : 0 <= shr_m (shr_record_of_loc m l)) by (by destruct l as [|[]]).
  destruct (_ - e); cbn [fst]; [done | by apply iter_shr_1_nonneg | done].
Qed.

Lemma round_nearest_even_nonneg m l : 0 <= m -> 0 <= round_nearest_even m l.
Proof.
  intros H. destruct l as [|[]]; cbn; try lia. destruct (Z.even m); lia.
Qed.

Lemma binary_round_aux_not_NaN s m e l :
  0 <= m -> JS.is_NaN (binary_round_aux JS.prec JS.emax s m e l) = false.
Proof.
  intros H. unfold binary_round_aux.
  pose proof (shr_fexp_nonneg m e l H) as H1.
  destruct (shr_fexp JS.prec JS.emax m e l) as [mrs1 e1]. cbn [fst] in H1.
  pose proof (shr_fexp_nonneg _ e1 loc_Exact
                (round_nearest_even_nonneg _ (loc_of_shr_record mrs1) H1)) as H2.
  destruct (shr_fexp JS.prec JS.emax _ e1 loc_Exact) as [mrs2 e2]. cbn [fst] in H2.
  destruct (shr_m mrs2) as [|q|q]; [reflexivity| |lia].
  by destruct (e2 <=? JS.emax - JS.prec).
Qed.

(** The Number read from a decimal literal is never NaN. *)
Lemma of_decimal_not_NaN neg m e : JS.is_NaN (JS.of_decimal neg m e) = false.
Proof.
  unfold JS.of_decimal. destruct m as [|p]; [reflexivity|].
  destruct (0 <=? e) eqn:He.
  - apply Z.leb_le in He.
    assert (Hpos : 0 < Zpos p * 10 ^ e) by (apply Z.mul_pos_pos; [lia | apply Z.pow_pos_nonneg; lia]).
    destruct (Zpos p * 10 ^ e) as [|q|q]; [lia| |lia].
    assert (Hround : binary_normalize JS.prec JS.emax (cond_Zopp neg (Zpos q)) 0 neg
                     = binary_round JS.prec JS.emax neg q 0) by (by destruct neg).
    rewrite Hround. unfold binary_round.
    destruct (shl_align q 0 _) as [mz ez]. by apply binary_round_aux_not_NaN.
  - apply Z.leb_gt in He. unfold SFdiv_core_binary.
    set (m' := match _ - _ with Z0 => Zpos p | Zpos _ => Z.shiftl (Zpos p) _ | Zneg _ => 0 end).
    assert (Hm' : 0 <= m').
    { unfold m'. destruct (_ - _); [lia | apply Z.shiftl_nonneg; lia | lia]. }
    assert (Hden : 0 < 10 ^ (- e)) by (apply Z.pow_pos_nonneg; lia).
    pose proof (Z.div_pos m' (10 ^ (- e)) Hm' Hden) as Hq.
    unfold Z.div in Hq. destruct (Z.div_eucl m' (10 ^ (- e))) as [q r]. cbn [fst] in Hq.
    by apply binary_round_aux_not_NaN.
Qed.

End Rounding.

(* ===================================================================== *)
(** * Amount texts *)
(* ===================================================================== *)

(** A string that starts with an ASCII character other than white space
    has no white space in front. *)
Lemma skip_spaces_ascii c t :
  (N_of_ascii c <? 128)%N = true ->
  JS.is_space c = false ->
  JS.skip_spaces (String c t) = String c t.
Proof.
  intros Hascii Hspace. apply N.ltb_lt in Hascii.
  assert (H2 : forall b, JS.is_space2 c b = false).
  { intros b. unfold JS.is_space2, JS.point2.
    replace (194 <=? N_of_ascii c)%N with false by (symmetry; apply N.leb_gt; lia).
    reflexivity. }
  assert (H3 : forall b d, JS.is_space3 c b d = false).
  { intros b d. unfold JS.is_space3, JS.point3.
    replace (224 <=? N_of_ascii c)%N with false by (symmetry; apply N.leb_gt; lia).
    reflexivity. }
  cbn [JS.skip_spaces]. rewrite Hspace.
  destruct t as [|b [|d t2]]; [reflexivity| |]; rewrite H2; [reflexivity|].
  by rewrite H3.
Qed.

Lemma digit_first c t :
  JS.is_digit c = true ->
  JS.skip_spaces (String c t) = String c t /\
  JS.take_sign (String c t) = (false, String c t) /\
  JS.startsWith (String c t) "Infinity" = false.
Proof.
  intros H. destruct c as [[] [] [] [] [] [] [] []]; try discriminate H;
    (split; [by apply skip_spaces_ascii | split; reflexivity]).
Qed.

Lemma span_digits_run (ds : list ascii) c rest :
  Forall (fun d => JS.is_digit d = true) ds ->
  JS.is_digit c = false ->
  JS.span_digits (String.append (string_of_list_ascii ds) (String c rest))
  = (map JS.digit_val ds, String c rest).
Proof.
  intros Hds Hc. induction Hds as [|d ds Hd _ IH].
  - cbn [string_of_list_ascii map]. rewrite append_nil_l. cbn. by rewrite Hc.
  - cbn [string_of_list_ascii map]. rewrite append_cons. cbn [JS.span_digits].
    by rewrite Hd, IH.
Qed.

Lemma span_digits_all (ds : list ascii) :
  Forall (fun d => JS.is_digit d = true) ds ->
  JS.span_digits (string_of_list_ascii ds) = (map JS.digit_val ds, EmptyString).
Proof.
  induction 1 as [|d ds Hd _ IH]; [reflexivity|].
  cbn [string_of_list_ascii map JS.span_digits]. by rewrite Hd, IH.
Qed.

Lemma digits_front (neg : bool) (ds : list ascii) tail :
  ds <> [] ->
  Forall (fun d => JS.is_digit d = true) ds ->
  let body := String.append (string_of_list_ascii ds) tail in
  JS.take_sign (JS.skip_spaces (String.append (if neg then "-" else "") body))
    = (neg, body) /\
  JS.startsWith body "Infinity" = false.
Proof.
  intros Hne Hds body. destruct ds as [|d ds]; [done|].
  apply Forall_cons in Hds as [Hd _].
  assert (Hbody : exists t, body = String d t).
  { eexists. unfold body. cbn [string_of_list_ascii]. by rewrite append_cons. }
  destruct Hbody as [t Hbody].
  destruct (digit_first d t Hd) as (Hskip & Hsign & Hinf).
  split; [|by rewrite Hbody].
  destruct neg.
  - change (String.append "-" body) with (String "-" body).
    by rewrite skip_spaces_ascii.
  - by rewrite append_nil_l, Hbody, Hskip.
Qed.

(** Digits followed by a comma read as the digits alone. *)
Lemma parseFloat_comma_literal (neg : bool) (ds : list ascii) rest :
  ds <> [] ->
  Forall (fun d => JS.is_digit d = true) ds ->
  JS.parseFloat (String.append (if neg then "-" else "")
                   (String.append (string_of_list_ascii ds) (String "," rest)))
  = JS.of_decimal neg (JS.digits_value (map JS.digit_val ds)) 0.
Proof.
  intros Hne Hds.
  destruct (digits_front neg ds (String "," rest) Hne Hds) as [Hfront Hinf].
  unfold JS.parseFloat. rewrite Hfront, Hinf.
  rewrite (span_digits_run ds "," rest Hds eq_refl).
  destruct ds as [|d ds]; [done|]. cbn [map app]. by rewrite app_nil_r.
Qed.

Lemma parseFloat_digits (neg : bool) (ds : list ascii) :
  ds <> [] ->
  Forall (fun d => JS.is_digit d = true) ds ->
  JS.parseFloat (String.append (if neg then "-" else "") (string_of_list_ascii ds))
  = JS.of_decimal neg (JS.digits_value (map JS.digit_val ds)) 0.
Proof.
  intros Hne Hds.
  destruct (digits_front neg ds EmptyString Hne Hds) as [Hfront Hinf].
  assert (Hnil : String.append (string_of_list_ascii ds) EmptyString
                 = string_of_list_ascii ds).
  { clear. induction ds as [|d ds IH]; [reflexivity|].
    cbn [string_of_list_ascii]. by rewrite append_cons, IH. }
  rewrite Hnil in Hfront, Hinf.
  unfold JS.parseFloat. rewrite Hfront, Hinf, (span_digits_all ds Hds).
  destruct ds as [|d ds]; [done|]. cbn [map app]. by rewrite app_nil_r.
Qed.

(** The integer held by the Number of an integer below 2^53 is that
    integer. *)
Lemma int_of_decimal (neg : bool) (n : N) :
  (n < 2 ^ 53)%N ->
  int_of_number (JS.of_decimal neg n 0) = IntVal (cond_Zopp neg (Z.of_N n)).
Proof.
  intros Hn. destruct n as [|p]; [by destruct neg|].
  destruct (of_decimal_integer neg p Hn) as (m & e & -> & He & Hm).
  cbn [int_of_number]. do 2 f_equal.
  rewrite Z.shiftl_div_pow2, Hm by lia.
  apply Z.div_mul. apply Z.pow_nonzero; lia.
Qed.

Lemma transform_amount year (record : csv_record) c t :
  amount_text record = Some (String c t) ->
  tiliointisumma (transform year record) = JS.parseFloat (String c t).
Proof.
  unfold amount_text, transform. cbn [tiliointisumma]. by intros ->.
Qed.

Lemma transform_amount_default year (record : csv_record) :
  JS.truthy (amount_text record) = false ->
  tiliointisumma (transform year record) = S754_zero false.
Proof.
  unfold amount_text, transform. cbn [tiliointisumma]. intros H.
  unfold JS.or_else at 1. rewrite H. reflexivity.
Qed.

(** An amount written with a decimal comma, as Finnish data does, loses its
    fraction: for digits followed by a comma, the stored amount is what
    the digits in front of the comma read as on their own, the Number
    nearest to that integer with its sign; below 2^53 it is that integer
    itself. *)
Theorem decimal_comma_truncates_amount (year : option nat) (record : csv_record)
    (neg : bool) (ds : list ascii) (rest : string) :
  let n := JS.digits_value (map JS.digit_val ds) in
  let amount := tiliointisumma (transform year record) in
  ds <> [] ->
  Forall (fun d => JS.is_digit d = true) ds ->
  amount_text record
    = Some (String.append (if neg then "-" else "")
              (String.append (string_of_list_ascii ds) (String "," rest))) ->
  amount = JS.of_decimal neg n 0 /\
  amount = JS.parseFloat (String.append (if neg then "-" else "")
                                        (string_of_list_ascii ds)) /\
  ((n < 2 ^ 53)%N ->
   int_of_number amount = IntVal (if neg then - Z.of_N n else Z.of_N n)%Z).
Proof.
  intros n amount Hne Hds Htext.
  assert (Hamount : amount = JS.of_decimal neg n 0).
  { unfold amount, n. rewrite <- (parseFloat_comma_literal neg ds rest Hne Hds).
    destruct (String.append (if neg then "-" else "") _) as [|c t] eqn:E.
    - destruct neg, ds; try done; discriminate E.
    - by apply transform_amount. }
  split; [exact Hamount|]. split.
  - rewrite Hamount. symmetry. by apply parseFloat_digits.
  - intros Hn. rewrite Hamount, (int_of_decimal neg n Hn). by destruct neg.
Qed.

Lemma parseFloat_NaN s :
  JS.is_NaN (JS.parseFloat s)
  = negb (starts_numeric (snd (JS.take_sign (JS.skip_spaces s)))).
Proof.
  unfold JS.parseFloat. destruct (JS.take_sign (JS.skip_spaces s)) as [neg s1].
  cbn [snd]. unfold starts_numeric.
  destruct (JS.startsWith s1 "Infinity"); [reflexivity|]. cbn [orb].
  destruct s1 as [|c t]; [reflexivity|].
  destruct (JS.is_digit c) eqn:Hd.
  - cbn [JS.span_digits]. rewrite Hd. destruct (JS.span_digits t) as [ds r].
    destruct (match r with String "." u => JS.span_digits u | _ => ([], r) end)
      as [fp s3]. cbn [orb negb]. apply of_decimal_not_NaN.
  - cbn [JS.span_digits orb]. rewrite Hd.
    destruct (Ascii.eqb c ".") eqn:Edot.
    + apply Ascii.eqb_eq in Edot as ->. cbn [andb].
      destruct t as [|d u]; [reflexivity|]. cbn [JS.span_digits].
      destruct (JS.is_digit d); [|reflexivity].
      destruct (JS.span_digits u) as [ds r]. cbn [negb]. apply of_decimal_not_NaN.
    + destruct c as [[] [] [] [] [] [] [] []]; try discriminate Edot; reflexivity.
Qed.

(** Which records get the amount NaN: those whose amount column (or its
    alias) is filled with a text that, after leading white space and an
    optional sign, starts neither with a digit, nor with a dot and a digit,
    nor with [Infinity].  A record without an amount never does. *)
Theorem amount_is_NaN_iff (year : option nat) (record : csv_record) :
  JS.is_NaN (tiliointisumma (transform year record))
  = match amount_text record with
    | Some (String c t) =>
        negb (starts_numeric (snd (JS.take_sign (JS.skip_spaces (String c t)))))
    | _ => false
    end.
Proof.
  destruct (amount_text record) as [[|c t]|] eqn:E.
  - rewrite transform_amount_default; [reflexivity | by rewrite E].
  - rewrite (transform_amount year record c t E). apply parseFloat_NaN.
  - rewrite transform_amount_default; [reflexivity | by rewrite E].
Qed.

(* ===================================================================== *)
(** * The download phase *)
(* ===================================================================== *)

Lemma download_loop_spec net force fs todo acc fs' dls :
  download_loop net force fs todo acc = Some (fs', dls) ->
  exists new,
    dls = acc ++ new /\
    map dl_resource new = todo /\
    Forall (fun d => dl_filePath d = resource_path (dl_resource d) /\
                     is_Some (fs' !! dl_filePath d) /\
                     (dl_skipped d = true -> force = false) /\
                     (dl_skipped d = false ->
                      exists body, body_of net (res_url (dl_resource d)) = Some body /\
                                   dl_size d = String.length body)) new /\
    (forall p, is_Some (fs !! p) -> is_Some (fs' !! p)) /\
    (forall p, (forall d, In d new -> dl_skipped d = false -> dl_filePath d <> p) ->
               fs' !! p = fs !! p).
Proof.
  revert fs acc. induction todo as [|r todo IH]; intros fs acc H; cbn in H.
  - injection H as <- <-. exists []. rewrite app_nil_r. repeat split; auto.
  - fold (resource_path r) in H.
    assert (Hfetch : forall body,
               body_of net (res_url r) = Some body ->
               download_loop net force (<[resource_path r := body]> fs) todo
                 (acc ++ [mkDownload (resource_path r) (String.length body) r false])
               = Some (fs', dls) ->
               exists new,
                 dls = acc ++ new /\
                 map dl_resource new = r :: todo /\
                 Forall (fun d => dl_filePath d = resource_path (dl_resource d) /\
                                  is_Some (fs' !! dl_filePath d) /\
                                  (dl_skipped d = true -> force = false) /\
                                  (dl_skipped d = false ->
                                   exists body, body_of net (res_url (dl_resource d))
                                                = Some body /\
                                                dl_size d = String.length body)) new /\
                 (forall p, is_Some (fs !! p) -> is_Some (fs' !! p)) /\
                 (forall p, (forall d, In d new -> dl_skipped d = false ->
                                       dl_filePath d <> p) ->
                            fs' !! p = fs !! p)).
    { intros body Hbody Hloop.
      apply IH in Hloop as (new & -> & Hres & Hall & Hmono & Hframe).
      exists (mkDownload (resource_path r) (String.length body) r false :: new).
      rewrite <- app_assoc. split; [reflexivity|]. split; [cbn; by rewrite Hres|].
      split; [|split].
      - constructor; [|exact Hall]. cbn. split; [reflexivity|]. split.
        + apply Hmono. rewrite lookup_insert_eq. eauto.
        + split; [discriminate|]. intros _. eauto.
      - intros p Hp. apply Hmono.
        destruct (decide (resource_path r = p)) as [<-|Hne].
        + rewrite lookup_insert_eq. eauto.
        + by rewrite lookup_insert_ne.
      - intros p Hp. rewrite Hframe.
        + apply lookup_insert_ne. apply (Hp _ (or_introl eq_refl) eq_refl).
        + intros d Hd. apply Hp. by right. }
    destruct (fs !! resource_path r) as [existing|] eqn:Efile.
    + destruct force; cbn [negb] in H.
      * destruct (body_of net (res_url r)) as [body|] eqn:Hbody; [|discriminate].
        by apply (Hfetch body).
      * apply IH in H as (new & -> & Hres & Hall & Hmono & Hframe).
        exists (mkDownload (resource_path r) (String.length existing) r true :: new).
        rewrite <- app_assoc. split; [reflexivity|]. split; [cbn; by rewrite Hres|].
        split; [|split].
        -- constructor; [|exact Hall]. cbn. split; [reflexivity|]. split.
           ++ apply Hmono. rewrite Efile. eauto.
           ++ split; [reflexivity | discriminate].
        -- exact Hmono.
        -- intros p Hp. apply Hframe. intros d Hd. apply Hp. by right.
    + destruct (body_of net (res_url r)) as [body|] eqn:Hbody; [|discriminate].
      by apply (Hfetch body).
Qed.

Lemma download_success net yearsToDownload force fs fs' dls :
  downloadAllProcurementFiles net yearsToDownload force fs = Some (fs', dls) ->
  exists dataset,
    catalog net = Some dataset /\
    map dl_resource dls
      = select_years yearsToDownload (filterProcurementResources dataset) /\
    Forall (fun d => is_Some (fs' !! dl_filePath d) /\
                     (dl_skipped d = true -> force = false)) dls.
Proof.
  unfold downloadAllProcurementFiles.
  destruct (catalog net) as [dataset|]; [|discriminate].
  intros H. apply download_loop_spec in H as (new & -> & Hres & Hall & _).
  exists dataset. split; [reflexivity|]. split; [exact Hres|].
  eapply List.Forall_impl; [|exact Hall]. cbn. tauto.
Qed.

(** A download phase that succeeds returns one entry per selected resource,
    in the order of the selection; each entry points to the file named
    after its resource, which exists afterwards; an entry is marked skipped
    only in a run that is not forced, and an entry that is not skipped
    carries the size of the body that was fetched.  No file disappears, and
    only the files of fetched resources change. *)
Theorem download_results_follow_selection (net : remote)
    (yearsToDownload : option (list js_int)) (force : bool)
    (fs fs' : filesystem) (dls : list download_result) :
  downloadAllProcurementFiles net yearsToDownload force fs = Some (fs', dls) ->
  exists dataset,
    catalog net = Some dataset /\
    map dl_resource dls
      = select_years yearsToDownload (filterProcurementResources dataset) /\
    Forall (fun d => dl_filePath d = resource_path (dl_resource d) /\
                     is_Some (fs' !! dl_filePath d) /\
                     (dl_skipped d = true -> force = false) /\
                     (dl_skipped d = false ->
                      exists body, body_of net (res_url (dl_resource d)) = Some body /\
                                   dl_size d = String.length body)) dls /\
    (forall p, is_Some (fs !! p) -> is_Some (fs' !! p)) /\
    (forall p, (forall d, In d dls -> dl_skipped d = false -> dl_filePath d <> p) ->
               fs' !! p = fs !! p).
Proof.
  unfold downloadAllProcurementFiles.
  destruct (catalog net) as [dataset|]; [|discriminate].
  intros H. apply download_loop_spec in H as (new & -> & H).
  exists dataset. split; [reflexivity|]. exact H.
Qed.

Lemma download_loop_offline net fs todo acc :
  Forall (fun r => is_Some (fs !! resource_path r)) todo ->
  download_loop net false fs todo acc
  = Some (fs, acc ++ map (skipped_result fs) todo).
Proof.
  intros H. revert acc. induction H as [|r todo [existing Hr] _ IH]; intros acc; cbn.
  - by rewrite app_nil_r.
  - fold (resource_path r). rewrite Hr. cbn [negb]. rewrite IH, <- app_assoc.
    unfold skipped_result at 2. by rewrite Hr.
Qed.

(** A run that is not forced, with the file of every selected resource on
    disk, fetches nothing: whatever the server would answer for the files,
    the download phase succeeds, leaves the files as they are and marks
    every entry skipped. *)
Theorem unforced_run_with_files_fetches_nothing (net : remote)
    (yearsToDownload : option (list js_int)) (fs : filesystem)
    (dataset : list resource) :
  let selected := select_years yearsToDownload (filterProcurementResources dataset) in
  catalog net = Some dataset ->
  Forall (fun r => is_Some (fs !! resource_path r)) selected ->
  downloadAllProcurementFiles net yearsToDownload false fs
  = Some (fs, map (skipped_result fs) selected).
Proof.
  cbv zeta. intros Hcat Hfiles. unfold downloadAllProcurementFiles.
  rewrite Hcat. by rewrite (download_loop_offline net fs _ [] Hfiles).
Qed.

Lemma download_loop_forced_fails net fs todo acc :
  download_loop net true fs todo acc = None <->
  Exists (fun r => body_of net (res_url r) = None) todo.
Proof.
  revert fs acc. induction todo as [|r todo IH]; intros fs acc; cbn.
  - split; [discriminate|]. intros H. apply Exists_nil in H. destruct H.
  - rewrite Exists_cons.
    destruct (fs !! join_dir DOWNLOAD_DIR (res_name r)); cbn [negb];
      destruct (body_of net (res_url r)) as [body|];
      rewrite ?IH; split; auto; intros [H|H]; auto; discriminate.
Qed.

(** A forced run fetches every selected resource, whether or not its file
    exists: the download phase fails exactly when the catalog cannot be
    read or the body of some selected resource cannot be fetched, and when
    it succeeds no entry is marked skipped. *)
Theorem forced_run_fetches_everything (net : remote)
    (yearsToDownload : option (list js_int)) (fs : filesystem) :
  (downloadAllProcurementFiles net yearsToDownload true fs = None <->
   catalog net = None \/
   exists dataset r,
     catalog net = Some dataset /\
     In r (select_years yearsToDownload (filterProcurementResources dataset)) /\
     body_of net (res_url r) = None) /\
  (forall fs' dls,
      downloadAllProcurementFiles net yearsToDownload true fs = Some (fs', dls) ->
      Forall (fun d => dl_skipped d = false) dls).
Proof.
  split.
  - unfold downloadAllProcurementFiles. destruct (catalog net) as [dataset|].
    + rewrite download_loop_forced_fails, List.Exists_exists. split.
      * intros (r & Hin & Hr). right. eauto.
      * intros [H|(dataset' & r & [= <-] & Hin & Hr)]; [discriminate | eauto].
    + split; auto.
  - intros fs' dls H.
    apply download_success in H as (_ & _ & _ & Hall).
    eapply List.Forall_impl; [|exact Hall]. cbn. intros d (_ & Hskip).
    destruct (dl_skipped d); [|reflexivity]. by specialize (Hskip eq_refl).
Qed.

Lemma years_include_spec l year :
  years_include l year = true <->
  exists n, year = Some n /\ In (IntVal (Z.of_nat n)) l.
Proof.
  destruct year as [n|]; cbn.
  - rewrite existsb_exists. split.
    + intros ([|z|neg] & Hin & Hz); [discriminate| |discriminate].
      apply Z.eqb_eq in Hz as ->. eauto.
    + intros (m & [= <-] & Hin). exists (IntVal (Z.of_nat n)).
      split; [exact Hin | apply Z.eqb_refl].
  - split; [discriminate|]. intros (n & Hn & _). discriminate.
Qed.

Lemma select_years_all_NaN y ys resources :
  Forall (fun e => e = IntNaN) (y :: ys) ->
  select_years (Some (y :: ys)) resources = [].
Proof.
  intros Hnan. cbn [select_years]. apply filter_none. intros r _.
  apply not_true_iff_false. rewrite years_include_spec. intros (n & _ & Hin).
  rewrite List.Forall_forall in Hnan. by specialize (Hnan _ Hin).
Qed.

(** The years filter: with a non-empty list of years, a resource is
    selected exactly when its name has a year which is one of the listed
    numbers; a resource without a year in its name and a list entry that
    is not a number select nothing.  Without a list, or with an empty one,
    every resource is kept. *)
Theorem select_years_spec (y : js_int) (ys : list js_int) (resources : list resource) :
  (forall r,
      In r (select_years (Some (y :: ys)) resources) <->
      In r resources /\
      exists n, extractYearFromFilename (res_name r) = Some n /\
                In (IntVal (Z.of_nat n)) (y :: ys)) /\
  select_years None resources = resources /\
  select_years (Some []) resources = resources /\
  (Forall (fun e => e = IntNaN) (y :: ys) ->
   select_years (Some (y :: ys)) resources = []).
Proof.
  split; [|split; [reflexivity|split; [reflexivity|apply select_years_all_NaN]]].
  intros r. cbn [select_years]. rewrite List.filter_In, years_include_spec. reflexivity.
Qed.

(* ===================================================================== *)
(** * How a run of the update script ends *)
(* ===================================================================== *)

Lemma download_entries net yearsToDownload force fs fs' dls :
  downloadAllProcurementFiles net yearsToDownload force fs = Some (fs', dls) ->
  Forall (fun d => dl_filePath d = resource_path (dl_resource d) /\
                   is_Some (fs' !! dl_filePath d)) dls.
Proof.
  unfold downloadAllProcurementFiles.
  destruct (catalog net) as [dataset|]; [|discriminate].
  intros H. apply download_loop_spec in H as (new & -> & _ & Hall & _).
  eapply List.Forall_impl; [|exact Hall]. cbn. tauto.
Qed.

Section UpdateRuns.
Variable csv_parse : ascii -> string -> list csv_record * stream_end.
Variable row_accepted : invoice -> bool.

(** The import of a file that is on disk stops the process only when the
    file is read to its end and a row of its final batch is refused. *)
Lemma importCSVFile_crashed fs db filePath r content :
  fs !! filePath = Some content ->
  run_outcome (importCSVFile csv_parse row_accepted fs db filePath r) = Crashed ->
  exists rows,
    csv_parse (detectDelimiter (Some content) (JS.toLowerCase (res_format r))) content
      = (rows, EndOfFile) /\
    forallb row_accepted
      (final_batch (accepted (extractYearFromFilename (res_name r)) rows)) = false.
Proof.
  intros Hfile. unfold importCSVFile. rewrite Hfile.
  destruct (csv_parse _ content) as [rows fin]. intros H.
  apply import_events_crashed in H as [-> H]. eauto.
Qed.

(** How a run of the update script ends.  It is fatal exactly when the
    download phase fails and reports no files exactly when the catalog is
    read and the selection is empty; in both cases the database is the
    starting one, emptied if clearing was asked for.  When it completes
    there is one import result per selected resource, in the order of the
    selection.  It stops inside the import phase only when the file of a
    selected resource is read to its end and the storage refuses a row of
    its final batch. *)
Theorem update_exit_status (opts : options) (net : remote) (fs : filesystem)
    (db : database) :
  let result := updateProcurementData csv_parse row_accepted opts net fs db in
  let download :=
    downloadAllProcurementFiles net (years opts) (forceRedownload opts) fs in
  let selection dataset :=
    select_years (years opts) (filterProcurementResources dataset) in
  (snd result = Fatal <-> download = None) /\
  (snd result = NoFiles <->
   exists dataset, catalog net = Some dataset /\ selection dataset = []) /\
  (snd result = Fatal \/ snd result = NoFiles -> fst result = after_clear opts db) /\
  (forall results,
      snd result = Completed results ->
      exists dataset,
        catalog net = Some dataset /\
        selection dataset <> [] /\
        map result_filename results = map res_name (selection dataset)) /\
  (snd result = Aborted ->
   exists dataset fs' dls r content rows,
     catalog net = Some dataset /\
     download = Some (fs', dls) /\
     In r (selection dataset) /\
     fs' !! resource_path r = Some content /\
     csv_parse (detectDelimiter (Some content) (JS.toLowerCase (res_format r))) content
       = (rows, EndOfFile) /\
     forallb row_accepted
       (final_batch (accepted (extractYearFromFilename (res_name r)) rows)) = false).
Proof.
  cbv zeta. unfold updateProcurementData, after_clear, initializeDatabase.
  destruct (downloadAllProcurementFiles net (years opts) (forceRedownload opts) fs)
    as [[fs' dls]|] eqn:Edl.
  2:{ cbn [fst snd]. split; [done|]. split.
      { split; [discriminate|].
        intros (dataset & Hcat & Hsel). unfold downloadAllProcurementFiles in Edl.
        rewrite Hcat, Hsel in Edl. discriminate. }
      split; [done|]. split; intros; discriminate. }
  pose proof (download_success _ _ _ _ _ _ Edl) as (dataset & Hcat & Hres & _).
  pose proof (download_entries _ _ _ _ _ _ Edl) as Hentries.
  destruct dls as [|d dls].
  - cbn [fst snd]. split; [split; discriminate|]. split.
    { split; [|done]. intros _. exists dataset. by rewrite <- Hres. }
    split; [done|]. split; intros; discriminate.
  - assert (Hnot : (exists dataset',
                       catalog net = Some dataset' /\
                       select_years (years opts) (filterProcurementResources dataset') = [])
                   -> False).
    { intros (dataset' & Hcat' & Hsel).
      rewrite Hcat in Hcat'. injection Hcat' as <-. rewrite Hsel in Hres. discriminate. }
    unfold importAllFiles.
    destruct (importAllFiles_loop csv_parse row_accepted fs' _ (d :: dls) [])
      as [db3 [results|]] eqn:Eloop; cbn [fst snd].
    + split; [split; discriminate|]. split; [split; [discriminate | by intros H]|].
      split; [intros [H|H]; discriminate|]. split; [|discriminate].
      intros results' [= <-]. exists dataset. split; [exact Hcat|]. split.
      * rewrite <- Hres. discriminate.
      * apply importAllFiles_loop_results in Eloop as (res & -> & Hnames & _).
        cbn [app]. rewrite Hnames, <- Hres, List.map_map. reflexivity.
    + split; [split; discriminate|]. split; [split; [discriminate | by intros H]|].
      split; [intros [H|H]; discriminate|]. split; [intros; discriminate|].
      intros _.
      apply importAllFiles_loop_stopped in Eloop
        as (before & d0 & after & db1 & res1 & Hsplit & _ & Hcrash & _).
      assert (Hin : In d0 (d :: dls)).
      { rewrite Hsplit. apply in_or_app. right. by left. }
      rewrite List.Forall_forall in Hentries.
      destruct (Hentries d0 Hin) as [Hpath [content Hfile]].
      destruct (importCSVFile_crashed _ _ _ _ _ Hfile Hcrash) as (rows & Hparse & Hrefused).
      exists dataset, fs', (d :: dls), (dl_resource d0), content, rows.
      split; [exact Hcat|]. split; [reflexivity|]. split.
      { rewrite <- Hres. by apply in_map. }
      split; [by rewrite <- Hpath|]. by split.
Qed.

(** A years list in which nothing is a number selects no resource: the run
    fetches and imports nothing and reports that there are no files (or is
    fatal when the catalog cannot be read); with the clear flag, the two
    tables have been emptied all the same. *)
Theorem unparseable_years_import_nothing (opts : options) (net : remote)
    (fs : filesystem) (db : database) (y : js_int) (ys : list js_int) :
  years opts = Some (y :: ys) ->
  Forall (fun e => e = IntNaN) (y :: ys) ->
  updateProcurementData csv_parse row_accepted opts net fs db
  = (after_clear opts db,
     match catalog net with Some _ => NoFiles | None => Fatal end).
Proof.
  intros Hyears Hnan. unfold updateProcurementData, downloadAllProcurementFiles.
  rewrite Hyears. destruct (catalog net) as [dataset|]; [|reflexivity].
  rewrite (select_years_all_NaN y ys _ Hnan). reflexivity.
Qed.

End UpdateRuns.

(* ===================================================================== *)
(** * The command line: the years option *)
(* ===================================================================== *)

Lemma js_split_nonempty sep s : js_split sep s <> [].
Proof.
  destruct s as [|c t]; cbn; [done|].
  destruct (Ascii.eqb c sep); [done|]. by destruct (js_split sep t).
Qed.

Lemma js_split_cons_other sep c t :
  Ascii.eqb c sep = false ->
  exists h rest, js_split sep t = h :: rest /\
                 js_split sep (String c t) = String c h :: rest.
Proof.
  intros Hc. cbn. rewrite Hc.
  destruct (js_split sep t) as [|h rest] eqn:E; [by apply js_split_nonempty in E|].
  eauto.
Qed.

Lemma js_split_years t :
  js_split "=" (String.append "--years=" t) = "--years" :: js_split "=" t.
Proof.
  change (String.append "--years=" t)
    with (String "-" (String "-" (String "y" (String "e" (String "a"
           (String "r" (String "s" (String "=" t)))))))).
  cbn. reflexivity.
Qed.

Lemma parse_years_nonempty yearArg :
  JS.startsWith yearArg "--years=" = true -> parse_years yearArg <> [].
Proof.
  intros H. apply startsWith_spec in H as [t ->]. unfold parse_years.
  rewrite js_split_years.
  destruct (js_split "=" t) as [|value rest] eqn:E; [by apply js_split_nonempty in E|].
  destruct (js_split "," value) as [|y ys] eqn:Ev; [by apply js_split_nonempty in Ev|].
  discriminate.
Qed.

Lemma find_first {A} (f : A -> bool) (l : list A) (a : A) :
  List.find f l = Some a ->
  exists pre post, l = pre ++ a :: post /\
                   Forall (fun x => f x = false) pre /\ f a = true.
Proof.
  induction l as [|x l IH]; cbn; [discriminate|].
  destruct (f x) eqn:E.
  - intros [= <-]. exists [], l. auto.
  - intros H. apply IH in H as (pre & post & -> & Hpre & Ha).
    exists (x :: pre), post. split; [reflexivity|]. split; [by constructor | exact Ha].
Qed.

Lemma find_none_all {A} (f : A -> bool) (l : list A) :
  List.find f l = None <-> Forall (fun x => f x = false) l.
Proof.
  induction l as [|x l IH]; cbn; [split; [constructor | reflexivity]|].
  destruct (f x) eqn:E.
  - split; [discriminate|]. intros H. apply Forall_cons in H as [H _]. congruence.
  - rewrite IH. split; [by constructor|]. intros H. by apply Forall_cons in H as [_ H].
Qed.

(** The years option of the command line.  It is unset exactly when no
    argument starts with [--years=]; otherwise the first such argument is
    used and the list read from it is never empty, so the selection is
    always filtered by it: an empty or unreadable value does not mean all
    years. *)
Theorem years_option_spec (args : list string) :
  (years (parse_options args) = None <->
   Forall (fun a => JS.startsWith a "--years=" = false) args) /\
  (forall l,
      years (parse_options args) = Some l ->
      l <> [] /\
      (exists pre a post,
          args = pre ++ a :: post /\
          Forall (fun x => JS.startsWith x "--years=" = false) pre /\
          JS.startsWith a "--years=" = true /\
          l = parse_years a) /\
      (forall resources,
          select_years (Some l) resources
          = List.filter (fun r => years_include l (extractYearFromFilename (res_name r)))
                        resources)).
Proof.
  unfold parse_options. cbn [years]. split.
  - rewrite <- find_none_all.
    destruct (List.find _ args); split; congruence.
  - intros l H.
    destruct (List.find (fun arg => JS.startsWith arg "--years=") args) as [a|] eqn:E;
      [|discriminate].
    injection H as <-. pose proof E as E'.
    apply find_first in E' as (pre & post & -> & Hpre & Ha).
    pose proof (parse_years_nonempty a Ha) as Hne.
    split; [exact Hne|]. split; [by exists pre, a, post|].
    intros resources. by destruct (parse_years a).
Qed.

(** ** Reading back a list of years *)

Lemma js_split_none sep s :
  Forall (fun c => Ascii.eqb c sep = false) (list_ascii_of_string s) ->
  js_split sep s = [s].
Proof.
  induction s as [|c t IH]; cbn; [reflexivity|].
  intros H. apply Forall_cons in H as [Hc Ht]. by rewrite Hc, IH.
Qed.

Lemma js_split_segment sep p t :
  Forall (fun c => Ascii.eqb c sep = false) (list_ascii_of_string p) ->
  js_split sep (String.append p (String sep t)) = p :: js_split sep t.
Proof.
  induction p as [|c p IH]; intros H.
  - rewrite append_nil_l. cbn. by rewrite Ascii.eqb_refl.
  - cbn in H. apply Forall_cons in H as [Hc Hp].
    rewrite append_cons. cbn [js_split]. by rewrite Hc, IH.
Qed.

Lemma number_text_chars s :
  is_number_text s = true ->
  s <> EmptyString /\ Forall (fun c => JS.is_digit c = true) (list_ascii_of_string s).
Proof.
  unfold is_number_text. destruct s as [|c t]; [discriminate|].
  intros H. split; [discriminate|].
  apply List.Forall_forall. intros x Hx.
  exact (proj1 (List.forallb_forall _ _) H x Hx).
Qed.

Lemma digit_is_plain c :
  JS.is_digit c = true ->
  Ascii.eqb c "," = false /\ Ascii.eqb c "=" = false /\ JS.is_space c = false /\
  Ascii.eqb c "x" = false /\ Ascii.eqb c "X" = false /\
  radix_digit 10 c = Some (JS.digit_val c).
Proof.
  intros H. destruct c as [[] [] [] [] [] [] [] []]; try discriminate H;
    repeat split; reflexivity.
Qed.

Lemma list_ascii_of_append s t :
  list_ascii_of_string (String.append s t)
  = list_ascii_of_string s ++ list_ascii_of_string t.
Proof.
  induction s as [|c s IH]; [reflexivity|].
  rewrite append_cons. cbn. by rewrite IH.
Qed.

Lemma comma_separated_split parts :
  parts <> [] ->
  Forall (fun p => is_number_text p = true) parts ->
  js_split "," (comma_separated parts) = parts /\
  Forall (fun c => Ascii.eqb c "=" = false)
         (list_ascii_of_string (comma_separated parts)).
Proof.
  intros Hne H. induction H as [|p parts Hp Hparts IH]; [done|].
  apply number_text_chars in Hp as [_ Hp].
  assert (Hcomma : Forall (fun c => Ascii.eqb c "," = false) (list_ascii_of_string p)).
  { eapply List.Forall_impl; [|exact Hp]. intros c Hc. by destruct (digit_is_plain c Hc) as (? & ? & ? & ? & ? & ?). }
  assert (Heq : Forall (fun c => Ascii.eqb c "=" = false) (list_ascii_of_string p)).
  { eapply List.Forall_impl; [|exact Hp]. intros c Hc. by destruct (digit_is_plain c Hc) as (? & ? & ? & ? & ? & ?). }
  destruct parts as [|q parts].
  - cbn [comma_separated]. split; [by apply js_split_none | exact Heq].
  - destruct (IH ltac:(discriminate)) as [IH1 IH2].
    change (comma_separated (p :: q :: parts))
      with (String.append p (String "," (comma_separated (q :: parts)))).
    split.
    + by rewrite js_split_segment, IH1.
    + rewrite list_ascii_of_append. apply Forall_app. split; [exact Heq|].
      cbn [list_ascii_of_string]. by constructor.
Qed.

Lemma digit_is_ascii c :
  JS.is_digit c = true ->
  (N_of_ascii c <? 128)%N = true /\ JS.is_space c = false /\
  JS.is_continuation c = false.
Proof.
  intros H. destruct c as [[] [] [] [] [] [] [] []]; try discriminate H;
    repeat split; reflexivity.
Qed.

(** A byte that is not a continuation byte ends no white space character
    of several bytes. *)
Lemma skip_spaces_back_ascii c l :
  JS.is_space c = false -> JS.is_continuation c = false ->
  JS.skip_spaces_back (c :: l) = c :: l.
Proof.
  intros Hspace Hcont. cbn [JS.skip_spaces_back]. rewrite Hspace.
  assert (H2 : forall b, JS.is_space2 b c = false).
  { intros b. unfold JS.is_space2, JS.point2. by rewrite Hcont, andb_false_r. }
  assert (H3 : forall d b, JS.is_space3 d b c = false).
  { intros d b. unfold JS.is_space3, JS.point3.
    by rewrite Hcont, andb_false_r. }
  destruct l as [|b [|d l]]; [reflexivity| |]; rewrite H2; [reflexivity|].
  by rewrite H3.
Qed.

Lemma js_trim_number s : is_number_text s = true -> js_trim s = s.
Proof.
  intros H. apply number_text_chars in H as [Hne H]. unfold js_trim.
  assert (Hfront : JS.skip_spaces s = s).
  { destruct s as [|d t]; [done|]. cbn in H. apply Forall_cons in H as [Hd _].
    destruct (digit_is_ascii d Hd) as (? & ? & _). by apply skip_spaces_ascii. }
  rewrite Hfront.
  assert (Hback : JS.skip_spaces_back (rev (list_ascii_of_string s))
                  = rev (list_ascii_of_string s)).
  { apply List.Forall_rev in H. destruct (rev (list_ascii_of_string s)) as [|c l];
      [reflexivity|].
    apply Forall_cons in H as [Hc _].
    destruct (digit_is_ascii c Hc) as (_ & ? & ?). by apply skip_spaces_back_ascii. }
  by rewrite Hback, rev_involutive, string_of_list_ascii_of_string.
Qed.

Lemma radix_digits_number s :
  Forall (fun c => JS.is_digit c = true) (list_ascii_of_string s) ->
  radix_digits 10 s = map JS.digit_val (list_ascii_of_string s).
Proof.
  induction s as [|c t IH]; cbn [list_ascii_of_string map radix_digits]; [reflexivity|].
  intros H. apply Forall_cons in H as [Hc Ht].
  destruct (digit_is_plain c Hc) as (_ & _ & _ & _ & _ & ->). by rewrite IH.
Qed.

(** The natural number a text of digits stands for. *)
Lemma parseInt_number s :
  is_number_text s = true ->
  parseInt s = int_of_number (JS.of_decimal false (Z.to_N (number_of_text s)) 0).
Proof.
  intros H. apply number_text_chars in H as [Hne H].
  destruct s as [|d t]; [done|]. pose proof H as Hall.
  cbn [list_ascii_of_string] in H. apply Forall_cons in H as [Hd Ht].
  destruct (digit_first d t Hd) as (Hskip & Hsign & _).
  unfold parseInt. rewrite Hskip, Hsign.
  assert (Hradix : match String d t with
                   | String "0" (String x u) =>
                       if Ascii.eqb x "x" || Ascii.eqb x "X" then (16, u)
                       else (10, String d t)
                   | _ => (10, String d t)
                   end = (10, String d t)).
  { destruct t as [|x u].
    - destruct d as [[] [] [] [] [] [] [] []]; reflexivity.
    - cbn [list_ascii_of_string] in Ht. apply Forall_cons in Ht as [Hx _].
      destruct (digit_is_plain x Hx) as (_ & _ & _ & Hx1 & Hx2 & _).
      destruct d as [[] [] [] [] [] [] [] []]; try reflexivity.
      by rewrite Hx1, Hx2. }
  rewrite Hradix, (radix_digits_number _ Hall).
  unfold number_of_text. rewrite N2Z.id.
  cbn [list_ascii_of_string map]. reflexivity.
Qed.

(** Reading back a list of years: for an argument [--years=] followed by
    texts of decimal digits separated by commas, the option holds, in
    order, the Number nearest to each number written; these are exactly
    the numbers written when they are below 2^53. *)
Theorem years_argument_round_trip (parts : list string) :
  let arg := String.append "--years=" (comma_separated parts) in
  parts <> [] ->
  Forall (fun p => is_number_text p = true) parts ->
  parse_years arg
  = map (fun p => int_of_number
                    (JS.of_decimal false (Z.to_N (number_of_text p)) 0)) parts /\
  (Forall (fun p => (number_of_text p < 2 ^ 53)%Z) parts ->
   parse_years arg = map (fun p => IntVal (number_of_text p)) parts).
Proof.
  intros arg Hne Hparts.
  assert (Hread : parse_years arg
                  = map (fun p => int_of_number
                                    (JS.of_decimal false (Z.to_N (number_of_text p)) 0))
                        parts).
  { unfold arg, parse_years. rewrite js_split_years.
    destruct (comma_separated_split parts Hne Hparts) as [Hsplit Hnoeq].
    rewrite (js_split_none "=" _ Hnoeq), Hsplit. clear Hsplit Hnoeq Hne arg.
    induction Hparts as [|p parts Hp _ IH]; [reflexivity|].
    cbn [map]. by rewrite (js_trim_number p Hp), (parseInt_number p Hp), IH. }
  split; [exact Hread|].
  intros Hsmall. rewrite Hread. clear Hread Hne Hparts arg.
  induction Hsmall as [|p parts Hp _ IH]; [reflexivity|].
  cbn [map]. rewrite IH. f_equal.
  assert (H0 : (0 <= number_of_text p)%Z) by (unfold number_of_text; lia).
  rewrite int_of_decimal.
  - cbn [cond_Zopp]. by rewrite Z2N.id.
  - change (2 ^ 53)%N with (Z.to_N (2 ^ 53)). lia.
Qed.

(* ===================================================================== *)
(** * The query layer: origins and filters *)
(* ===================================================================== *)

(** The origin check of the server never refuses an origin: the callback
    is always told to allow the request.  The "CORS blocked origin" warning
    is printed exactly for a non-empty origin that is not in the list when
    [FRONTEND_URL] is set; when it is unset no warning is ever printed. *)
Theorem cors_allows_every_origin (FRONTEND_URL origin : option string) :
  fst (cors_origin FRONTEND_URL origin) = CorsAllow /\
  (snd (cors_origin FRONTEND_URL origin) = true <->
   exists o f,
     origin = Some o /\ o <> EmptyString /\ FRONTEND_URL = Some f /\
     ~ In (Some o) (allowedOrigins FRONTEND_URL)).
Proof.
  unfold cors_origin. destruct origin as [[|c t]|]; cbn [JS.truthy negb].
  - split; [reflexivity|]. split; [discriminate|]. intros (o & f & [= <-] & Hne & _). done.
  - set (o := String c t).
    destruct FRONTEND_URL as [f|].
    + cbn [allowedOrigins existsb orb]. rewrite !orb_false_r.
      destruct (String.eqb "http://localhost:5173" o) eqn:E1;
        [apply String.eqb_eq in E1|apply String.eqb_neq in E1];
      (destruct (String.eqb "http://localhost:3000" o) eqn:E2;
        [apply String.eqb_eq in E2|apply String.eqb_neq in E2]);
      (destruct (String.eqb "http://localhost:4173" o) eqn:E3;
        [apply String.eqb_eq in E3|apply String.eqb_neq in E3]);
      (destruct (String.eqb f o) eqn:E4;
        [apply String.eqb_eq in E4|apply String.eqb_neq in E4]);
      cbn [orb fst snd]; (split; [reflexivity|]);
      try (split; [discriminate|];
           intros (o' & f' & [= <-] & _ & [= <-] & Hnot); exfalso; apply Hnot;
           cbn; rewrite ?E1, ?E2, ?E3, ?E4; tauto).
      split; [|reflexivity]. intros _. exists o, f.
      split; [reflexivity|]. split; [discriminate|]. split; [reflexivity|].
      cbn. intros [H|[H|[H|[H|[]]]]]; congruence.
    + cbn [allowedOrigins existsb]. rewrite !orb_true_r. cbn [fst snd].
      split; [reflexivity|]. split; [discriminate|].
      intros (o' & f' & _ & _ & H & _). discriminate.
  - split; [reflexivity|]. split; [discriminate|]. intros (o & f & H & _). discriminate.
Qed.

Lemma add_condition_lists p condition name value st :
  conditions (add_condition p condition name value st)
    = conditions st ++ (if JS.truthy p then [condition] else []) /\
  map fst (params (add_condition p condition name value st))
    = map fst (params st) ++ (if JS.truthy p then [name] else []).
Proof.
  destruct p as [[|c t]|]; cbn; rewrite ?app_nil_r, ?map_app; auto.
Qed.

Lemma build_filters_lists q :
  conditions (build_filters q)
  = (if JS.truthy (q_supplier q)
     then ["(toimittaja_nimi LIKE @supplier OR toimittaja_y_tunnus LIKE @supplier)"]
     else [])
    ++ (if JS.truthy (q_category q) then ["hankintakategoria LIKE @category"] else [])
    ++ (if JS.truthy (q_city q) then ["toimittaja_kunta LIKE @city"] else [])
    ++ (if JS.truthy (q_minAmount q) then ["tiliointisumma >= @minAmount"] else [])
    ++ (if JS.truthy (q_maxAmount q) then ["tiliointisumma <= @maxAmount"] else [])
    ++ (if JS.truthy (q_startDate q) then ["tositepvm >= @startDate"] else [])
    ++ (if JS.truthy (q_endDate q) then ["tositepvm <= @endDate"] else [])
    ++ (if JS.truthy (q_sector q) then ["sektori = @sector"] else [])
    ++ (if JS.truthy (q_procurementUnit q)
        then ["hankintayksikko LIKE @procurementUnit"] else [])
    ++ (if JS.truthy (q_year q) then ["data_year = @year"] else []) /\
  map fst (params (build_filters q))
  = (if JS.truthy (q_supplier q) then ["supplier"] else [])
    ++ (if JS.truthy (q_category q) then ["category"] else [])
    ++ (if JS.truthy (q_city q) then ["city"] else [])
    ++ (if JS.truthy (q_minAmount q) then ["minAmount"] else [])
    ++ (if JS.truthy (q_maxAmount q) then ["maxAmount"] else [])
    ++ (if JS.truthy (q_startDate q) then ["startDate"] else [])
    ++ (if JS.truthy (q_endDate q) then ["endDate"] else [])
    ++ (if JS.truthy (q_sector q) then ["sector"] else [])
    ++ (if JS.truthy (q_procurementUnit q) then ["procurementUnit"] else [])
    ++ (if JS.truthy (q_year q) then ["year"] else []).
Proof.
  unfold build_filters. cbv zeta.
  repeat match goal with
         | |- context [add_condition ?p ?c ?n ?v ?st] =>
             destruct (add_condition_lists p c n v st) as [-> ->]
         end.
  cbn [conditions params map app]. rewrite <- !app_assoc. auto.
Qed.

Lemma add_condition_bound p condition name value st :
  JS.includes condition (String "@" name) = true ->
  Forall2 (fun c kv => JS.includes c (String "@" (fst kv)) = true)
          (conditions st) (params st) ->
  Forall2 (fun c kv => JS.includes c (String "@" (fst kv)) = true)
          (conditions (add_condition p condition name value st))
          (params (add_condition p condition name value st)).
Proof.
  intros Hc Hst. destruct p as [[|c t]|]; cbn; try exact Hst.
  apply Forall2_app; [exact Hst|]. by repeat constructor.
Qed.

(** The filters of the invoice query.  The text of the WHERE clause is put
    together from fixed pieces: it depends on which filters are filled, not
    on what they hold, which only goes into the bound parameters.  Every
    condition comes with the binding of the parameter it names, in the same
    order, and the clause is empty exactly when no filter is filled. *)
Theorem filters_are_fixed_text :
  (forall q1 q2,
      filled_filters q1 = filled_filters q2 ->
      conditions (build_filters q1) = conditions (build_filters q2) /\
      map fst (params (build_filters q1)) = map fst (params (build_filters q2)) /\
      whereClause q1 = whereClause q2 /\
      countQuery q1 = countQuery q2) /\
  (forall q,
      Forall2 (fun c kv => JS.includes c (String "@" (fst kv)) = true)
              (conditions (build_filters q)) (params (build_filters q)) /\
      (whereClause q = EmptyString <-> filled_filters q = repeat false 10)).
Proof.
  split.
  - intros q1 q2 H.
    assert (Hc : conditions (build_filters q1) = conditions (build_filters q2) /\
                 map fst (params (build_filters q1)) = map fst (params (build_filters q2))).
    { destruct (build_filters_lists q1) as [-> ->].
      destruct (build_filters_lists q2) as [-> ->].
      unfold filled_filters in H. cbn [map] in H.
      injection H as -> -> -> -> -> -> -> -> -> ->. auto. }
    destruct Hc as [Hc Hp]. unfold countQuery, whereClause. rewrite Hc. auto.
  - intros q. split.
    + unfold build_filters. cbv zeta.
      repeat (apply add_condition_bound; [reflexivity|]). constructor.
    + unfold whereClause. destruct (build_filters_lists q) as [-> _].
      unfold filled_filters. cbn [map repeat].
      destruct (JS.truthy (q_supplier q)), (JS.truthy (q_category q)),
        (JS.truthy (q_city q)), (JS.truthy (q_minAmount q)),
        (JS.truthy (q_maxAmount q)), (JS.truthy (q_startDate q)),
        (JS.truthy (q_endDate q)), (JS.truthy (q_sector q)),
        (JS.truthy (q_procurementUnit q)), (JS.truthy (q_year q));
        cbn [app]; split; intros H; first [reflexivity | discriminate H].
Qed.

(* ===================================================================== *)
(** * Concrete checks of the further properties *)
(* ===================================================================== *)

Lemma flushes_are_chunks_of_1000_witness :
  concat (run_flushes (import_events schema_not_null sample_resource empty_db
                         sample_rows EndOfFile))
  = accepted (Some 2024) sample_rows.
Proof.
  destruct (flushes_are_chunks_of_1000 schema_not_null sample_resource empty_db sample_rows)
    as (full & rest & _ & _ & _ & _ & _ & H & _).
  exact H.
Defined.

Lemma counts_of_resolved_import_witness :
  run_outcome (import_events schema_not_null sample_resource empty_db sample_rows EndOfFile)
    = Resolved 3 0 /\
  3 + rejected (Some 2024) sample_rows = length sample_rows.
Proof.
  assert (H : run_outcome (import_events schema_not_null sample_resource empty_db
                             sample_rows EndOfFile) = Resolved 3 0)
    by (vm_compute; reflexivity).
  split; [exact H|].
  exact (proj1 (proj2 (proj2
           (counts_of_resolved_import schema_not_null sample_resource empty_db
              sample_rows EndOfFile 3 0 H)))).
Defined.

Lemma parse_error_loses_partial_batch_witness :
  length (accepted (Some 2024) sample_rows) < 1000 /\
  run_db (import_events schema_not_null sample_resource db_2023 sample_rows ParseError)
  = db_2023.
Proof.
  assert (H : length (accepted (Some 2024) sample_rows) < 1000)
    by (vm_compute; lia).
  split; [exact H|].
  exact (proj2 (proj2 (proj2 (proj2 (proj2 (proj2
           (parse_error_loses_partial_batch schema_not_null sample_resource db_2023
              sample_rows)))))) H).
Defined.

Lemma import_keeps_other_rows_witness :
  In old_invoice
     (invoice_columns
        (run_db (importCSVFile (emit_rows sample_rows) schema_not_null sample_fs
                   db_2023 sample_path sample_resource))).
Proof.
  apply (proj1 (proj2 (import_keeps_other_rows (emit_rows sample_rows) schema_not_null
                         sample_fs db_2023 sample_path sample_resource))).
  - left. reflexivity.
  - vm_compute. reflexivity.
Defined.

Lemma last_record_wins_witness :
  accepted (Some 2024) sample_rows
    = [transform (Some 2024) (sample_record "INV-1" "12.50");
       transform (Some 2024) (sample_record "INV-2" "-3")] ++ last_sample_invoice :: [] /\
  List.filter (fun x => String.eqb (lasku_id x) (lasku_id last_sample_invoice))
              (invoice_columns
                 (run_db (import_events schema_not_null sample_resource empty_db
                            sample_rows EndOfFile)))
  = [last_sample_invoice].
Proof.
  assert (H : accepted (Some 2024) sample_rows
              = [transform (Some 2024) (sample_record "INV-1" "12.50");
                 transform (Some 2024) (sample_record "INV-2" "-3")]
                ++ last_sample_invoice :: []) by (vm_compute; reflexivity).
  split; [exact H|].
  apply (last_record_wins schema_not_null sample_resource empty_db sample_rows
           [transform (Some 2024) (sample_record "INV-1" "12.50");
            transform (Some 2024) (sample_record "INV-2" "-3")] [] last_sample_invoice).
  - vm_compute. reflexivity.
  - exact H.
  - reflexivity.
Defined.

Lemma import_keeps_rows_well_formed_witness :
  Forall (fun inv => well_formed_invoice inv = true) (invoice_columns db_2023) /\
  Forall (fun inv => well_formed_invoice inv = true)
         (invoice_columns
            (run_db (importCSVFile (emit_rows sample_rows) schema_not_null sample_fs
                       db_2023 sample_path sample_resource))).
Proof.
  assert (H : Forall (fun inv => well_formed_invoice inv = true) (invoice_columns db_2023)).
  { constructor; [vm_compute; reflexivity | constructor]. }
  split; [exact H|].
  exact (import_keeps_rows_well_formed (emit_rows sample_rows) schema_not_null sample_fs
           db_2023 sample_path sample_resource H).
Defined.

Lemma resolved_import_ledger_row_witness :
  run_outcome (importCSVFile (emit_rows sample_rows) schema_not_null sample_fs
                 db_2023 sample_path sample_resource) = Resolved 3 0 /\
  List.filter (fun x => String.eqb (resource_id x) (res_id sample_resource))
              (dataset_metadata
                 (run_db (importCSVFile (emit_rows sample_rows) schema_not_null sample_fs
                            db_2023 sample_path sample_resource)))
  = [mkMetadataRow 2 "res-2024" "th_data_2024.csv"
       "https://www.avoindata.fi/th_data_2024.csv" "CSV" (Some 2024) None 3 "completed"].
Proof.
  assert (H : run_outcome (importCSVFile (emit_rows sample_rows) schema_not_null sample_fs
                             db_2023 sample_path sample_resource) = Resolved 3 0)
    by (vm_compute; reflexivity).
  split; [exact H|].
  exact (proj1 (resolved_import_ledger_row (emit_rows sample_rows) schema_not_null
                  sample_fs db_2023 sample_path sample_resource 3 0 H)).
Defined.

Lemma import_keeps_ids_fresh_witness :
  ids_fresh db_2023 /\
  ids_fresh (run_db (importCSVFile (emit_rows sample_rows) schema_not_null sample_fs
                       db_2023 sample_path sample_resource)).
Proof.
  assert (H : ids_fresh db_2023).
  { split; cbn; repeat constructor. }
  split; [exact H|].
  exact (proj1 (import_keeps_ids_fresh (emit_rows sample_rows) schema_not_null sample_fs
                  db_2023 sample_path sample_resource H)).
Defined.

Lemma decimal_comma_truncates_amount_witness :
  amount_text comma_record = Some "-12,50" /\
  tiliointisumma (transform (Some 2024) comma_record) = JS.parseFloat "-12" /\
  int_of_number (tiliointisumma (transform (Some 2024) comma_record)) = IntVal (-12).
Proof.
  assert (H : amount_text comma_record = Some "-12,50") by (vm_compute; reflexivity).
  split; [exact H|].
  destruct (decimal_comma_truncates_amount (Some 2024) comma_record true
              ["1"; "2"]%char "50" ltac:(discriminate) ltac:(repeat constructor) H)
    as (_ & T2 & T3).
  split; [exact T2|]. apply T3. vm_compute. reflexivity.
Defined.

Lemma amount_is_NaN_iff_witness :
  JS.is_NaN (tiliointisumma (transform (Some 2024) (sample_record "INV-1" "n/a"))) = true.
Proof.
  rewrite (amount_is_NaN_iff (Some 2024) (sample_record "INV-1" "n/a")).
  vm_compute. reflexivity.
Defined.

Lemma download_results_follow_selection_witness :
  downloadAllProcurementFiles sample_net None false sample_fs
    = Some (sample_fs, [mkDownload sample_path 170 sample_resource true]) /\
  map dl_resource [mkDownload sample_path 170 sample_resource true]
    = select_years None (filterProcurementResources [sample_resource]).
Proof.
  assert (H : downloadAllProcurementFiles sample_net None false sample_fs
              = Some (sample_fs, [mkDownload sample_path 170 sample_resource true]))
    by (vm_compute; reflexivity).
  split; [exact H|].
  destruct (download_results_follow_selection sample_net None false sample_fs sample_fs
              _ H) as (dataset & Hcat & Hres & _).
  injection Hcat as <-. exact Hres.
Defined.

Lemma unforced_run_with_files_fetches_nothing_witness :
  catalog sample_net = Some [sample_resource] /\
  downloadAllProcurementFiles sample_net None false sample_fs
  = Some (sample_fs,
          map (skipped_result sample_fs)
              (select_years None (filterProcurementResources [sample_resource]))).
Proof.
  split; [reflexivity|].
  apply (unforced_run_with_files_fetches_nothing sample_net None sample_fs
           [sample_resource] eq_refl).
  change (select_years None (filterProcurementResources [sample_resource]))
    with [sample_resource].
  constructor; [|constructor]. eexists. vm_compute. reflexivity.
Defined.

Lemma forced_run_fetches_everything_witness :
  downloadAllProcurementFiles sample_net None true sample_fs = None.
Proof.
  apply (proj1 (forced_run_fetches_everything sample_net None sample_fs)).
  right. exists [sample_resource], sample_resource.
  split; [reflexivity|]. split; [|reflexivity]. left. reflexivity.
Defined.

Lemma select_years_spec_witness :
  select_years (Some [IntNaN]) [sample_resource] = [].
Proof.
  apply (proj2 (proj2 (proj2 (select_years_spec IntNaN [] [sample_resource])))).
  repeat constructor.
Defined.

Lemma update_exit_status_witness :
  let opts := mkOptions None false false in
  let result := updateProcurementData (emit_rows sample_rows) schema_not_null
                  opts sample_net sample_fs empty_db in
  let stopped := updateProcurementData (emit_rows sample_rows) schema_not_null
                   opts undated_net undated_fs empty_db in
  snd result = Completed [ImportOk "th_data_2024.csv" 3 0] /\
  (exists dataset,
      catalog sample_net = Some dataset /\
      select_years None (filterProcurementResources dataset) <> [] /\
      map result_filename [ImportOk "th_data_2024.csv" 3 0]
        = map res_name (select_years None (filterProcurementResources dataset))) /\
  snd stopped = Aborted /\
  exists dataset fs' dls r content rows,
    catalog undated_net = Some dataset /\
    downloadAllProcurementFiles undated_net None false undated_fs = Some (fs', dls) /\
    In r (select_years None (filterProcurementResources dataset)) /\
    fs' !! resource_path r = Some content /\
    emit_rows sample_rows
      (detectDelimiter (Some content) (JS.toLowerCase (res_format r))) content
      = (rows, EndOfFile) /\
    forallb schema_not_null
      (final_batch (accepted (extractYearFromFilename (res_name r)) rows)) = false.
Proof.
  cbv zeta.
  assert (H : snd (updateProcurementData (emit_rows sample_rows) schema_not_null
                     (mkOptions None false false) sample_net sample_fs empty_db)
              = Completed [ImportOk "th_data_2024.csv" 3 0]) by (vm_compute; reflexivity).
  assert (H' : snd (updateProcurementData (emit_rows sample_rows) schema_not_null
                      (mkOptions None false false) undated_net undated_fs empty_db)
               = Aborted) by (vm_compute; reflexivity).
  split; [exact H|]. split.
  - exact (proj1 (proj2 (proj2 (proj2
             (update_exit_status (emit_rows sample_rows) schema_not_null
                (mkOptions None false false) sample_net sample_fs empty_db)))) _ H).
  - split; [exact H'|].
    exact (proj2 (proj2 (proj2 (proj2
             (update_exit_status (emit_rows sample_rows) schema_not_null
                (mkOptions None false false) undated_net undated_fs empty_db)))) H').
Defined.

Lemma unparseable_years_import_nothing_witness :
  updateProcurementData (emit_rows sample_rows) schema_not_null
    (mkOptions (Some [IntNaN]) false true) sample_net sample_fs db_2023
  = (clearInvoiceData db_2023, NoFiles).
Proof.
  apply (unparseable_years_import_nothing (emit_rows sample_rows) schema_not_null
           (mkOptions (Some [IntNaN]) false true) sample_net sample_fs db_2023 IntNaN []).
  - reflexivity.
  - repeat constructor.
Defined.

Lemma years_option_spec_witness :
  years (parse_options ["--force"; "--clear"]) = None /\
  parse_years "--years=" <> [].
Proof.
  split.
  - apply (proj1 (years_option_spec ["--force"; "--clear"])). repeat constructor.
  - apply (proj1 (proj2 (years_option_spec ["--clear"; "--years="]) _ eq_refl)).
Defined.

Lemma years_argument_round_trip_witness :
  parse_years "--years=2024,2025" = [IntVal 2024; IntVal 2025].
Proof.
  apply (proj2 (years_argument_round_trip ["2024"; "2025"]
                  ltac:(discriminate) ltac:(repeat constructor))).
  repeat constructor.
Defined.

Lemma cors_allows_every_origin_witness :
  cors_origin (Some "https://app.example") (Some "https://other.example")
  = (CorsAllow, true).
Proof.
  pose proof (cors_allows_every_origin (Some "https://app.example")
                (Some "https://other.example")) as [H1 H2].
  destruct (cors_origin (Some "https://app.example") (Some "https://other.example"))
    as [answer warned].
  cbn [fst snd] in H1, H2. rewrite H1. f_equal. apply H2.
  exists "https://other.example", "https://app.example".
  split; [reflexivity|]. split; [discriminate|]. split; [reflexivity|].
  cbn. intros [H|[H|[H|[H|[]]]]]; discriminate.
Defined.

Lemma filters_are_fixed_text_witness :
  countQuery (sample_query "Oy") = countQuery (sample_query "x' OR '1'='1").
Proof.
  apply (proj1 filters_are_fixed_text (sample_query "Oy") (sample_query "x' OR '1'='1")).
  reflexivity.
Defined.
